(** * PackageDev: syntax-test helpers ([syntax-test_dev.py])

    A shallow embedding of the plugin's functions over a small model of the
    host editor's buffer, together with the properties of the parsing
    grammar, the upward line walker, the suggestion command and the
    highlight handler. *)

From Stdlib Require Import Ascii String.
From Stdlib Require Import List ZArith Lia Bool Arith.
Import ListNotations.

Set Implicit Arguments.

Local Open Scope Z_scope.

(* ================================================================== *)
(** * Python values *)
(* ================================================================== *)

(** A Python [str] is a sequence of code points; the model keeps the code
    points below 256. *)
Definition str := list ascii.

(** String literal. *)
Definition L (s : string) : str := list_ascii_of_string s.

Definition len (s : str) : Z := Z.of_nat (length s).

Fixpoint str_eqb (a b : str) : bool :=
  match a, b with
  | [], [] => true
  | x :: a', y :: b' => Ascii.eqb x y && str_eqb a' b'
  | _, _ => false
  end.

(** [x in xs] for a list of strings. *)
Definition str_in (x : str) (xs : list str) : bool := existsb (str_eqb x) xs.

(** [str.isspace] on one character, which is also the class [\s] of a
    [str] pattern: TAB..CR, FS..US, SPACE, NEL and NBSP. *)
Definition is_space (c : ascii) : bool :=
  let n := nat_of_ascii c in
  ((9 <=? n) && (n <=? 13) || (28 <=? n) && (n <=? 31)
   || (n =? 32) || (n =? 133) || (n =? 160))%nat.

Definition non_space (c : ascii) : bool := negb (is_space c).

Definition is_char (a c : ascii) : bool := Ascii.eqb a c.

Definition not_char (a c : ascii) : bool := negb (Ascii.eqb a c).

Definition newline : ascii := "010"%char.
Definition caret : ascii := "^"%char.
Definition dquote : ascii := ascii_of_nat 34.

(** Length of the longest prefix of [t] inside the class [p]. *)
Fixpoint span (p : ascii -> bool) (t : str) : nat :=
  match t with
  | c :: t' => if p c then S (span p t') else O
  | [] => O
  end.

(** [s.split()]: the maximal runs of non-whitespace characters.  [cur]
    holds the word being read, in reverse. *)
Fixpoint split_from (cur : str) (s : str) : list str :=
  match s with
  | [] => match cur with [] => [] | _ => [rev cur] end
  | c :: s' =>
      if is_space c
      then match cur with
           | [] => split_from [] s'
           | _ => rev cur :: split_from [] s'
           end
      else split_from (c :: cur) s'
  end.

Definition split (s : str) : list str := split_from [] s.

(** [sep.join(xs)]. *)
Fixpoint join (sep : str) (xs : list str) : str :=
  match xs with
  | [] => []
  | [x] => x
  | x :: xs' => x ++ sep ++ join sep xs'
  end.

(** [s * n]. *)
Fixpoint repeat_str (s : str) (n : nat) : str :=
  match n with
  | O => []
  | S n' => s ++ repeat_str s n'
  end.

(** [s.startswith(p)]. *)
Fixpoint startswith (p s : str) : bool :=
  match p, s with
  | [], _ => true
  | x :: p', y :: s' => Ascii.eqb x y && startswith p' s'
  | _ :: _, [] => false
  end.

(** [range(a, b)]. *)
Definition range (a b : Z) : list Z :=
  map (fun i => a + Z.of_nat i) (seq 0 (Z.to_nat (b - a))).

(** Exceptions the modelled code can raise, and the result of a call.
    [OutOfFuel] belongs to the model only: it marks a loop cut short by
    its iteration bound. *)
Inductive exn : Type :=
| IndexError | AttributeError | TypeError | UnboundLocalError | OutOfFuel.

Inductive result (A : Type) : Type :=
| Ok (a : A)
| Raise (e : exn).

Arguments Ok {A} a.
Arguments Raise {A} e.

Definition bind {A B} (m : result A) (k : A -> result B) : result B :=
  match m with
  | Ok a => k a
  | Raise e => Raise e
  end.

Notation "x <- m ;; k" := (bind m (fun x => k))
  (at level 61, m at next level, right associativity).
Notation "' p <- m ;; k" := (bind m (fun x => let p := x in k))
  (at level 61, p pattern, m at next level, right associativity).

(** [xs[0]]. *)
Definition first {A} (xs : list A) : result A :=
  match xs with
  | [] => Raise IndexError
  | x :: _ => Ok x
  end.

(* ================================================================== *)
(** * Regular expressions ([re.match])

    The patterns of the source use literals, character classes, greedy
    repetition of a single class, alternation, an optional group, capture
    groups and the anchors.  [exec] lists the states a backtracking
    matcher reaches, in the order it tries them, so the head of the list
    is the match [re.match] reports. *)
(* ================================================================== *)

Module Re.

Inductive regex : Type :=
| Eps
| Bol                                   (* ^ *)
| Eol                                   (* $ *)
| Cls (p : ascii -> bool)               (* one character of a class *)
| Cat (r1 r2 : regex)
| Alt (r1 r2 : regex)                   (* r1|r2 *)
| Star (p : ascii -> bool)              (* p*, greedy *)
| Plus (p : ascii -> bool)              (* p+, greedy *)
| Grp (n : nat) (r : regex).            (* capture group n *)

(** A literal string, as [re.escape] makes of it. *)
Fixpoint Lit (s : str) : regex :=
  match s with
  | [] => Eps
  | c :: s' => Cat (Cls (is_char c)) (Lit s')
  end.

(** [r?], greedy. *)
Definition Opt (r : regex) : regex := Alt r Eps.

(** A matcher state: characters consumed, text left, groups closed so far
    (latest first) as (number, (start, end)). *)
Record state : Type := mkState {
  pos : nat;
  rest : str;
  groups : list (nat * (nat * nat))
}.

Definition advance (s : state) (k : nat) : state :=
  mkState (pos s + k) (skipn k (rest s)) (groups s).

Definition close (n : nat) (from : nat) (s : state) : state :=
  mkState (pos s) (rest s) ((n, (from, pos s)) :: groups s).

Fixpoint exec (r : regex) (s : state) : list state :=
  match r with
  | Eps => [s]
  | Bol => if (pos s =? 0)%nat then [s] else []
  | Eol =>
      match rest s with
      | [] => [s]
      | [c] => if is_char newline c then [s] else []
      | _ => []
      end
  | Cls p =>
      match rest s with
      | c :: t => if p c then [mkState (S (pos s)) t (groups s)] else []
      | [] => []
      end
  | Cat r1 r2 => flat_map (exec r2) (exec r1 s)
  | Alt r1 r2 => exec r1 s ++ exec r2 s
  | Star p => map (advance s) (rev (seq 0 (S (span p (rest s)))))
  | Plus p => map (advance s) (rev (seq 1 (span p (rest s))))
  | Grp n r => map (close n (pos s)) (exec r s)
  end.

(** The match object. *)
Record Match : Type := mkMatch {
  subject : str;
  final : state
}.

Definition re_match (r : regex) (s : str) : option Match :=
  match exec r (mkState 0 s []) with
  | [] => None
  | f :: _ => Some (mkMatch s f)
  end.

Fixpoint lookup (n : nat) (g : list (nat * (nat * nat))) : option (nat * nat) :=
  match g with
  | [] => None
  | (k, se) :: g' => if (k =? n)%nat then Some se else lookup n g'
  end.

(** [m.group(n)], [None] when the group took no part in the match. *)
Definition group (m : Match) (n : nat) : option str :=
  match lookup n (groups (final m)) with
  | Some (a, b) => Some (firstn (b - a) (skipn a (subject m)))
  | None => None
  end.

(** [m.start(n)] and [m.end(n)], -1 when the group took no part. *)
Definition start (m : Match) (n : nat) : Z :=
  match lookup n (groups (final m)) with
  | Some (a, _) => Z.of_nat a
  | None => -1
  end.

Definition end_of (m : Match) (n : nat) : Z :=
  match lookup n (groups (final m)) with
  | Some (_, b) => Z.of_nat b
  | None => -1
  end.

(** [m.end()]. *)
Definition end_ (m : Match) : Z := Z.of_nat (pos (final m)).

End Re.

(** Truth value of [m.group(n)]. *)
Definition truthy (g : option str) : bool :=
  match g with
  | Some (_ :: _) => true
  | _ => false
  end.

(* ================================================================== *)
(** * The host editor

    The buffer operations the plugin calls.  Positions are character
    offsets; a position outside the buffer is clamped into it.  The scope
    name of a position comes from the host's syntax engine and is left
    abstract. *)
(* ================================================================== *)

Module Sublime.

(** [sublime.Region(a, b)]. *)
Record Region : Type := mkRegion { reg_a : Z; reg_b : Z }.

Definition begin (r : Region) : Z := Z.min (reg_a r) (reg_b r).
Definition end_ (r : Region) : Z := Z.max (reg_a r) (reg_b r).
Definition size (r : Region) : Z := Z.abs (reg_b r - reg_a r).
Definition empty (r : Region) : bool := reg_a r =? reg_b r.

Record View : Type := mkView {
  text : str;                    (* the buffer *)
  sel0 : Region;                 (* view.sel()[0] *)
  file_name : option str;        (* view.file_name() *)
  scope_name : Z -> str          (* view.scope_name(pos) *)
}.

Definition not_newline (c : ascii) : bool := negb (is_char newline c).

Definition clamp (v : View) (p : Z) : nat :=
  Nat.min (Z.to_nat p) (length (text v)).

(** [view.line(pos)]: the line around [pos], without its newline. *)
Definition line (v : View) (p : Z) : Region :=
  let i := clamp v p in
  mkRegion (Z.of_nat (i - span not_newline (rev (firstn i (text v)))))
           (Z.of_nat (i + span not_newline (skipn i (text v)))).

(** [view.substr(region)]. *)
Definition substr (v : View) (r : Region) : str :=
  let i := clamp v (begin r) in
  let j := clamp v (end_ r) in
  firstn (j - i) (skipn i (text v)).

(** [view.rowcol(pos)]. *)
Definition rowcol (v : View) (p : Z) : Z * Z :=
  let i := clamp v p in
  (Z.of_nat (length (filter (is_char newline) (firstn i (text v)))),
   Z.of_nat i - begin (line v p)).

(** The calls that change the buffer or the selection, in the order the
    plugin issues them. *)
Inductive edit : Type :=
| Replace (r : Region) (s : str)      (* view.replace(edit, r, s) *)
| Erase (r : Region)                  (* view.erase(edit, r) *)
| Insert (p : Z) (s : str)            (* view.insert(edit, p, s) *)
| SelClear                            (* view.sel().clear() *)
| SelAdd (r : Region).                (* view.sel().add(r) *)

(** What the highlight handler asks of the host for the region key
    ['current_syntax_test']. *)
Inductive highlight : Type :=
| EraseRegions                        (* view.erase_regions(key) *)
| AddRegions (r : Region) (scope : str) (flags : Z).
                         (* view.add_regions(key, [r], scope, '', flags) *)

(** The two values the handler reads from the settings
    ['PackageDev.sublime-settings'], as [prefs.get] returns them (the host
    puts ['text'] and [['DRAW_NO_FILL']] for a missing key); they are taken
    to be a string and a list of strings. *)
Record Settings : Type := mkSettings {
  scope_for_syntax_test_highlight : str;
  styles_for_syntax_test_highlight : list str
}.

(** The value of an attribute of the [sublime] module: an [int], or
    something else. *)
Inductive py_value : Type :=
| PyInt (z : Z)
| PyOther.

End Sublime.

Import Sublime.

(** [posixpath.basename]. *)
Fixpoint basename_from (cur : str) (s : str) : str :=
  match s with
  | [] => rev cur
  | c :: s' =>
      if is_char "/"%char c then basename_from [] s'
      else basename_from (c :: cur) s'
  end.

Definition basename (s : str) : str := basename_from [] s.

(* ================================================================== *)
(** * The plugin *)
(* ================================================================== *)

Infix "@@" := Re.Cat (at level 60, right associativity).

(** [^(\S+)\s+SYNTAX TEST\s+Q[^Q]+Q\s*(\S+)?$], with Q the double
    quote. *)
Definition declaration_re : Re.regex :=
  Re.Bol @@ Re.Grp 1 (Re.Plus non_space) @@ Re.Plus is_space
  @@ Re.Lit (L "SYNTAX TEST") @@ Re.Plus is_space
  @@ Re.Cls (is_char dquote) @@ Re.Plus (not_char dquote)
  @@ Re.Cls (is_char dquote) @@ Re.Star is_space
  @@ Re.Opt (Re.Grp 2 (Re.Plus non_space)) @@ Re.Eol.

(** [^\s*(] + [re.escape(token)] + [)] *)
Definition comment_token_re (token : str) : Re.regex :=
  Re.Bol @@ Re.Star is_space @@ Re.Grp 1 (Re.Lit token).

(** [\s*(?:(<-)|(\^+))] *)
Definition assertion_re : Re.regex :=
  Re.Star is_space
  @@ Re.Alt (Re.Grp 1 (Re.Lit (L "<-"))) (Re.Grp 2 (Re.Plus (is_char caret))).

(** [^\^+$] *)
Definition carets_re : Re.regex :=
  Re.Bol @@ Re.Plus (is_char caret) @@ Re.Eol.

(** Parse the first line of the view: the start token of a syntax test
    and the closing token if there is one; both [None] when the file holds
    no syntax tests.  Lines of 1000 characters or more are not matched. *)
Definition get_syntax_test_tokens (view : View) : option str * option str :=
  let line := Sublime.line view 0 in
  let match_ :=
    if size line <? 1000
    then Re.re_match declaration_re (substr view line)
    else None in
  match match_ with
  | None => (None, None)
  | Some m => (Re.group m 1, Re.group m 2)
  end.

(** A named file is a syntax test when its base name begins with
    [syntax_test_]; an unnamed one when its first line declares a token. *)
Definition is_syntax_test_file (view : View) : bool :=
  match file_name view with
  | Some name => startswith (L "syntax_test_") (basename name)
  | None =>
      match fst (get_syntax_test_tokens view) with
      | Some _ => true
      | None => false
      end
  end.

(** The named tuple [AssertionLineDetails]. *)
Record AssertionLineDetails : Type := mkDetails {
  comment_marker_match : option Re.Match;
  assertion_colrange : option (Z * Z);
  line_region : option Region
}.

(** For the line at [pos]: the match of the comment marker, the columns
    of the assertion characters, and the region of the line.  All three
    are [None] outside a syntax-test file and without a start token. *)
Definition get_details_of_test_assertion_line (view : View) (pos : Z)
  : AssertionLineDetails :=
  if negb (is_syntax_test_file view) then mkDetails None None None else
  match fst (get_syntax_test_tokens view) with
  | None => mkDetails None None None
  | Some token =>
      let line_region := Sublime.line view pos in
      let line_text := substr view line_region in
      let starts_with_comment_token :=
        Re.re_match (comment_token_re token) line_text in
      let assertion_colrange :=
        match starts_with_comment_token with
        | None => None
        | Some m =>
            match Re.re_match assertion_re
                    (skipn (Z.to_nat (Re.end_ m)) line_text) with
            | None => None
            | Some assertion =>
                if truthy (Re.group assertion 1)
                then Some (Re.start m 1, Re.start m 1)
                else if truthy (Re.group assertion 2)
                then Some (Re.end_ m + Re.start assertion 2,
                           Re.end_ m + Re.end_of assertion 2)
                else None
            end
        end in
      mkDetails starts_with_comment_token assertion_colrange (Some line_region)
  end.

Definition is_some {A} (o : option A) : bool :=
  match o with Some _ => true | None => false end.

(** The [while pos >= 0] loop of [get_details_of_line_being_tested].
    [details] is the loop variable of that name, unbound before the first
    iteration; [fuel] bounds the number of iterations. *)
Fixpoint walk (fuel : nat) (view : View) (pos : Z) (first_line : bool)
    (lines : list AssertionLineDetails) (details : option AssertionLineDetails)
  : result (list AssertionLineDetails * option Region) :=
  if pos <? 0 then
    match details with
    | None => Raise UnboundLocalError
    | Some d => Ok (lines, line_region d)
    end
  else
    match fuel with
    | O => Raise OutOfFuel
    | S fuel' =>
        let d := get_details_of_test_assertion_line view pos in
        match line_region d with
        | None => Raise AttributeError
        | Some lr =>
            let pos' := begin lr - 1 in
            if is_some (assertion_colrange d)
            then walk fuel' view pos' false (lines ++ [d]) (Some d)
            else if negb first_line || negb (is_some (comment_marker_match d))
            then Ok (lines, line_region d)
            else if is_some (comment_marker_match d)
            then walk fuel' view pos' false (lines ++ [d]) (Some d)
            else walk fuel' view pos' false lines (Some d)
        end
    end.

(** From the cursor upwards, the details of the syntax-test lines above
    the line being tested, nearest first, and the region of that line;
    [(None, None)] outside a syntax-test file. *)
Definition get_details_of_line_being_tested (view : View)
  : result (option (list AssertionLineDetails) * option Region) :=
  if negb (is_syntax_test_file view) then Ok (None, None) else
  let pos := begin (sel0 view) in
  '(lines, line) <- walk (S (Z.to_nat pos)) view pos true [] None ;;
  Ok (Some lines, line).

(** ** [SuggestSyntaxTest] *)

(** The loop of lines 164-173 over its positions [ps]; it returns
    [scopes] and [length] as the loop leaves them. *)
Fixpoint scan (view : View) (test_at_start_of_comment : bool) (ps : list Z)
    (scopes : list str) (length : Z) : list str * Z :=
  match ps with
  | [] => (scopes, length)
  | pos :: ps' =>
      let scope := scope_name view pos in
      let appended :=
        match scopes with
        | [] => Some (scopes ++ [scope])
        | s0 :: _ => if negb (str_eqb scope s0) then None else Some scopes
        end in
      match appended with
      | None => (scopes, length)                         (* break *)
      | Some scopes' =>
          if test_at_start_of_comment then (scopes', length + 1)
          else scan view test_at_start_of_comment ps' scopes' (length + 1)
      end
  end.

(** Lines 156-162: the column the scan starts at, the zero-width flag and
    the lines kept for the merge. *)
Definition scan_start (view : View) (insert_at : Z)
    (lines : list AssertionLineDetails)
  : result (Z * bool * list AssertionLineDetails) :=
  let col := snd (rowcol view insert_at) in
  l0 <- first lines ;;
  let assertion_colrange :=
    match assertion_colrange l0 with
    | Some c => c
    | None => (-1, -1)
    end in
  if fst assertion_colrange =? snd assertion_colrange
  then Ok (snd assertion_colrange, true, skipn 1 lines)
  else Ok (col, false, lines).

(** Lines 175-181: the scopes under the columns of an existing assertion. *)
Definition merge (view : View) (test_at_start_of_comment : bool)
    (lines : list AssertionLineDetails) (line : Region) (scopes : list str)
  : result (list str) :=
  match lines with
  | l0 :: _ =>
      if negb test_at_start_of_comment then
        match assertion_colrange l0 with
        | None => Raise TypeError
        | Some (col_start, col_end) =>
            Ok (fold_left
                  (fun scopes pos =>
                     let scope := scope_name view pos in
                     if negb (str_in scope scopes) then scopes ++ [scope]
                     else scopes)
                  (range (begin line + col_start) (begin line + col_end))
                  scopes)
        end
      else Ok scopes
  | [] => Ok scopes
  end.

(** Lines 199-211: the selection is erased unless it is empty, the
    suggestion is inserted and its scope part selected. *)
Definition suggestion_edits (view : View) (character : str) (length : Z)
    (scope end_token : str) : list edit :=
  let insert_at := begin (sel0 view) in
  let tail := L " " ++ scope ++ end_token in
  (if negb (empty (sel0 view)) then [Erase (sel0 view)] else [])
  ++ [Insert insert_at (repeat_str character (Z.to_nat length) ++ tail);
      SelClear;
      SelAdd (mkRegion (insert_at + length) (insert_at + length + len tail))].

Section Host.

(** [sublime.score_selector(scope, selector)]. *)
Variable score_selector : str -> str -> Z.

(** The view as the host leaves it after [view.replace(edit, region, s)]. *)
Variable replaced : View -> Region -> str -> View.

(** Lines 183-189. *)
Definition shared (scopes : list str) : result (list str) :=
  s0 <- first scopes ;;
  Ok (filter
        (fun check_scope =>
           forallb (fun scope => 0 <? score_selector scope check_scope) scopes)
        (split s0)).

(** Lines 191-197. *)
Definition scope_text (view : View) (shared_scopes : list str) : result str :=
  sh0 <- first shared_scopes ;;
  base <- first (split (scope_name view 0)) ;;
  let start_index := if str_eqb sh0 base then 1%nat else 0%nat in
  Ok (join (L " ") (skipn start_index shared_scopes)).

(** Lines 141-211, on the view as it is after the replacement of line
    140; the result lists the later edits.  Every read of the view comes
    before the first of them. *)
Definition suggest (view : View) (character : str) : result (list edit) :=
  let insert_at := begin (sel0 view) in
  if negb (is_syntax_test_file view) then Ok [] else
  '(lines, line) <- get_details_of_line_being_tested view ;;
  lines <- match lines with Some l => Ok l | None => Raise TypeError end ;;
  end_token <-
    match snd (get_syntax_test_tokens view) with
    | Some end_token =>
        l0 <- first lines ;;
        match line_region l0 with
        | None => Raise AttributeError
        | Some lr =>
            if end_ (sel0 view) =? end_ lr
            then Ok (L " " ++ end_token) else Ok []
        end
    | None => Ok []
    end ;;
  '(col, test_at_start_of_comment, lines) <- scan_start view insert_at lines ;;
  line <- match line with Some r => Ok r | None => Raise AttributeError end ;;
  let '(scopes, length) :=
    scan view test_at_start_of_comment
         (range (begin line + col) (end_ line + 1)) [] 0 in
  scopes <- merge view test_at_start_of_comment lines line scopes ;;
  shared_scopes <- shared scopes ;;
  scope <- scope_text view shared_scopes ;;
  Ok (suggestion_edits view character length scope end_token).

(** [SuggestSyntaxTest.run(edit, character)]. *)
Definition run (view : View) (character : str) : result (list edit) :=
  let region := sel0 view in
  edits <- suggest (replaced view region character) character ;;
  Ok (Replace region character :: edits).

End Host.

(** ** [HighlightTestViewEventListener] *)

Definition is_upper (c : ascii) : bool :=
  let n := nat_of_ascii c in ((65 <=? n) && (n <=? 90))%nat.

Definition is_upper_or_underscore (c : ascii) : bool :=
  is_upper c || is_char "_"%char c.

(** [[A-Z]+[A-Z_]+] *)
Definition style_re : Re.regex :=
  Re.Plus is_upper @@ Re.Plus is_upper_or_underscore.

(** Lines 244-261: the flags of the styles that look like constants of the
    [sublime] module.  [attribute] is the module's attribute table, for
    [getattr(sublime, style)]. *)
Fixpoint style_flags (attribute : str -> option py_value) (styles : list str)
    (flags : Z) : result Z :=
  match styles with
  | [] => Ok flags
  | style :: styles' =>
      if is_some (Re.re_match style_re style) then
        match attribute style with
        | None => Raise AttributeError
        | Some (PyInt value) =>
            style_flags attribute styles' (Z.lor flags value)
        | Some PyOther => style_flags attribute styles' flags
        end
      else style_flags attribute styles' flags
  end.

(** [on_selection_modified_async]: when the selection changes, clear the
    highlight or draw it where the current line's assertions point. *)
Definition on_selection_modified_async (attribute : str -> option py_value)
    (prefs : Settings) (view : View) : result highlight :=
  let cursor := sel0 view in
  let '(cursor, highlight_only_cursor) :=
    if empty cursor
    then (mkRegion (begin cursor) (end_ cursor + 1), false)
    else (cursor, is_some (Re.re_match carets_re (substr view cursor))) in
  '(lines, line) <- get_details_of_line_being_tested view ;;
  match lines with
  | None | Some [] => Ok EraseRegions
  | Some (l0 :: _) =>
      match assertion_colrange l0 with
      | None => Ok EraseRegions
      | Some (col_start, col_end) =>
          let '(col_start, col_end) :=
            if highlight_only_cursor
            then (snd (rowcol view (begin cursor)),
                  snd (rowcol view (end_ cursor)))
            else if col_end =? col_start then (col_start, col_end + 1)
            else (col_start, col_end) in
          match line with
          | None => Raise AttributeError
          | Some line =>
              let region :=
                mkRegion (begin line + col_start) (begin line + col_end) in
              let scope := scope_for_syntax_test_highlight prefs in
              let styles := styles_for_syntax_test_highlight prefs in
              style_flags <- style_flags attribute styles 0 ;;
              Ok (AddRegions region scope style_flags)
          end
      end
  end.

(* ================================================================== *)
(** * Specification vocabulary *)
(* ================================================================== *)

(** [t] is empty or starts outside the class [p]: a class prefix in front
    of [t] is the longest one. *)
Definition stops (p : ascii -> bool) (t : str) : Prop :=
  match t with
  | [] => True
  | c :: _ => p c = false
  end.

(** Every character of [s] is in the class [p]. *)
Definition all_in (p : ascii -> bool) (s : str) : Prop := forallb p s = true.

(** The matcher state [s'] is [s] after consuming [pre], groups untouched. *)
Definition consumed (pre : str) (s s' : Re.state) : Prop :=
  Re.rest s = pre ++ Re.rest s'
  /\ Re.pos s' = (Re.pos s + length pre)%nat
  /\ Re.groups s' = Re.groups s.

Definition end_text (end_token : option str) : str :=
  match end_token with Some x => x | None => [] end.

(** The declaration line [<token> SYNTAX TEST <quoted description>
    [<end token>]]: a token without whitespace, whitespace, the words,
    whitespace, a non-empty description between double quotes, and
    optionally whitespace and an end token without whitespace. *)
Definition declaration_shape (line token : str) (end_token : option str)
  : Prop :=
  exists ws1 ws2 desc ws3,
    line = token ++ ws1 ++ L "SYNTAX TEST" ++ ws2 ++ [dquote] ++ desc
           ++ [dquote] ++ ws3 ++ end_text end_token
    /\ token <> [] /\ all_in non_space token
    /\ ws1 <> [] /\ all_in is_space ws1
    /\ ws2 <> [] /\ all_in is_space ws2
    /\ desc <> [] /\ all_in (not_char dquote) desc
    /\ all_in is_space ws3
    /\ match end_token with
       | Some x => x <> [] /\ all_in non_space x
       | None => True
       end.

(** The line carries an assertion colrange. *)
Definition asserting (d : AssertionLineDetails) : Prop :=
  assertion_colrange d <> None.

(** The line has a region. *)
Definition located (d : AssertionLineDetails) : Prop :=
  line_region d <> None.

(* ================================================================== *)
(** * Sample documents and hosts *)
(* ================================================================== *)

Module Samples.

Definition quoted (s : str) : str := [dquote] ++ s ++ [dquote].

(** The declaration line [# SYNTAX TEST Qx.sublime-syntaxQ] (17 characters
    with the short name used here). *)
Definition declaration : str := L "# SYNTAX TEST " ++ quoted (L "x").

Definition document (lines : list str) : str := join [newline] lines.

(** An unnamed buffer with an empty selection at [caret]. *)
Definition buffer (lines : list str) (caret : Z) (scope : Z -> str) : View :=
  mkView (document lines) (mkRegion caret caret) None scope.

(** A selector scores against a scope name when it is one of its
    components or a dot-prefix of one. *)
Definition prefix_score (scope selector : str) : Z :=
  if existsb (fun c => str_eqb c selector
                       || startswith (selector ++ L ".") c) (split scope)
  then 1 else 0.

(** Two ways a host can leave the selection after [view.replace]: an empty
    selection behind the new text, or the new text selected. *)
Definition replaced_text (view : View) (r : Region) (s : str) : str :=
  firstn (clamp view (begin r)) (text view) ++ s
  ++ skipn (clamp view (end_ r)) (text view).

Definition caret_after (view : View) (r : Region) (s : str) : View :=
  mkView (replaced_text view r s)
         (mkRegion (begin r + len s) (begin r + len s))
         (file_name view) (scope_name view).

Definition text_selected (view : View) (r : Region) (s : str) : View :=
  mkView (replaced_text view r s)
         (mkRegion (begin r) (begin r + len s))
         (file_name view) (scope_name view).

Definition plain (_ : Z) : str := L "source.x".

(** A declaration with an end token. *)
Definition with_end_token : View :=
  buffer [declaration ++ L " -->"] 0 plain.

(** A tested line and a caret assertion below it. *)
Definition asserted : View :=
  buffer [declaration; L "abc"; L "# ^^ source"] 22 plain.

(** A tested line, an assertion, and a comment line being typed. *)
Definition in_progress : View :=
  buffer [declaration; L "abc"; L "# ^^ source"; L "# x^"] 38 plain.

(** The caret on a line that is no comment line. *)
Definition on_code_line : View :=
  buffer [declaration; L "foo"] 21 plain.

(** A file named as a syntax test whose first line declares nothing. *)
Definition undeclared : View :=
  mkView (L "# ^") (mkRegion 3 3) (Some (L "/tests/syntax_test_a")) plain.

(** A tested line whose second character has a scope of its own, and an
    assertion line with one caret, the caret behind it. *)
Definition unrelated_scopes : View :=
  buffer [declaration; L "abc"; L "#^"] 24
         (fun pos => if pos =? 19 then L "text.y" else L "source.x string.q").

(** An indented arrow being typed under a shorter tested line. *)
Definition indented_arrow : View :=
  buffer [declaration; L "ab"; L "    # <"] 28 plain.

(** The carets of an assertion line selected together with the line's
    newline. *)
Definition carets_and_newline : View :=
  mkView (document [declaration; L "abc"; L "#^^"; L "d"])
         (mkRegion 23 26) None plain.

End Samples.

(* ================================================================== *)
(** * The rest of the plugin *)
(* ================================================================== *)

(** Whether the line at [pos] is a syntax test line; without
    [must_contain_assertion] a comment marker is enough, as on a line
    that is being written. *)
Definition is_syntax_test_line (view : View) (pos : Z)
    (must_contain_assertion : bool) : bool :=
  let details := get_details_of_test_assertion_line view pos in
  if is_some (comment_marker_match details)
  then negb must_contain_assertion || is_some (assertion_colrange details)
  else false.

(** ** [AlignSyntaxTest] *)

(** What [AlignSyntaxTest.run] asks of the host. *)
Inductive command_call : Type :=
| InsertText (p : Z) (s : str)        (* view.insert(edit, p, s) *)
| RunCommand (name : str).            (* view.run_command(name) *)

(** [AlignSyntaxTest.run]: insert enough spaces to bring the cursor just
    right of the last assertion of the line above, then run the
    suggestion command. *)
Definition align (view : View) : result (list command_call) :=
  let cursor := sel0 view in
  let details := get_details_of_test_assertion_line view (begin cursor) in
  if negb (is_some (comment_marker_match details)) then Ok [] else
  lr <- match line_region details with
        | Some r => Ok r
        | None => Raise AttributeError
        end ;;
  let details := get_details_of_test_assertion_line view (begin lr - 1) in
  inserts <-
    match line_region details with
    | Some _ =>
        match assertion_colrange details with
        | None => Raise TypeError
        | Some (_, col_end) =>
            Ok [InsertText (end_ cursor)
                  (repeat_str (L " ")
                     (Z.to_nat (col_end - snd (rowcol view (begin cursor)))))]
        end
    | None => Ok []
    end ;;
  Ok (inserts ++ [RunCommand (L "suggest_syntax_test")]).

(** ** [on_query_context] *)

(** The operator of a key-binding context: [sublime.OP_EQUAL],
    [sublime.OP_NOT_EQUAL], or one of the others. *)
Inductive operator : Type :=
| OP_EQUAL
| OP_NOT_EQUAL
| OP_OTHER.

Definition line_above_is_a_syntax_test (view : View) : result bool :=
  let details :=
    get_details_of_test_assertion_line view (begin (sel0 view)) in
  match comment_marker_match details with
  | None => Ok false
  | Some _ =>
      match line_region details with
      | None => Raise AttributeError
      | Some lr => Ok (is_syntax_test_line view (begin lr - 1) true)
      end
  end.

(** [on_query_context(key, operator, operand, match_all)]; [operand] is
    the truth value [bool(operand)]. *)
Definition on_query_context (view : View) (key : str) (op : operator)
    (operand : bool) : result (option bool) :=
  match op with
  | OP_OTHER => Ok None
  | _ =>
      let value :=
        if str_eqb key (L "line_above_is_a_syntax_test")
        then Some (line_above_is_a_syntax_test view)
        else if str_eqb key (L "current_line_is_a_syntax_test")
        then Some (Ok (is_syntax_test_line view (begin (sel0 view)) false))
        else if str_eqb key (L "file_contains_syntax_tests")
        then Some (Ok (is_syntax_test_file view))
        else None in
      match value with
      | None => Ok None
      | Some call =>
          v <- call ;;
          let result := Bool.eqb v operand in
          Ok (Some (match op with
                    | OP_NOT_EQUAL => negb result
                    | _ => result
                    end))
      end
  end.

(* ================================================================== *)
(** * More specification vocabulary *)
(* ================================================================== *)

(** Where a colrange comes from: the line starts, after whitespace, with
    the start token, and the text behind the token starts, after
    whitespace, with the arrow (the pair sits at the token's start) or
    with a run of carets (the pair covers the run). *)
Definition colrange_origin (line token : str) (colrange : Z * Z) : Prop :=
  exists lead after ws,
    line = lead ++ token ++ after
    /\ all_in is_space lead /\ all_in is_space ws
    /\ ((exists tail,
           after = ws ++ L "<-" ++ tail
           /\ colrange = (len lead, len lead))
        \/ (exists carets tail,
              after = ws ++ carets ++ tail
              /\ carets <> [] /\ all_in (is_char caret) carets
              /\ colrange = (len lead + len token + len ws,
                             len lead + len token + len ws + len carets))).


(** A member of a run: the details of a line of the buffer, with comment
    marker and region. *)
Definition run_member (view : View) (d : AssertionLineDetails) : Prop :=
  exists pos,
    0 <= pos /\ d = get_details_of_test_assertion_line view pos
    /\ comment_marker_match d <> None /\ line_region d <> None.

(** The style name starts like a constant of the [sublime] module: an
    upper-case letter, then an upper-case letter or an underscore. *)
Definition looks_like_constant (style : str) : Prop :=
  exists c1 c2 rest,
    style = c1 :: c2 :: rest
    /\ is_upper c1 = true /\ is_upper_or_underscore c2 = true.

(** The line [upper] ends right before the line [lower] starts: only the
    newline lies between them. *)
Definition directly_above (upper lower : Region) : Prop :=
  end_ upper = begin lower - 1.

(** Each line of the list lies directly above the one listed before it. *)
Definition contiguous (lines : list AssertionLineDetails) : Prop :=
  forall i d d' r r',
    nth_error lines i = Some d -> nth_error lines (S i) = Some d' ->
    line_region d = Some r -> line_region d' = Some r' ->
    directly_above r' r.

(** The last line of a list, the topmost of a run. *)
Definition last_line (lines : list AssertionLineDetails)
  : option AssertionLineDetails :=
  nth_error lines (length lines - 1).

(* ================================================================== *)
(** * More sample documents *)
(* ================================================================== *)

Module MoreSamples.
Import Samples.

(** A caret just typed on a new assertion line, and still selected. *)
Definition typed_caret : View :=
  mkView (document [declaration; L "abc"; L "# ^"]) (mkRegion 24 25) None
         plain.

(** A new comment line below an assertion line, the cursor at its end. *)
Definition below_assertion : View :=
  buffer [declaration; L "abc"; L "# ^^ source"; L "# "] 36 plain.

(** A new comment line right below the tested line. *)
Definition below_tested_line : View :=
  buffer [declaration; L "abc"; L "# "] 24 plain.

(** The two carets of an assertion line selected. *)
Definition selected_carets : View :=
  mkView (document [declaration; L "abc"; L "#^^"; L "d"])
         (mkRegion 23 25) None plain.

(** The settings left at their defaults. *)
Definition default_prefs : Settings :=
  mkSettings (L "text") [L "DRAW_NO_FILL"].

(** Some constants of the [sublime] module, and a function of it. *)
Definition sublime_attribute (name : str) : option py_value :=
  if str_eqb name (L "DRAW_NO_FILL") then Some (PyInt 32)
  else if str_eqb name (L "DRAW_NO_OUTLINE") then Some (PyInt 256)
  else if str_eqb name (L "HIDDEN") then Some (PyInt 128)
  else if str_eqb name (L "load_settings") then Some PyOther
  else None.

End MoreSamples.

Unset Implicit Arguments.
(* ================================================================== *)
(** * Strings and classes *)
(* ================================================================== *)

Lemma str_eqb_eq (a b : str) : str_eqb a b = true <-> a = b.
Proof.
  revert b; induction a as [|x a IH]; intros [|y b]; simpl; split;
    try congruence; try reflexivity.
  - intros H. apply andb_true_iff in H as [Hx Hab].
    apply Ascii.eqb_eq in Hx. apply IH in Hab. congruence.
  - intros H. injection H as -> ->. apply andb_true_iff. split.
    + apply Ascii.eqb_refl.
    + now apply IH.
Qed.

Lemma str_eqb_refl (a : str) : str_eqb a a = true.
Proof. now apply str_eqb_eq. Qed.

Lemma str_eqb_neq (a b : str) : str_eqb a b = false <-> a <> b.
Proof.
  split.
  - intros H E. apply str_eqb_eq in E. congruence.
  - intros H. destruct (str_eqb a b) eqn:E; [|reflexivity].
    apply str_eqb_eq in E. contradiction.
Qed.

Lemma is_char_eq (a c : ascii) : is_char a c = true <-> c = a.
Proof. unfold is_char. rewrite Ascii.eqb_eq. split; congruence. Qed.

Lemma non_space_true (c : ascii) : non_space c = true <-> is_space c = false.
Proof. unfold non_space. now rewrite negb_true_iff. Qed.

(** ** Longest prefix inside a class *)

Lemma span_app (p : ascii -> bool) (pre t : str) :
  forallb p pre = true -> span p (pre ++ t) = (length pre + span p t)%nat.
Proof.
  induction pre as [|c pre IH]; simpl; [reflexivity|].
  intros H. apply andb_true_iff in H as [Hc Hp]. rewrite Hc.
  now rewrite IH.
Qed.

Lemma span_length (p : ascii -> bool) (t : str) : (span p t <= length t)%nat.
Proof. induction t as [|c t IH]; simpl; [lia|]. destruct (p c); lia. Qed.

Lemma span_firstn (p : ascii -> bool) (t : str) (k : nat) :
  (k <= span p t)%nat ->
  forallb p (firstn k t) = true /\ length (firstn k t) = k.
Proof.
  revert k; induction t as [|c t IH]; intros k Hk; simpl in Hk.
  - assert (k = 0)%nat by lia. subst. now simpl.
  - destruct k as [|k]; [now simpl|].
    destruct (p c) eqn:Hc; [|lia].
    destruct (IH k) as [H1 H2]; [lia|].
    simpl. rewrite Hc, H1, H2. now split.
Qed.

Lemma span_le (p : ascii -> bool) (pre t : str) :
  forallb p pre = true -> (length pre <= span p (pre ++ t))%nat.
Proof. intros H. rewrite span_app by assumption. lia. Qed.

Lemma span_stops (p : ascii -> bool) (t : str) : stops p t -> span p t = 0%nat.
Proof. destruct t as [|c t]; simpl; [reflexivity|]. now intros ->. Qed.

Lemma span_exact (p : ascii -> bool) (pre t : str) :
  forallb p pre = true -> stops p t -> span p (pre ++ t) = length pre.
Proof.
  intros H1 H2. rewrite span_app by assumption.
  rewrite span_stops by assumption. lia.
Qed.

Lemma prefix_unique (p : ascii -> bool) (a a' x x' : str) :
  a ++ x = a' ++ x' ->
  forallb p a = true -> forallb p a' = true -> stops p x -> stops p x' ->
  a = a' /\ x = x'.
Proof.
  intros E Ha Ha' Hx Hx'.
  assert (Hl : length a = length a').
  { rewrite <- (span_exact p a x Ha Hx), <- (span_exact p a' x' Ha' Hx').
    now rewrite E. }
  split.
  - apply (f_equal (firstn (length a))) in E.
    rewrite firstn_app, Nat.sub_diag, firstn_all in E. simpl in E.
    rewrite app_nil_r in E. rewrite E, Hl.
    rewrite firstn_app, Nat.sub_diag, firstn_all. simpl. now rewrite app_nil_r.
  - apply (f_equal (skipn (length a))) in E.
    rewrite skipn_app, Nat.sub_diag, skipn_all in E. simpl in E.
    rewrite E, Hl. rewrite skipn_app, Nat.sub_diag, skipn_all. now simpl.
Qed.

Lemma all_in_cons (p : ascii -> bool) (c : ascii) (w : str) :
  all_in p (c :: w) <-> p c = true /\ all_in p w.
Proof. unfold all_in. cbn [forallb]. apply andb_true_iff. Qed.

Lemma rev_seq_S (a n : nat) : rev (seq a (S n)) = (a + n)%nat :: rev (seq a n).
Proof. rewrite seq_S, rev_app_distr. reflexivity. Qed.

(* ================================================================== *)
(** * The matcher: which states each construct reaches *)
(* ================================================================== *)

Module ReFacts.
Import Re.

Lemma state_eta (s : state) : mkState (pos s) (rest s) (groups s) = s.
Proof. now destruct s. Qed.

Lemma consumed_nil (s s' : state) : consumed [] s s' <-> s' = s.
Proof.
  unfold consumed; simpl. split.
  - intros (H1 & H2 & H3). destruct s, s'; simpl in *.
    rewrite Nat.add_0_r in H2. congruence.
  - intros ->. rewrite Nat.add_0_r. now repeat split.
Qed.

Lemma consumed_advance (s : state) (k : nat) :
  (k <= length (rest s))%nat -> consumed (firstn k (rest s)) s (advance s k).
Proof.
  intros Hk. unfold consumed, advance; simpl.
  rewrite firstn_skipn, length_firstn, Nat.min_l by assumption. now repeat split.
Qed.

Lemma consumed_is_advance (pre : str) (s s' : state) :
  consumed pre s s' -> s' = advance s (length pre).
Proof.
  intros (H1 & H2 & H3). unfold advance. rewrite H1, <- H2, <- H3.
  rewrite skipn_app, Nat.sub_diag, skipn_all. simpl. now destruct s'.
Qed.

Lemma in_cls (p : ascii -> bool) (s s' : state) :
  In s' (exec (Cls p) s) <-> exists c, p c = true /\ consumed [c] s s'.
Proof.
  simpl. destruct (rest s) as [|c t] eqn:E.
  - split; [intros []|]. intros (c & _ & H1 & _). rewrite E in H1. discriminate.
  - destruct (p c) eqn:Hc; simpl.
    + split.
      * intros [<-|[]]. exists c. split; [assumption|].
        unfold consumed; simpl. rewrite E. repeat split. lia.
      * intros (c' & Hc' & H). left.
        pose proof (consumed_is_advance _ _ _ H) as ->.
        destruct H as (H1 & _). rewrite E in H1. simpl in H1.
        injection H1 as -> H1. unfold advance. rewrite E. simpl.
        f_equal. lia.
    + split; [intros []|]. intros (c' & Hc' & H1 & _).
      rewrite E in H1. simpl in H1. congruence.
Qed.

Lemma consumed_trans (a b : str) (s s' s'' : state) :
  consumed a s s' -> consumed b s' s'' -> consumed (a ++ b) s s''.
Proof.
  intros (A1 & A2 & A3) (B1 & B2 & B3). unfold consumed.
  rewrite A1, B1, B2, A2, B3, A3, length_app, <- app_assoc.
  repeat split. lia.
Qed.

Lemma consumed_split (a b : str) (s s'' : state) :
  consumed (a ++ b) s s'' ->
  exists s', consumed a s s' /\ consumed b s' s''.
Proof.
  intros (H1 & H2 & H3).
  exists (mkState (pos s + length a) (b ++ rest s'') (groups s)).
  unfold consumed; simpl. rewrite H1, H2, H3, length_app, <- app_assoc.
  repeat split. lia.
Qed.

Lemma in_cat (r1 r2 : regex) (s s'' : state) :
  In s'' (exec (Cat r1 r2) s) <->
  exists s', In s' (exec r1 s) /\ In s'' (exec r2 s').
Proof. simpl. apply in_flat_map. Qed.

Lemma in_lit (w : str) (s s' : state) :
  In s' (exec (Lit w) s) <-> consumed w s s'.
Proof.
  revert s; induction w as [|c w IH]; intros s.
  - simpl. rewrite consumed_nil. split; [intros [<-|[]]; reflexivity|].
    intros ->. now left.
  - change (Lit (c :: w)) with (Cat (Cls (is_char c)) (Lit w)).
    rewrite in_cat. split.
    + intros (s1 & H1 & H2). apply in_cls in H1 as (c' & Hc' & H1).
      apply is_char_eq in Hc'. subst c'. apply IH in H2.
      apply (consumed_trans _ _ _ _ _ H1 H2).
    + intros H. change (c :: w) with ([c] ++ w) in H.
      apply consumed_split in H as (s1 & H1 & H2).
      exists s1. split; [|now apply IH].
      apply in_cls. exists c. split; [now apply is_char_eq | assumption].
Qed.

Lemma in_advances (s s' : state) (a n : nat) :
  In s' (map (advance s) (rev (seq a n))) <->
  exists k, (a <= k < a + n)%nat /\ s' = advance s k.
Proof.
  rewrite in_map_iff. split.
  - intros (k & <- & Hk). apply in_rev, in_seq in Hk. now exists k.
  - intros (k & Hk & ->). exists k. split; [reflexivity|].
    now apply -> in_rev; apply in_seq.
Qed.

Lemma in_repeat (p : ascii -> bool) (s s' : state) (a : nat) :
  In s' (map (advance s) (rev (seq a (S (span p (rest s)) - a)))) <->
  exists pre, (a <= length pre)%nat /\ all_in p pre /\ consumed pre s s'.
Proof.
  rewrite in_advances. split.
  - intros (k & Hk & ->). exists (firstn k (rest s)).
    assert (Hle : (k <= span p (rest s))%nat) by lia.
    destruct (span_firstn p (rest s) k Hle) as [H1 H2].
    rewrite H2. split; [lia|]. split; [exact H1|].
    apply consumed_advance. pose proof (span_length p (rest s)). lia.
  - intros (pre & Ha & Hp & H). exists (length pre).
    split; [| now apply consumed_is_advance].
    destruct H as (H1 & _). rewrite H1.
    pose proof (span_le p pre (rest s') Hp). lia.
Qed.

Lemma in_star (p : ascii -> bool) (s s' : state) :
  In s' (exec (Star p) s) <-> exists pre, all_in p pre /\ consumed pre s s'.
Proof.
  simpl. pose proof (in_repeat p s s' 0) as H.
  rewrite Nat.sub_0_r in H. rewrite H. split.
  - intros (pre & _ & H1). now exists pre.
  - intros (pre & H1). exists pre. split; [lia | assumption].
Qed.

Lemma in_plus (p : ascii -> bool) (s s' : state) :
  In s' (exec (Plus p) s) <->
  exists pre, pre <> [] /\ all_in p pre /\ consumed pre s s'.
Proof.
  simpl. pose proof (in_repeat p s s' 1) as H.
  replace (S (span p (rest s)) - 1)%nat with (span p (rest s)) in H by lia.
  rewrite H. split.
  - intros (pre & Hl & H1). exists pre. split; [|assumption].
    intros ->. simpl in Hl. lia.
  - intros (pre & Hn & H1). exists pre. split; [|assumption].
    destruct pre; [contradiction | simpl; lia].
Qed.

Lemma in_grp (n : nat) (r : regex) (s s' : state) :
  In s' (exec (Grp n r) s) <->
  exists s0, In s0 (exec r s) /\ s' = close n (pos s) s0.
Proof.
  simpl. rewrite in_map_iff. split; intros (s0 & H1 & H2); exists s0; auto.
Qed.

Lemma in_bol (s s' : state) :
  In s' (exec Bol s) <-> s' = s /\ pos s = 0%nat.
Proof.
  simpl. destruct (Nat.eqb_spec (pos s) 0); simpl.
  - split; [intros [<-|[]]; auto | intros [-> _]; now left].
  - split; [intros [] | intros [_ H]; contradiction].
Qed.

Lemma in_eol (s s' : state) :
  In s' (exec Eol s) <-> s' = s /\ (rest s = [] \/ rest s = [newline]).
Proof.
  cbn [exec]. destruct (rest s) as [|c [|d t]]; cbv iota.
  - split; [intros [<-|[]]; auto | intros [-> _]; now left].
  - destruct (is_char newline c) eqn:E.
    + apply is_char_eq in E. subst c.
      split; [intros [<-|[]]; auto | intros [-> _]; now left].
    + split; [intros []|]. intros [_ [H|H]]; [discriminate|].
      injection H as ->. unfold is_char in E. now rewrite Ascii.eqb_refl in E.
  - split; [intros []|]. intros [_ [H|H]]; discriminate.
Qed.

Lemma in_opt (r : regex) (s s' : state) :
  In s' (exec (Opt r) s) <-> In s' (exec r s) \/ s' = s.
Proof.
  unfold Opt. simpl. rewrite in_app_iff. simpl. intuition congruence.
Qed.

End ReFacts.
Module DeclFacts.
Import Re ReFacts.

Lemma group_prefix (line tok : str) (t : str) (s : state) :
  line = tok ++ t ->
  lookup 1 (groups s) = Some (0, length tok)%nat ->
  group (mkMatch line s) 1 = Some tok.
Proof.
  intros -> H. unfold group; cbn [final subject]. rewrite H.
  rewrite Nat.sub_0_r. cbn [skipn].
  now rewrite firstn_app, Nat.sub_diag, firstn_all, firstn_O, app_nil_r.
Qed.

Lemma group_suffix (line pre x : str) (n : nat) (s : state) :
  line = pre ++ x ->
  lookup n (groups s) = Some (length pre, length pre + length x)%nat ->
  group (mkMatch line s) n = Some x.
Proof.
  intros -> H. unfold group; cbn [final subject]. rewrite H.
  rewrite skipn_app, Nat.sub_diag, skipn_all. cbn [skipn app].
  replace (length pre + length x - length pre)%nat with (length x) by lia.
  now rewrite firstn_all.
Qed.

Lemma declaration_sound (line : str) (s' : state) :
  ~ In newline line ->
  In s' (exec declaration_re (mkState 0 line [])) ->
  exists tok e, declaration_shape line tok e
    /\ group (mkMatch line s') 1 = Some tok
    /\ group (mkMatch line s') 2 = e.
Proof.
  intros Hnl H. unfold declaration_re in H.
  apply in_cat in H as (s0 & H0 & H). apply in_bol in H0 as [-> _].
  apply in_cat in H as (s1 & H1 & H).
  apply in_grp in H1 as (t1 & H1 & ->).
  apply in_plus in H1 as (tok & Ntok & Atok & (R1 & P1 & G1)).
  apply in_cat in H as (s2 & H2 & H).
  apply in_plus in H2 as (ws1 & Nws1 & Aws1 & (R2 & P2 & G2)).
  apply in_cat in H as (s3 & H3 & H). apply in_lit in H3 as (R3 & P3 & G3).
  apply in_cat in H as (s4 & H4 & H).
  apply in_plus in H4 as (ws2 & Nws2 & Aws2 & (R4 & P4 & G4)).
  apply in_cat in H as (s5 & H5 & H).
  apply in_cls in H5 as (q1 & Q1 & (R5 & P5 & G5)).
  apply in_cat in H as (s6 & H6 & H).
  apply in_plus in H6 as (desc & Ndesc & Adesc & (R6 & P6 & G6)).
  apply in_cat in H as (s7 & H7 & H).
  apply in_cls in H7 as (q2 & Q2 & (R7 & P7 & G7)).
  apply in_cat in H as (s8 & H8 & H).
  apply in_star in H8 as (ws3 & Aws3 & (R8 & P8 & G8)).
  apply in_cat in H as (s9 & H9 & H).
  apply in_eol in H as [-> E].
  apply is_char_eq in Q1, Q2. subst q1 q2.
  cbn [rest pos groups close] in *.
  assert (Hline : line = tok ++ ws1 ++ L "SYNTAX TEST" ++ ws2 ++ [dquote]
                         ++ desc ++ [dquote] ++ ws3 ++ rest s8).
  { rewrite R1, R2, R3, R4, R5, R6, R7, R8. reflexivity. }
  assert (G : groups s8 = [(1, (0, length tok))]%nat).
  { rewrite G8, G7, G6, G5, G4, G3, G2, P1, G1. reflexivity. }
  apply in_opt in H9 as [H9| ->].
  - apply in_grp in H9 as (t9 & H9 & ->).
    apply in_plus in H9 as (e & Ne & Ae & (R9 & P9 & G9)).
    cbn [rest pos groups close] in *.
    assert (Hend : rest t9 = []).
    { destruct E as [E|E]; [assumption|]. exfalso. apply Hnl.
      rewrite Hline, R9, E. repeat (apply in_or_app; right). now left. }
    rewrite R9, Hend, app_nil_r in Hline.
    exists tok, (Some e). split; [|split].
    + exists ws1, ws2, desc, ws3. repeat split; assumption.
    + apply group_prefix with (t := ws1 ++ L "SYNTAX TEST" ++ ws2 ++ [dquote]
                                     ++ desc ++ [dquote] ++ ws3 ++ e).
      * exact Hline.
      * cbn [groups close lookup Nat.eqb]. rewrite G9, G. reflexivity.
    + apply group_suffix with (pre := tok ++ ws1 ++ L "SYNTAX TEST" ++ ws2
                                      ++ [dquote] ++ desc ++ [dquote] ++ ws3).
      * rewrite Hline. now repeat rewrite <- app_assoc.
      * cbn [groups close lookup Nat.eqb]. f_equal. f_equal.
        -- rewrite P8, P7, P6, P5, P4, P3, P2, P1.
           repeat rewrite length_app. cbn [length]. lia.
        -- rewrite P9, P8, P7, P6, P5, P4, P3, P2, P1.
           repeat rewrite length_app. cbn [length]. lia.
  - assert (Hend : rest s8 = []).
    { destruct E as [E|E]; [assumption|]. exfalso. apply Hnl.
      rewrite Hline, E. repeat (apply in_or_app; right). now left. }
    rewrite Hend in Hline.
    exists tok, None. split; [|split].
    + exists ws1, ws2, desc, ws3. repeat split; assumption.
    + apply group_prefix with (t := ws1 ++ L "SYNTAX TEST" ++ ws2 ++ [dquote]
                                     ++ desc ++ [dquote] ++ ws3 ++ []).
      * exact Hline.
      * rewrite G. reflexivity.
    + unfold group. cbn [final]. rewrite G. reflexivity.
Qed.

Lemma consumed_intro (s : state) (pre t : str) :
  rest s = pre ++ t ->
  consumed pre s (mkState (pos s + length pre) t (groups s)).
Proof. intros H. unfold consumed; cbn [rest pos groups]. now rewrite H. Qed.

Ltac take_class lem w :=
  apply in_cat; eexists; split;
  [ apply lem; exists w; repeat (split; [assumption|]);
    apply consumed_intro; reflexivity | ].

Ltac take_quote :=
  apply in_cat; eexists; split;
  [ apply in_cls; exists dquote; split; [now apply is_char_eq|];
    apply consumed_intro; reflexivity | ].

Lemma declaration_complete (line tok : str) (e : option str) :
  declaration_shape line tok e ->
  exists s', In s' (exec declaration_re (mkState 0 line [])).
Proof.
  intros (ws1 & ws2 & desc & ws3 & -> & Ntok & Atok & Nws1 & Aws1 & Nws2
          & Aws2 & Ndesc & Adesc & Aws3 & He).
  unfold declaration_re.
  destruct e as [x|]; cbn [end_text]; [destruct He as [Nx Ax]|];
    eexists;
    (apply in_cat; eexists; split; [apply in_bol; now split|]);
    (apply in_cat; eexists; split;
     [ apply in_grp; eexists; split; [|reflexivity]; apply in_plus;
       exists tok; repeat (split; [assumption|]);
       apply consumed_intro; reflexivity | ]);
    take_class in_plus ws1;
    (apply in_cat; eexists; split;
     [ apply in_lit; apply consumed_intro; reflexivity | ]);
    take_class in_plus ws2; take_quote;
    take_class in_plus desc; take_quote;
    take_class in_star ws3.
  - apply in_cat. eexists. split.
    + apply in_opt. left. apply in_grp. eexists. split; [|reflexivity].
      apply in_plus. exists x. split; [assumption|]. split; [assumption|].
      apply consumed_intro. cbn [rest]. symmetry. apply app_nil_r.
    + apply in_eol. split; [reflexivity|]. now left.
  - apply in_cat. eexists. split.
    + apply in_opt. right. reflexivity.
    + apply in_eol. split; [reflexivity|]. now left.
Qed.

Lemma stops_after (p q : ascii -> bool) (w t : str) :
  w <> [] -> all_in q w -> (forall c, q c = true -> p c = false) ->
  stops p (w ++ t).
Proof.
  intros Hn Hw Hpq. destruct w as [|c w]; [contradiction|].
  cbn. apply Hpq. unfold all_in in Hw. cbn in Hw.
  now apply andb_true_iff in Hw as [Hc _].
Qed.

Lemma space_not_non_space (c : ascii) : is_space c = true -> non_space c = false.
Proof. unfold non_space. now intros ->. Qed.

Lemma non_space_not_space (c : ascii) : non_space c = true -> is_space c = false.
Proof. apply non_space_true. Qed.

Lemma stops_end_text (e : option str) :
  match e with
  | Some x => x <> [] /\ all_in non_space x
  | None => True
  end -> stops is_space (end_text e).
Proof.
  destruct e as [x|]; cbn [end_text]; [|now cbn].
  intros [Nx Ax]. rewrite <- (app_nil_r x).
  apply stops_after with (q := non_space); auto using non_space_not_space.
Qed.

Lemma declaration_unique (line tok tok' : str) (e e' : option str) :
  declaration_shape line tok e -> declaration_shape line tok' e' ->
  tok = tok' /\ e = e'.
Proof.
  intros (ws1 & ws2 & desc & ws3 & -> & Ntok & Atok & Nws1 & Aws1 & Nws2
          & Aws2 & Ndesc & Adesc & Aws3 & He).
  intros (ws1' & ws2' & desc' & ws3' & E & Ntok' & Atok' & Nws1' & Aws1'
          & Nws2' & Aws2' & Ndesc' & Adesc' & Aws3' & He').
  apply prefix_unique with (p := non_space) in E as [Etok E]; try assumption;
    try (apply stops_after with (q := is_space);
         auto using space_not_non_space).
  apply prefix_unique with (p := is_space) in E as [_ E]; try assumption;
    try reflexivity.
  apply app_inv_head in E.
  apply prefix_unique with (p := is_space) in E as [_ E]; try assumption;
    try reflexivity.
  apply app_inv_head in E.
  apply prefix_unique with (p := not_char dquote) in E as [_ E];
    try assumption; try reflexivity.
  apply app_inv_head in E.
  apply prefix_unique with (p := is_space) in E as [_ E]; try assumption;
    try (now apply stops_end_text).
  split; [assumption|].
  destruct e as [x|], e' as [x'|]; cbn [end_text] in E.
  - now subst.
  - destruct He as [Nx _]. contradiction.
  - destruct He' as [Nx _]. symmetry in E. contradiction.
  - reflexivity.
Qed.

(** [re.match] of the declaration pattern on a text without newline. *)
Lemma declaration_match_shape (line tok : str) (e : option str) :
  ~ In newline line -> declaration_shape line tok e ->
  exists m, re_match declaration_re line = Some m
            /\ group m 1 = Some tok /\ group m 2 = e.
Proof.
  intros Hnl Hs. destruct (declaration_complete line tok e Hs) as (s' & Hin).
  unfold re_match.
  destruct (exec declaration_re (mkState 0 line [])) as [|f fs] eqn:E;
    [destruct Hin|].
  assert (Hf : In f (exec declaration_re (mkState 0 line []))).
  { rewrite E. now left. }
  destruct (declaration_sound line f Hnl Hf) as (tok' & e' & Hs' & G1 & G2).
  destruct (declaration_unique line tok tok' e e' Hs Hs') as [-> ->].
  eexists. split; [reflexivity|]. now split.
Qed.

Lemma declaration_match_some (line : str) (m : Match) :
  ~ In newline line -> re_match declaration_re line = Some m ->
  exists tok e, declaration_shape line tok e
                /\ group m 1 = Some tok /\ group m 2 = e.
Proof.
  intros Hnl. unfold re_match.
  destruct (exec declaration_re (mkState 0 line [])) as [|f fs] eqn:E;
    [discriminate|].
  intros H. injection H as <-. apply declaration_sound; [assumption|].
  rewrite E. now left.
Qed.

End DeclFacts.

(* ================================================================== *)
(** * The buffer: lines *)
(* ================================================================== *)

Module SublimeFacts.

Lemma clamp_le (v : View) (p : Z) : (clamp v p <= length (text v))%nat.
Proof. unfold clamp. lia. Qed.

Lemma clamp_of_nat (v : View) (n : nat) :
  (n <= length (text v))%nat -> clamp v (Z.of_nat n) = n.
Proof. unfold clamp. intros H. rewrite Nat2Z.id. lia. Qed.

Section Line.

Variable v : View.
Variable p : Z.

Let i := clamp v p.
Let back := span not_newline (rev (firstn i (text v))).
Let fwd := span not_newline (skipn i (text v)).

Lemma back_le : (back <= i)%nat.
Proof.
  subst back. pose proof (span_length not_newline (rev (firstn i (text v)))) as H.
  rewrite length_rev, length_firstn in H. lia.
Qed.

Lemma fwd_le : (i + fwd <= length (text v))%nat.
Proof.
  subst fwd. pose proof (span_length not_newline (skipn i (text v))) as H.
  rewrite length_skipn in H. pose proof (clamp_le v p). subst i. lia.
Qed.

Lemma line_bounds :
  line v p = mkRegion (Z.of_nat (i - back)) (Z.of_nat (i + fwd)).
Proof. reflexivity. Qed.

Lemma line_begin : begin (line v p) = Z.of_nat (i - back).
Proof. rewrite line_bounds. unfold begin; cbn [reg_a reg_b]. lia. Qed.

Lemma line_end : end_ (line v p) = Z.of_nat (i + fwd).
Proof. rewrite line_bounds. unfold end_; cbn [reg_a reg_b]. lia. Qed.

Lemma line_begin_le_end : begin (line v p) <= end_ (line v p).
Proof. rewrite line_begin, line_end. lia. Qed.

Lemma line_begin_le : 0 <= p -> begin (line v p) <= p.
Proof. intros Hp. rewrite line_begin. subst i. unfold clamp. lia. Qed.

Lemma line_begin_nonneg : 0 <= begin (line v p).
Proof. rewrite line_begin. lia. Qed.

Lemma line_text :
  substr v (line v p) =
  rev (firstn back (rev (firstn i (text v)))) ++ firstn fwd (skipn i (text v)).
Proof.
  unfold substr. rewrite line_begin, line_end.
  pose proof back_le as Hb. pose proof fwd_le as Hf.
  rewrite !clamp_of_nat by lia.
  replace (i + fwd - (i - back))%nat with (back + fwd)%nat by lia.
  set (P := firstn i (text v)). set (Q := skipn i (text v)).
  assert (HP : P = rev (skipn back (rev P)) ++ rev (firstn back (rev P))).
  { rewrite <- rev_app_distr, firstn_skipn. symmetry. apply rev_involutive. }
  assert (Ht : text v = P ++ Q) by (symmetry; apply firstn_skipn).
  assert (Hi : length P = i).
  { subst P. rewrite length_firstn. pose proof (clamp_le v p). subst i. lia. }
  set (B := rev (firstn back (rev P))) in *.
  set (A := rev (skipn back (rev P))) in *.
  assert (HB : length B = back).
  { subst B. rewrite length_rev, length_firstn, length_rev. lia. }
  assert (HA : length A = (i - back)%nat).
  { apply (f_equal (@length ascii)) in HP. rewrite length_app in HP. lia. }
  rewrite Ht, HP, <- app_assoc, <- HA.
  rewrite skipn_app, Nat.sub_diag, skipn_all. cbn [skipn app].
  rewrite <- HB at 1. rewrite firstn_app.
  replace (length B + fwd - length B)%nat with fwd by lia.
  rewrite firstn_all2 by lia. reflexivity.
Qed.

Lemma line_text_no_newline : ~ In newline (substr v (line v p)).
Proof.
  rewrite line_text. intros H. apply in_app_or in H as [H|H].
  - apply in_rev in H.
    pose proof (span_firstn not_newline (rev (firstn i (text v))) back
                  (le_n _)) as [Ha _].
    rewrite forallb_forall in Ha. apply Ha in H. discriminate H.
  - pose proof (span_firstn not_newline (skipn i (text v)) fwd
                  (le_n _)) as [Ha _].
    rewrite forallb_forall in Ha. apply Ha in H. discriminate H.
Qed.

Lemma line_size : size (line v p) = len (substr v (line v p)).
Proof.
  rewrite line_text. unfold size, len. rewrite line_bounds; cbn [reg_a reg_b].
  pose proof back_le as Hb. pose proof fwd_le as Hf.
  rewrite length_app, length_rev, !length_firstn, length_rev, length_firstn,
    length_skipn.
  pose proof (clamp_le v p). fold i in H. lia.
Qed.

End Line.

End SublimeFacts.

(* ================================================================== *)
(** * The comment-token and assertion patterns *)
(* ================================================================== *)

Module LineFacts.
Import Re ReFacts.

Lemma exec_cat (r1 r2 : regex) (s : state) :
  exec (Cat r1 r2) s = flat_map (exec r2) (exec r1 s).
Proof. reflexivity. Qed.

Lemma exec_alt (r1 r2 : regex) (s : state) :
  exec (Alt r1 r2) s = exec r1 s ++ exec r2 s.
Proof. reflexivity. Qed.

Lemma exec_grp (n : nat) (r : regex) (s : state) :
  exec (Grp n r) s = map (close n (pos s)) (exec r s).
Proof. reflexivity. Qed.

Lemma exec_bol (t : str) (g : list (nat * (nat * nat))) :
  exec Bol (mkState 0 t g) = [mkState 0 t g].
Proof. reflexivity. Qed.

Lemma exec_lit_app (w t : str) (s : state) :
  rest s = w ++ t ->
  exec (Lit w) s = [mkState (pos s + length w) t (groups s)].
Proof.
  revert s; induction w as [|c w IH]; intros s H.
  - cbn in *. rewrite Nat.add_0_r, <- H. now destruct s.
  - change (Lit (c :: w)) with (Cat (Cls (is_char c)) (Lit w)).
    cbn [exec]. rewrite H. cbn [app].
    replace (is_char c c) with true by (symmetry; now apply is_char_eq).
    cbn [flat_map]. rewrite app_nil_r, IH by reflexivity.
    cbn [pos groups length]. do 2 f_equal. lia.
Qed.

Lemma exec_lit_mismatch (c d : ascii) (w t : str) (s : state) :
  rest s = c :: t -> is_char d c = false -> exec (Lit (d :: w)) s = [].
Proof.
  intros H Hd. change (Lit (d :: w)) with (Cat (Cls (is_char d)) (Lit w)).
  cbn [exec]. now rewrite H, Hd.
Qed.

(** Greedy repetition: the longest prefix is tried first. *)
Lemma exec_star_longest (p : ascii -> bool) (pre t : str) (s : state) :
  rest s = pre ++ t -> all_in p pre -> stops p t ->
  exists others,
    exec (Star p) s = mkState (pos s + length pre) t (groups s) :: others.
Proof.
  intros H Hp Ht. cbn [exec]. rewrite H, span_exact by assumption.
  rewrite rev_seq_S. cbn [map Nat.add]. eexists. f_equal.
  unfold advance. rewrite H, skipn_app, Nat.sub_diag, skipn_all. reflexivity.
Qed.

Lemma exec_plus_longest (p : ascii -> bool) (pre t : str) (s : state) :
  rest s = pre ++ t -> pre <> [] -> all_in p pre -> stops p t ->
  exists others,
    exec (Plus p) s = mkState (pos s + length pre) t (groups s) :: others.
Proof.
  intros H Hn Hp Ht. cbn [exec]. rewrite H, span_exact by assumption.
  destruct pre as [|c pre]; [contradiction|]. cbn [length].
  rewrite rev_seq_S. cbn [map]. eexists. f_equal.
  unfold advance. rewrite H. cbn [skipn app Nat.add].
  rewrite skipn_app, Nat.sub_diag, skipn_all. cbn [length]. reflexivity.
Qed.

Lemma group_mid (line pre x post : str) (n : nat) (s : state) :
  line = pre ++ x ++ post ->
  lookup n (groups s) = Some (length pre, length pre + length x)%nat ->
  group (mkMatch line s) n = Some x.
Proof.
  intros -> H. unfold group; cbn [final subject]. rewrite H.
  rewrite skipn_app, Nat.sub_diag, skipn_all. cbn [skipn app].
  replace (length pre + length x - length pre)%nat with (length x) by lia.
  now rewrite firstn_app, Nat.sub_diag, firstn_all, firstn_O, app_nil_r.
Qed.

(** [^\s*(token)] on a line that starts, after whitespace, with the token. *)
Lemma comment_token_match (lead token after : str) :
  all_in is_space lead -> stops is_space (token ++ after) ->
  re_match (comment_token_re token) (lead ++ token ++ after) =
  Some (mkMatch (lead ++ token ++ after)
          (mkState (length lead + length token) after
                   [(1, (length lead, length lead + length token))]%nat)).
Proof.
  intros Hl Hs. unfold re_match, comment_token_re.
  rewrite exec_cat, exec_bol. cbn [flat_map]. rewrite app_nil_r, exec_cat.
  destruct (exec_star_longest is_space lead (token ++ after)
              (mkState 0 (lead ++ token ++ after) [])) as (others & ->);
    [reflexivity | assumption | assumption |].
  cbn [flat_map]. rewrite exec_grp.
  rewrite exec_lit_app with (t := after) by reflexivity.
  reflexivity.
Qed.

(** [\s*(?:(<-)|(\^+))] on a text with the arrow. *)
Lemma assertion_match_arrow (ws tail : str) :
  all_in is_space ws ->
  exists m, re_match assertion_re (ws ++ L "<-" ++ tail) = Some m
            /\ truthy (group m 1) = true.
Proof.
  intros Hw. unfold re_match, assertion_re. rewrite exec_cat.
  destruct (exec_star_longest is_space ws (L "<-" ++ tail)
              (mkState 0 (ws ++ L "<-" ++ tail) [])) as (others & ->);
    [reflexivity | assumption | reflexivity |].
  cbn [flat_map]. rewrite exec_alt, exec_grp.
  rewrite exec_lit_app with (t := tail) by reflexivity.
  cbn [map app]. eexists. split; [reflexivity|].
  erewrite group_mid with (pre := ws) (x := L "<-") (post := tail);
    [reflexivity | reflexivity |].
  reflexivity.
Qed.

(** The same pattern on a text with a run of carets. *)
Lemma assertion_match_carets (ws carets tail : str) :
  all_in is_space ws -> carets <> [] -> all_in (is_char caret) carets ->
  stops (is_char caret) tail ->
  exists m, re_match assertion_re (ws ++ carets ++ tail) = Some m
            /\ truthy (group m 1) = false /\ truthy (group m 2) = true
            /\ start m 2 = len ws /\ end_of m 2 = len ws + len carets.
Proof.
  intros Hw Hn Hc Ht. unfold re_match, assertion_re. rewrite exec_cat.
  assert (Hcar : exists cs, carets = caret :: cs).
  { destruct carets as [|c cs]; [contradiction|]. exists cs.
    apply all_in_cons in Hc as [Hc _].
    apply is_char_eq in Hc. now subst. }
  destruct (exec_star_longest is_space ws (carets ++ tail)
              (mkState 0 (ws ++ carets ++ tail) [])) as (others & ->);
    [reflexivity | assumption | |].
  { destruct Hcar as (cs & ->). reflexivity. }
  cbn [flat_map]. rewrite exec_alt, !exec_grp.
  destruct Hcar as (cs & Ecar).
  change (L "<-") with ("<"%char :: ["-"%char]).
  rewrite exec_lit_mismatch with (c := caret) (t := cs ++ tail);
    [| cbn [rest]; now rewrite Ecar | reflexivity].
  cbn [map app].
  match goal with
  | |- context [exec (Plus _) ?s] =>
      destruct (exec_plus_longest (is_char caret) carets tail s)
        as (others' & ->); [reflexivity | assumption.. |]
  end.
  cbn [map app pos groups rest close Nat.add]. eexists. split; [reflexivity|].
  unfold start, end_of, len, group.
  cbn [final groups close pos lookup Nat.eqb].
  split; [reflexivity|].
  split; [|split; [reflexivity | lia]].
  cbn [subject]. rewrite skipn_app, Nat.sub_diag, skipn_all. cbn [skipn app].
  replace (length ws + length carets - length ws)%nat with (length carets) by lia.
  rewrite firstn_app, Nat.sub_diag, firstn_all, firstn_O, app_nil_r.
  rewrite Ecar. reflexivity.
Qed.

(** The same pattern on a text with neither. *)
Lemma assertion_match_none (after : str) :
  (forall ws tail, all_in is_space ws ->
     after <> ws ++ L "<-" ++ tail /\ after <> ws ++ caret :: tail) ->
  re_match assertion_re after = None.
Proof.
  intros H. unfold re_match.
  destruct (exec assertion_re (mkState 0 after [])) as [|f fs] eqn:E;
    [reflexivity|].
  exfalso.
  assert (Hf : In f (exec assertion_re (mkState 0 after []))).
  { rewrite E. now left. }
  clear E. unfold assertion_re in Hf.
  apply in_cat in Hf as (s1 & H1 & H2).
  apply in_star in H1 as (ws & Hws & (R1 & _ & _)). cbn [rest] in R1.
  cbn [exec] in H2. apply in_app_or in H2 as [H2|H2].
  - apply in_map_iff in H2 as (s2 & _ & H2).
    apply in_lit in H2 as (R2 & _ & _).
    destruct (H ws (rest s2) Hws) as [Hno _]. apply Hno.
    now rewrite R1, R2.
  - apply in_map_iff in H2 as (s2 & _ & H2).
    apply (proj1 (in_plus _ _ _)) in H2 as (pre & Hn & Hp & (R2 & _ & _)).
    destruct pre as [|c pre]; [contradiction|].
    apply all_in_cons in Hp as [Hc _].
    apply is_char_eq in Hc. subst c.
    destruct (H ws (pre ++ rest s2) Hws) as [_ Hno]. apply Hno.
    now rewrite R1, R2.
Qed.

End LineFacts.

(* ================================================================== *)
(** * The declaration line and the assertion lines *)
(* ================================================================== *)

Lemma tokens_shape (view : View) (token : str) (end_token : option str) :
  get_syntax_test_tokens view = (Some token, end_token) ->
  declaration_shape (substr view (line view 0)) token end_token.
Proof.
  unfold get_syntax_test_tokens.
  destruct (size (line view 0) <? 1000); [|discriminate].
  destruct (Re.re_match declaration_re (substr view (line view 0)))
    as [m|] eqn:E; [|discriminate].
  intros H. injection H as H1 H2.
  apply DeclFacts.declaration_match_some in E
    as (tok & e & Hs & G1 & G2);
    [| apply SublimeFacts.line_text_no_newline].
  rewrite G1 in H1. injection H1 as ->. now rewrite G2 in H2; subst.
Qed.

(** C8. On a first line shorter than 1000 characters that has the shape
    of a declaration, [get_syntax_test_tokens] returns the start token and
    the end token ([None] when there is none); on a first line of 1000
    characters or more, or of another shape, it returns [(None, None)]. *)
Theorem get_syntax_test_tokens_declaration (view : View) :
  let first_line := substr view (line view 0) in
  (forall token end_token,
     len first_line < 1000 ->
     declaration_shape first_line token end_token ->
     get_syntax_test_tokens view = (Some token, end_token))
  /\ (1000 <= len first_line
      \/ ~ (exists token end_token,
              declaration_shape first_line token end_token) ->
      get_syntax_test_tokens view = (None, None)).
Proof.
  intros first_line. unfold get_syntax_test_tokens.
  rewrite SublimeFacts.line_size. fold first_line. split.
  - intros token end_token Hlen Hs.
    apply Z.ltb_lt in Hlen. rewrite Hlen.
    destruct (DeclFacts.declaration_match_shape first_line token end_token)
      as (m & -> & G1 & G2);
      [apply SublimeFacts.line_text_no_newline | assumption |].
    now rewrite G1, G2.
  - intros [Hlen | Hno].
    + apply Z.ltb_ge in Hlen. now rewrite Hlen.
    + destruct (len first_line <? 1000); [|reflexivity].
      destruct (Re.re_match declaration_re first_line) as [m|] eqn:E;
        [|reflexivity].
      exfalso. apply Hno.
      apply DeclFacts.declaration_match_some in E
        as (tok & e & Hs & _);
        [| apply SublimeFacts.line_text_no_newline].
      now exists tok, e.
Qed.

(** The details of a line that starts, after whitespace, with the
    document's start token. *)
Lemma details_of_comment_line (view : View) (pos : Z) (token : str)
    (end_token : option str) (lead after : str) :
  is_syntax_test_file view = true ->
  get_syntax_test_tokens view = (Some token, end_token) ->
  substr view (line view pos) = lead ++ token ++ after ->
  all_in is_space lead ->
  get_details_of_test_assertion_line view pos =
  mkDetails
    (Some (Re.mkMatch (lead ++ token ++ after)
             (Re.mkState (length lead + length token) after
                [(1, (length lead, length lead + length token))]%nat)))
    (match Re.re_match assertion_re after with
     | None => None
     | Some assertion =>
         if truthy (Re.group assertion 1)
         then Some (len lead, len lead)
         else if truthy (Re.group assertion 2)
         then Some (len lead + len token + Re.start assertion 2,
                    len lead + len token + Re.end_of assertion 2)
         else None
     end)
    (Some (line view pos)).
Proof.
  intros Hfile Htok Htext Hlead.
  pose proof (tokens_shape view token end_token Htok) as Hshape.
  assert (Hstops : stops is_space (token ++ after)).
  { destruct Hshape as (_ & _ & _ & _ & _ & Ntok & Atok & _).
    apply DeclFacts.stops_after with (q := non_space);
      auto using DeclFacts.non_space_not_space. }
  unfold get_details_of_test_assertion_line.
  rewrite Hfile, Htok, Htext. cbn [negb fst].
  rewrite LineFacts.comment_token_match by assumption.
  unfold Re.end_, Re.start. cbn [Re.final Re.pos Re.groups Re.lookup Nat.eqb].
  rewrite Nat2Z.id.
  replace (skipn (length lead + length token) (lead ++ token ++ after))
    with after.
  2:{ rewrite app_assoc, <- length_app, skipn_app, Nat.sub_diag, skipn_all.
      reflexivity. }
  unfold len. rewrite Nat2Z.inj_add. reflexivity.
Qed.

(** C7. On a line that starts, after whitespace, with the document's
    start token: when the text after the token starts (after whitespace)
    with the arrow, the colrange is the zero-width pair at the token's
    start column; when it starts with a run of carets, the colrange is the
    run's columns, counted from the token's end column; when it starts
    with neither, there is no colrange. *)
Theorem assertion_colrange_of_comment_line (view : View) (pos : Z)
    (token : str) (end_token : option str) (lead after : str) :
  is_syntax_test_file view = true ->
  get_syntax_test_tokens view = (Some token, end_token) ->
  substr view (line view pos) = lead ++ token ++ after ->
  all_in is_space lead ->
  let details := get_details_of_test_assertion_line view pos in
  let token_start := len lead in
  let token_end := len lead + len token in
  (exists m, comment_marker_match details = Some m
             /\ Re.start m 1 = token_start /\ Re.end_ m = token_end)
  /\ (forall ws tail,
        all_in is_space ws -> after = ws ++ L "<-" ++ tail ->
        assertion_colrange details = Some (token_start, token_start))
  /\ (forall ws carets tail,
        all_in is_space ws -> carets <> [] ->
        all_in (is_char caret) carets -> stops (is_char caret) tail ->
        after = ws ++ carets ++ tail ->
        assertion_colrange details =
        Some (token_end + len ws, token_end + len ws + len carets))
  /\ ((forall ws tail,
         all_in is_space ws ->
         after <> ws ++ L "<-" ++ tail /\ after <> ws ++ caret :: tail) ->
      assertion_colrange details = None).
Proof.
  intros Hfile Htok Htext Hlead details token_start token_end.
  subst details.
  rewrite (details_of_comment_line view pos token end_token lead after
             Hfile Htok Htext Hlead).
  cbn [comment_marker_match assertion_colrange].
  split; [|split; [|split]].
  - eexists. split; [reflexivity|]. unfold Re.start, Re.end_, len.
    cbn [Re.final Re.pos Re.groups Re.lookup Nat.eqb].
    subst token_start token_end. unfold len. split; [reflexivity | lia].
  - intros ws tail Hws ->.
    destruct (LineFacts.assertion_match_arrow ws tail Hws) as (m & -> & ->).
    reflexivity.
  - intros ws carets tail Hws Hn Hc Ht ->.
    destruct (LineFacts.assertion_match_carets ws carets tail Hws Hn Hc Ht)
      as (m & -> & -> & -> & -> & ->).
    subst token_end. f_equal. f_equal. lia.
  - intros Hno. now rewrite LineFacts.assertion_match_none.
Qed.

(* ================================================================== *)
(** * The upward walk *)
(* ================================================================== *)

Lemma details_region (view : View) (pos : Z) (lr : Region) :
  line_region (get_details_of_test_assertion_line view pos) = Some lr ->
  lr = line view pos.
Proof.
  unfold get_details_of_test_assertion_line.
  destruct (negb (is_syntax_test_file view)); [discriminate|].
  destruct (fst (get_syntax_test_tokens view)); [|discriminate].
  cbn [line_region]. congruence.
Qed.

Lemma details_region_some (view : View) (pos : Z) :
  is_syntax_test_file view = true ->
  fst (get_syntax_test_tokens view) <> None ->
  line_region (get_details_of_test_assertion_line view pos)
  = Some (line view pos).
Proof.
  intros Hf Ht. unfold get_details_of_test_assertion_line. rewrite Hf.
  cbn [negb]. destruct (fst (get_syntax_test_tokens view)); [|contradiction].
  reflexivity.
Qed.

Lemma walk_position_decreases (view : View) (pos : Z) (lr : Region) :
  0 <= pos ->
  line_region (get_details_of_test_assertion_line view pos) = Some lr ->
  begin lr - 1 < pos.
Proof.
  intros Hp H. apply details_region in H. subst lr.
  pose proof (SublimeFacts.line_begin_le view pos Hp). lia.
Qed.

Lemma walk_enough_fuel (view : View) (fuel : nat) :
  forall pos first_line lines details,
    pos < Z.of_nat fuel ->
    walk fuel view pos first_line lines details <> Raise OutOfFuel.
Proof.
  induction fuel as [|fuel IH]; intros pos first_line lines details Hf;
    cbn [walk]; destruct (Z.ltb_spec pos 0) as [Hneg|Hpos];
    try (destruct details; discriminate); [lia|].
  destruct (line_region (get_details_of_test_assertion_line view pos))
    as [lr|] eqn:Hlr; [|discriminate].
  pose proof (walk_position_decreases view pos lr Hpos Hlr) as Hdec.
  destruct (is_some (assertion_colrange _)); [apply IH; lia|].
  destruct (negb first_line || negb (is_some (comment_marker_match _)));
    [discriminate|].
  destruct (is_some (comment_marker_match _)); apply IH; lia.
Qed.

Lemma walk_returns (view : View) (fuel : nat) :
  is_syntax_test_file view = true ->
  fst (get_syntax_test_tokens view) <> None ->
  forall pos first_line lines details,
    pos < Z.of_nat fuel ->
    (0 <= pos \/ exists d r, details = Some d /\ line_region d = Some r) ->
    exists lines' r,
      walk fuel view pos first_line lines details = Ok (lines', Some r).
Proof.
  intros Hfile Htok.
  induction fuel as [|fuel IH]; intros pos first_line lines details Hf Hd;
    cbn [walk]; destruct (Z.ltb_spec pos 0) as [Hneg|Hpos].
  - destruct Hd as [Hd|(d & r & -> & Hr)]; [lia|]. rewrite Hr. eauto.
  - lia.
  - destruct Hd as [Hd|(d & r & -> & Hr)]; [lia|]. rewrite Hr. eauto.
  - rewrite (details_region_some view pos Hfile Htok).
    pose proof (SublimeFacts.line_begin_le view pos Hpos) as Hdec.
    set (d := get_details_of_test_assertion_line view pos).
    assert (Hd' : exists d0 r, Some d = Some d0 /\ line_region d0 = Some r).
    { exists d, (line view pos). split; [reflexivity|].
      apply (details_region_some view pos Hfile Htok). }
    destruct (is_some (assertion_colrange d)); [apply IH; [lia | now right]|].
    destruct (negb first_line || negb (is_some (comment_marker_match d)));
      [eauto|].
    destruct (is_some (comment_marker_match d)); apply IH;
      solve [lia | now right].
Qed.

(** C6. The walk ends: every iteration moves the position to one before
    the start of the line it examined, which is below the position it
    came from; at a negative position the loop leaves with the lines
    collected and the region of the line examined last; so the iteration
    bound of the model is never reached, and in a document that declares
    its tokens the walk returns a run and a tested-line region. *)
Theorem walk_terminates (view : View) :
  (forall pos lr,
     0 <= pos ->
     line_region (get_details_of_test_assertion_line view pos) = Some lr ->
     begin lr - 1 < pos)
  /\ (forall fuel pos first_line lines d,
        pos < 0 ->
        walk fuel view pos first_line lines (Some d)
        = Ok (lines, line_region d))
  /\ (forall fuel pos first_line lines details,
        pos < Z.of_nat fuel ->
        walk fuel view pos first_line lines details <> Raise OutOfFuel)
  /\ get_details_of_line_being_tested view <> Raise OutOfFuel
  /\ (is_syntax_test_file view = true ->
      fst (get_syntax_test_tokens view) <> None ->
      0 <= begin (sel0 view) ->
      exists lines r,
        get_details_of_line_being_tested view = Ok (Some lines, Some r)).
Proof.
  split; [|split; [|split; [|split]]].
  - intros pos lr. apply walk_position_decreases.
  - intros fuel pos first_line lines d Hneg.
    apply Z.ltb_lt in Hneg. destruct fuel; cbn [walk]; now rewrite Hneg.
  - intros fuel. apply walk_enough_fuel.
  - unfold get_details_of_line_being_tested.
    destruct (negb (is_syntax_test_file view)); [discriminate|].
    set (pos := begin (sel0 view)).
    pose proof (walk_enough_fuel view (S (Z.to_nat pos)) pos true [] None)
      as H.
    destruct (walk (S (Z.to_nat pos)) view pos true [] None) as [[ls r]|e];
      cbn [bind]; [discriminate|].
    intros E. apply H; [lia|]. congruence.
  - intros Hfile Htok Hsel. unfold get_details_of_line_being_tested.
    rewrite Hfile. cbn [negb].
    destruct (walk_returns view (S (Z.to_nat (begin (sel0 view)))) Hfile Htok
                (begin (sel0 view)) true [] None) as (ls & r & ->);
      [lia | now left |].
    cbn [bind]. eauto.
Qed.

Lemma asserting_is_some (d : AssertionLineDetails) :
  is_some (assertion_colrange d) = true <-> asserting d.
Proof.
  unfold asserting. destruct (assertion_colrange d); cbn; split;
    congruence.
Qed.

(** Lines appended after the first one carry a colrange. *)
Lemma walk_tail_asserting (view : View) (fuel : nat) :
  forall pos first_line lines details ls r,
    walk fuel view pos first_line lines details = Ok (ls, r) ->
    (first_line = true -> lines = []) ->
    Forall asserting (tl lines) ->
    Forall asserting (tl ls).
Proof.
  induction fuel as [|fuel IH]; intros pos first_line lines details ls r;
    cbn [walk]; destruct (pos <? 0).
  - destruct details; [|discriminate]. intros H _ Ht. now injection H as <- _.
  - discriminate.
  - destruct details; [|discriminate]. intros H _ Ht. now injection H as <- _.
  - set (d := get_details_of_test_assertion_line view pos).
    destruct (line_region d) as [lr|]; [|discriminate].
    destruct (is_some (assertion_colrange d)) eqn:Hc.
    + intros H Hfirst Ht. apply IH in H; [assumption | discriminate |].
      destruct lines as [|l0 lines]; [constructor|]. cbn [tl app] in *.
      apply Forall_app. split; [assumption|].
      constructor; [now apply asserting_is_some | constructor].
    + destruct first_line; cbn [negb orb].
      * destruct (is_some (comment_marker_match d)); cbn [negb].
        -- intros H Hfirst _. rewrite (Hfirst eq_refl) in H.
           apply IH in H; [assumption | discriminate | constructor].
        -- intros H _ Ht. now injection H as <- _.
      * intros H _ Ht. now injection H as <- _.
Qed.

(** One iteration on a line without colrange: as the first line examined,
    a comment line is appended and the walk goes on above it; on a later
    iteration, and on a line that is no comment line, the walk returns
    the lines collected so far and that line's region.  In the run
    returned, every line after the first carries a colrange. *)
Lemma walk_first_line_tolerance (view : View) :
  (forall fuel pos first_line lines details d lr,
     0 <= pos ->
     get_details_of_test_assertion_line view pos = d ->
     assertion_colrange d = None -> line_region d = Some lr ->
     (first_line = true -> comment_marker_match d <> None ->
      walk (S fuel) view pos first_line lines details
      = walk fuel view (begin lr - 1) false (lines ++ [d]) (Some d))
     /\ (first_line = false \/ comment_marker_match d = None ->
         walk (S fuel) view pos first_line lines details
         = Ok (lines, Some lr)))
  /\ (forall lines r i d,
        get_details_of_line_being_tested view = Ok (Some lines, r) ->
        nth_error lines (S i) = Some d -> assertion_colrange d <> None).
Proof.
  split.
  - intros fuel pos first_line lines details d lr Hpos Hd Hc Hr.
    apply Z.ltb_ge in Hpos. cbn [walk]. rewrite Hpos, Hd, Hr, Hc.
    cbn [is_some]. split.
    + intros -> Hm. destruct (comment_marker_match d); [|contradiction].
      reflexivity.
    + intros [-> | ->]; [reflexivity|]. cbn [is_some negb].
      now rewrite orb_true_r.
  - intros lines r i d. unfold get_details_of_line_being_tested.
    destruct (negb (is_syntax_test_file view)); [discriminate|].
    destruct (walk _ view _ true [] None) as [[ls r']|e] eqn:E;
      cbn [bind]; [|discriminate].
    intros H Hn. injection H as <- _.
    apply walk_tail_asserting in E; [| reflexivity | constructor].
    destruct ls as [|l0 ls]; [discriminate|]. cbn [tl nth_error] in *.
    rewrite Forall_forall in E. apply E. eapply nth_error_In. eassumption.
Qed.

(* ================================================================== *)
(** * The scan of the tested line *)
(* ================================================================== *)

Lemma range_empty (a b : Z) : b <= a -> range a b = [].
Proof.
  intros H. unfold range. replace (Z.to_nat (b - a)) with 0%nat by lia.
  reflexivity.
Qed.

Lemma range_cons (a b : Z) : a < b -> range a b = a :: range (a + 1) b.
Proof.
  intros H. unfold range.
  replace (Z.to_nat (b - a)) with (S (Z.to_nat (b - (a + 1)))) by lia.
  cbn [seq map]. f_equal; [lia|].
  rewrite <- seq_shift, map_map. apply map_ext. intros i. lia.
Qed.

(** The scan once the reference scope is known: it counts the positions
    that carry the reference scope up to the first one that does not. *)
Lemma scan_reference (view : View) (s0 : str) (m : nat) :
  forall a n,
  exists k,
    0 <= k <= Z.of_nat m
    /\ scan view false (range a (a + Z.of_nat m)) [s0] n = ([s0], n + k)
    /\ (forall i, 0 <= i < k -> scope_name view (a + i) = s0)
    /\ (k = Z.of_nat m \/ scope_name view (a + k) <> s0).
Proof.
  induction m as [|m IH]; intros a n.
  - exists 0. rewrite range_empty by lia. cbn [scan].
    repeat split; try lia. f_equal. lia.
  - rewrite range_cons by lia. cbn [scan].
    destruct (str_eqb (scope_name view a) s0) eqn:E; cbn [negb].
    + apply str_eqb_eq in E.
      destruct (IH (a + 1) (n + 1)) as (k & Hk & Hs & Hall & Hstop).
      exists (k + 1).
      replace (a + Z.of_nat (S m)) with (a + 1 + Z.of_nat m) by lia.
      rewrite Hs. repeat split; try lia.
      * f_equal. lia.
      * intros i Hi. destruct (Z.eq_dec i 0) as [->|Hne].
        -- now rewrite Z.add_0_r.
        -- replace (a + i) with (a + 1 + (i - 1)) by lia. apply Hall. lia.
      * destruct Hstop as [->|Hstop]; [left; lia|right].
        now replace (a + (k + 1)) with (a + 1 + k) by lia.
    + apply str_eqb_neq in E. exists 0.
      repeat split; try lia.
      * f_equal. lia.
      * right. now rewrite Z.add_0_r.
Qed.

(** With the zero-width flag set the scan reads one position. *)
Lemma scan_zero_width (view : View) (a e : Z) :
  a <= e ->
  scan view true (range a (e + 1)) [] 0 = ([scope_name view a], 1).
Proof. intros H. rewrite range_cons by lia. reflexivity. Qed.

(** Past the end of the line the scan reads nothing. *)
Lemma scan_nothing (view : View) (flag : bool) (a e : Z) :
  e < a -> scan view flag (range a (e + 1)) [] 0 = ([], 0).
Proof. intros H. rewrite range_empty by lia. reflexivity. Qed.

(** C3. In the caret form, from a column of the tested line the scan
    returns the reference scope, the scope name at that column, and the
    length of the longest run of positions from there that carry it: all
    positions of the run have the reference scope, and the run ends at a
    position with another scope or with the line's end position. *)
Theorem scan_run_length (view : View) (line : Region) (col : Z) :
  begin line + col <= end_ line ->
  let start := begin line + col in
  let reference := scope_name view start in
  exists length,
    scan view false (range start (end_ line + 1)) [] 0 = ([reference], length)
    /\ 1 <= length <= end_ line + 1 - start
    /\ (forall i, 0 <= i < length -> scope_name view (start + i) = reference)
    /\ (start + length = end_ line + 1
        \/ scope_name view (start + length) <> reference).
Proof.
  intros Hcol start reference. fold start in Hcol.
  rewrite range_cons by lia. cbn [scan app].
  destruct (scan_reference view reference (Z.to_nat (end_ line - start))
              (start + 1) (0 + 1)) as (k & Hk & Hs & Hall & Hstop).
  replace (start + 1 + Z.of_nat (Z.to_nat (end_ line - start)))
    with (end_ line + 1) in Hs by lia.
  fold reference. rewrite Hs. exists (0 + 1 + k). repeat split; try lia.
  - intros i Hi. destruct (Z.eq_dec i 0) as [->|Hne].
    + now rewrite Z.add_0_r.
    + replace (start + i) with (start + 1 + (i - 1)) by lia. apply Hall. lia.
  - destruct Hstop as [->|Hstop]; [left; lia|right].
    now replace (start + (0 + 1 + k)) with (start + 1 + k) by lia.
Qed.

(** The zero-width branch of lines 158-162. *)
Lemma scan_start_zero_width (view : View) (insert_at c : Z)
    (l0 : AssertionLineDetails) (others : list AssertionLineDetails) :
  assertion_colrange l0 = Some (c, c) ->
  scan_start view insert_at (l0 :: others) = Ok (c, true, others).
Proof.
  intros H. unfold scan_start. cbn [first bind]. rewrite H.
  cbn [fst snd]. now rewrite Z.eqb_refl.
Qed.


(* ================================================================== *)
(** * The suggestion command *)
(* ================================================================== *)

Lemma walk_lines_located (view : View) (fuel : nat) :
  forall pos first_line lines details ls r,
    walk fuel view pos first_line lines details = Ok (ls, r) ->
    Forall located lines -> Forall located ls.
Proof.
  induction fuel as [|fuel IH]; intros pos first_line lines details ls r;
    cbn [walk]; destruct (pos <? 0).
  - destruct details; [|discriminate]. intros H Ht. now injection H as <- _.
  - discriminate.
  - destruct details; [|discriminate]. intros H Ht. now injection H as <- _.
  - set (d := get_details_of_test_assertion_line view pos).
    destruct (line_region d) as [lr|] eqn:Hlr; [|discriminate].
    assert (Hd : Forall located lines -> Forall located (lines ++ [d])).
    { intros Hl. apply Forall_app. split; [assumption|].
      constructor; [|constructor]. unfold located. now rewrite Hlr. }
    destruct (is_some (assertion_colrange d)).
    + intros H Hl. apply IH in H; auto.
    + destruct (negb first_line || negb (is_some (comment_marker_match d))).
      * intros H Hl. now injection H as <- _.
      * destruct (is_some (comment_marker_match d)); intros H Hl;
          apply IH in H; auto.
Qed.

Lemma walk_region_is_line (view : View) (fuel : nat) :
  forall pos first_line lines details ls r,
    walk fuel view pos first_line lines details = Ok (ls, r) ->
    (forall d, details = Some d -> exists p, line_region d = Some (line view p)) ->
    exists p, r = Some (line view p).
Proof.
  induction fuel as [|fuel IH]; intros pos first_line lines details ls r;
    cbn [walk]; destruct (pos <? 0).
  - destruct details as [d|]; [|discriminate]. intros H Hd.
    injection H as _ <-. destruct (Hd d eq_refl) as (p & ->). now exists p.
  - discriminate.
  - destruct details as [d|]; [|discriminate]. intros H Hd.
    injection H as _ <-. destruct (Hd d eq_refl) as (p & ->). now exists p.
  - set (d := get_details_of_test_assertion_line view pos).
    destruct (line_region d) as [lr|] eqn:Hlr; [|discriminate].
    pose proof (details_region view pos lr Hlr) as ->.
    assert (Hd : forall d0, Some d = Some d0 ->
                 exists p, line_region d0 = Some (line view p)).
    { intros d0 E. injection E as <-. now exists pos. }
    destruct (is_some (assertion_colrange d)).
    + intros H _. apply IH in H; auto.
    + destruct (negb first_line || negb (is_some (comment_marker_match d))).
      * intros H _. injection H as _ <-. now exists pos.
      * destruct (is_some (comment_marker_match d)); intros H _;
          apply IH in H; auto.
Qed.

(** What a returned run and tested-line region are made of. *)
Lemma tested_line_run (view : View) (lines : list AssertionLineDetails)
    (r : option Region) :
  get_details_of_line_being_tested view = Ok (Some lines, r) ->
  is_syntax_test_file view = true
  /\ Forall located lines
  /\ exists region, r = Some region /\ begin region <= end_ region.
Proof.
  unfold get_details_of_line_being_tested.
  destruct (is_syntax_test_file view); cbn [negb]; [|discriminate].
  destruct (walk _ view _ true [] None) as [[ls r']|e] eqn:E;
    cbn [bind]; [|discriminate].
  intros H. injection H as <- <-. split; [reflexivity|]. split.
  - apply walk_lines_located in E; [assumption | constructor].
  - apply walk_region_is_line in E as (p & ->); [|discriminate].
    exists (line view p). split; [reflexivity|].
    apply SublimeFacts.line_begin_le_end.
Qed.

Section SuggestFacts.

Variable score_selector : str -> str -> Z.

(** The zero-width branch, for the arrow's column or the column -1 that
    stands for a missing colrange: within the tested line the scan reads
    one position; past its end it reads none and [scopes[0]] raises. *)
Lemma suggest_zero_width (view : View) (character : str)
    (l0 : AssertionLineDetails) (others : list AssertionLineDetails)
    (line : option Region) (c : Z) :
  get_details_of_line_being_tested view = Ok (Some (l0 :: others), line) ->
  assertion_colrange l0 = Some (c, c)
  \/ (assertion_colrange l0 = None /\ c = -1) ->
  exists region end_token,
    line = Some region
    /\ begin region <= end_ region
    /\ scan_start view (begin (sel0 view)) (l0 :: others)
       = Ok (c, true, others)
    /\ (forall scopes, merge view true others region scopes = Ok scopes)
    /\ (begin region + c <= end_ region ->
        scan view true (range (begin region + c) (end_ region + 1)) [] 0
        = ([scope_name view (begin region + c)], 1)
        /\ suggest score_selector view character
           = (shared_scopes <-
                shared score_selector [scope_name view (begin region + c)] ;;
              scope <- scope_text view shared_scopes ;;
              Ok (suggestion_edits view character 1 scope end_token)))
    /\ (end_ region < begin region + c ->
        scan view true (range (begin region + c) (end_ region + 1)) [] 0
        = ([], 0)
        /\ suggest score_selector view character = Raise IndexError).
Proof.
  intros Hrun Hcol.
  destruct (tested_line_run view _ _ Hrun) as (Hfile & Hloc & region & -> & Hle).
  assert (Hstart : scan_start view (begin (sel0 view)) (l0 :: others)
                   = Ok (c, true, others)).
  { destruct Hcol as [Hcol | [Hcol ->]].
    - now apply scan_start_zero_width.
    - unfold scan_start. cbn [first bind]. rewrite Hcol. reflexivity. }
  assert (Hmerge : forall scopes,
             merge view true others region scopes = Ok scopes).
  { intros scopes. unfold merge. now destruct others. }
  inversion Hloc as [|? ? Hl0 _]; subst.
  destruct (line_region l0) as [lr0|] eqn:Hlr0; [|now contradiction Hl0].
  exists region.
  exists (match snd (get_syntax_test_tokens view) with
          | Some end_token =>
              if end_ (sel0 view) =? end_ lr0 then L " " ++ end_token else []
          | None => []
          end).
  split; [reflexivity|]. split; [assumption|]. split; [assumption|].
  split; [assumption|]. split.
  - intros Hin.
    pose proof (scan_zero_width view (begin region + c) (end_ region) Hin)
      as Hscan.
    split; [assumption|].
    unfold suggest. rewrite Hfile, Hrun. cbn [negb bind].
    destruct (snd (get_syntax_test_tokens view)) as [end_token|];
      cbn [first bind]; rewrite ?Hlr0;
      [destruct (end_ (sel0 view) =? end_ lr0)|];
      cbn [bind]; rewrite Hstart; cbn [bind]; rewrite Hscan, Hmerge;
      reflexivity.
  - intros Hout.
    pose proof (scan_nothing view true (begin region + c) (end_ region) Hout)
      as Hscan.
    split; [assumption|].
    unfold suggest. rewrite Hfile, Hrun. cbn [negb bind].
    destruct (snd (get_syntax_test_tokens view)) as [end_token|];
      cbn [first bind]; rewrite ?Hlr0;
      [destruct (end_ (sel0 view) =? end_ lr0)|];
      cbn [bind]; rewrite Hstart; cbn [bind]; rewrite Hscan, Hmerge;
      reflexivity.
Qed.

(** The arrow form: the scan starts at the arrow's column; when that
    column lies within the tested line the length is 1 and nothing is
    merged, and past the line's end the command raises. *)
Lemma suggest_for_arrow (view : View) (character : str)
    (l0 : AssertionLineDetails) (others : list AssertionLineDetails)
    (line : option Region) (c : Z) :
  get_details_of_line_being_tested view = Ok (Some (l0 :: others), line) ->
  assertion_colrange l0 = Some (c, c) ->
  exists region end_token,
    line = Some region
    /\ scan_start view (begin (sel0 view)) (l0 :: others)
       = Ok (c, true, others)
    /\ (begin region + c <= end_ region ->
        scan view true (range (begin region + c) (end_ region + 1)) [] 0
        = ([scope_name view (begin region + c)], 1)
        /\ suggest score_selector view character
           = (shared_scopes <-
                shared score_selector [scope_name view (begin region + c)] ;;
              scope <- scope_text view shared_scopes ;;
              Ok (suggestion_edits view character 1 scope end_token)))
    /\ (end_ region < begin region + c ->
        suggest score_selector view character = Raise IndexError).
Proof.
  intros Hrun Hcol.
  destruct (suggest_zero_width view character l0 others line c Hrun
              (or_introl Hcol))
    as (region & end_token & Hl & _ & Hs & _ & Hin & Hout).
  exists region, end_token. repeat split; try assumption.
  - now apply Hin.
  - now apply Hin.
  - intros H. now apply Hout.
Qed.

(** C10. When the nearest line of the run is a comment line without a
    colrange, the engine takes the pair (-1, -1) for it and so the
    zero-width branch: the scan starts at column -1 and reads the single
    position before the tested line's first character, the length is 1,
    the nearest line is dropped and nothing is merged; the suggestion is
    built from that one scope. *)
Theorem suggest_for_line_in_progress (view : View) (character : str)
    (l0 : AssertionLineDetails) (others : list AssertionLineDetails)
    (line : option Region) :
  get_details_of_line_being_tested view = Ok (Some (l0 :: others), line) ->
  comment_marker_match l0 <> None ->
  assertion_colrange l0 = None ->
  exists region end_token,
    line = Some region
    /\ scan_start view (begin (sel0 view)) (l0 :: others)
       = Ok (-1, true, others)
    /\ scan view true (range (begin region + -1) (end_ region + 1)) [] 0
       = ([scope_name view (begin region - 1)], 1)
    /\ merge view true others region [scope_name view (begin region - 1)]
       = Ok [scope_name view (begin region - 1)]
    /\ suggest score_selector view character
       = (shared_scopes <-
            shared score_selector [scope_name view (begin region - 1)] ;;
          scope <- scope_text view shared_scopes ;;
          Ok (suggestion_edits view character 1 scope end_token)).
Proof.
  intros Hrun _ Hcol.
  destruct (suggest_zero_width view character l0 others line (-1) Hrun
              (or_intror (conj Hcol eq_refl)))
    as (region & end_token & Hl & Hle & Hs & Hm & Hin & _).
  destruct Hin as [Hscan Hsug]; [lia|].
  exists region, end_token. repeat split; try assumption. apply Hm.
Qed.

End SuggestFacts.

(** With an empty run the command stops at [lines[0]]. *)
Lemma suggest_empty_run (score_selector : str -> str -> Z) (view : View)
    (character : str) (line : option Region) :
  get_details_of_line_being_tested view = Ok (Some [], line) ->
  suggest score_selector view character = Raise IndexError.
Proof.
  intros Hrun.
  destruct (tested_line_run view _ _ Hrun) as (Hfile & _).
  unfold suggest. rewrite Hfile, Hrun. cbn [negb bind].
  now destruct (snd (get_syntax_test_tokens view)).
Qed.

(** Without a shared component the command stops at [shared_scopes[0]]. *)
Lemma scope_text_empty (view : View) : scope_text view [] = Raise IndexError.
Proof. reflexivity. Qed.

(** Outside a syntax-test file the command does nothing more. *)
Lemma suggest_not_test_file (score_selector : str -> str -> Z) (view : View)
    (character : str) :
  is_syntax_test_file view = false ->
  suggest score_selector view character = Ok [].
Proof. intros H. unfold suggest. now rewrite H. Qed.

(* ================================================================== *)
(** * The highlight handler *)
(* ================================================================== *)

(** What [^\^+$] accepts: a run of carets, or one followed by a final
    newline. *)
Lemma carets_match (t : str) :
  is_some (Re.re_match carets_re t) = true <->
  exists carets,
    carets <> [] /\ all_in (is_char caret) carets
    /\ (t = carets \/ t = carets ++ [newline]).
Proof.
  unfold Re.re_match. split.
  - destruct (Re.exec carets_re (Re.mkState 0 t [])) as [|f fs] eqn:E;
      [discriminate|].
    intros _.
    assert (Hf : In f (Re.exec carets_re (Re.mkState 0 t []))).
    { rewrite E. now left. }
    unfold carets_re in Hf.
    apply ReFacts.in_cat in Hf as (s0 & H0 & Hf).
    apply ReFacts.in_bol in H0 as [-> _].
    apply ReFacts.in_cat in Hf as (s1 & H1 & Hf).
    apply ReFacts.in_plus in H1 as (carets & Hn & Hc & (R1 & _ & _)).
    apply ReFacts.in_eol in Hf as [-> Hend].
    cbn [Re.rest] in R1. exists carets. split; [assumption|].
    split; [assumption|].
    destruct Hend as [Hend|Hend]; rewrite R1, Hend;
      [left; apply app_nil_r | now right].
  - intros (carets & Hn & Hc & Ht).
    assert (Hin : exists s', In s' (Re.exec carets_re (Re.mkState 0 t []))).
    { unfold carets_re.
      exists (Re.mkState (0 + length carets) (skipn (length carets) t) []).
      apply ReFacts.in_cat. eexists. split; [apply ReFacts.in_bol; now split|].
      apply ReFacts.in_cat. eexists. split.
      - apply ReFacts.in_plus. exists carets. split; [assumption|].
        split; [assumption|].
        apply (DeclFacts.consumed_intro (Re.mkState 0 t []) carets
                 (skipn (length carets) t)).
        cbn [Re.rest].
        destruct Ht as [->| ->].
        + now rewrite skipn_all, app_nil_r.
        + now rewrite skipn_app, Nat.sub_diag, skipn_all.
      - apply ReFacts.in_eol. split; [reflexivity|]. cbn [Re.rest].
        destruct Ht as [->| ->].
        + left. apply skipn_all.
        + right. now rewrite skipn_app, Nat.sub_diag, skipn_all. }
    destruct Hin as (s' & Hin).
    destruct (Re.exec carets_re (Re.mkState 0 t [])); [destruct Hin|].
    reflexivity.
Qed.

(** The call the handler makes for a run whose nearest line has the
    colrange [(col_start, col_end)], once the style loop has returned
    its flags; when that loop raises, so does the handler. *)
Lemma highlight_of_run (attribute : str -> option py_value) (prefs : Settings)
    (view : View) (l0 : AssertionLineDetails)
    (others : list AssertionLineDetails) (line : option Region)
    (col_start col_end : Z) :
  get_details_of_line_being_tested view = Ok (Some (l0 :: others), line) ->
  assertion_colrange l0 = Some (col_start, col_end) ->
  exists region,
    line = Some region
    /\ on_selection_modified_async attribute prefs view
       = (flags <- style_flags attribute
                     (styles_for_syntax_test_highlight prefs) 0 ;;
          Ok (AddRegions
                (if negb (empty (sel0 view))
                    && is_some (Re.re_match carets_re
                                  (substr view (sel0 view)))
                 then mkRegion
                        (begin region + snd (rowcol view (begin (sel0 view))))
                        (begin region + snd (rowcol view (end_ (sel0 view))))
                 else if col_end =? col_start
                 then mkRegion (begin region + col_start)
                               (begin region + (col_end + 1))
                 else mkRegion (begin region + col_start)
                               (begin region + col_end))
                (scope_for_syntax_test_highlight prefs) flags)).
Proof.
  intros Hrun Hcol.
  destruct (tested_line_run view _ _ Hrun) as (_ & _ & region & -> & _).
  exists region. split; [reflexivity|].
  unfold on_selection_modified_async.
  destruct (empty (sel0 view)); cbn [negb andb]; rewrite Hrun; cbn [bind];
    rewrite Hcol.
  - now destruct (col_end =? col_start).
  - destruct (is_some (Re.re_match carets_re (substr view (sel0 view)))).
    + reflexivity.
    + now destruct (col_end =? col_start).
Qed.

(** Without a run, or without a colrange on its nearest line, the
    handler clears the highlight, whatever the settings hold. *)
Lemma highlight_cleared (attribute : str -> option py_value) (prefs : Settings)
    (view : View) (lines : option (list AssertionLineDetails))
    (line : option Region) :
  get_details_of_line_being_tested view = Ok (lines, line) ->
  match lines with
  | Some (l0 :: _) => assertion_colrange l0 = None
  | _ => True
  end ->
  on_selection_modified_async attribute prefs view = Ok EraseRegions.
Proof.
  intros Hrun Hcol. unfold on_selection_modified_async.
  destruct (empty (sel0 view)); rewrite Hrun; cbn [bind];
    destruct lines as [[|l0 ls]|]; try reflexivity; now rewrite Hcol.
Qed.

(* ================================================================== *)
(** * The commands on the sample documents *)
(* ================================================================== *)

Section OnSamples.
Import Samples MoreSamples.

(** C1. The command raises.  With the caret on a line that is no comment
    line the run is empty and [lines[0]] raises [IndexError], whichever
    way the host leaves the selection after the replacement; in a file
    named as a syntax test whose first line declares no token the walk
    raises [AttributeError]. *)
Theorem run_raises_outside_assertion_lines :
  get_details_of_line_being_tested
    (text_selected on_code_line (sel0 on_code_line) (L "^"))
  = Ok (Some [], Some (mkRegion 18 22))
  /\ run prefix_score text_selected on_code_line (L "^") = Raise IndexError
  /\ run prefix_score caret_after on_code_line (L "^") = Raise IndexError
  /\ run prefix_score text_selected undeclared (L "^") = Raise AttributeError
  /\ run prefix_score caret_after undeclared (L "^") = Raise AttributeError.
Proof. repeat split; vm_compute; reflexivity. Qed.

(** C2. With no shared component the command raises [IndexError] at
    [shared_scopes[0]] instead of inserting an empty scope: so for the
    tested line [abc] whose middle character has a scope unrelated to the
    others. *)
Theorem run_raises_without_shared_scope :
  (forall view, scope_text view [] = Raise IndexError)
  /\ shared prefix_score [L "source.x string.q"; L "text.y"] = Ok []
  /\ run prefix_score text_selected unrelated_scopes (L "^") = Raise IndexError
  /\ run prefix_score caret_after unrelated_scopes (L "^") = Raise IndexError.
Proof.
  split; [exact scope_text_empty|]. repeat split; vm_compute; reflexivity.
Qed.

(** C4. An arrow whose comment token starts at column 4, under the
    tested line [ab]: the scan starts at column 4, past the line's end,
    reads nothing and leaves the length 0; the command then raises
    [IndexError] at [scopes[0]]. *)
Theorem run_raises_for_arrow_past_line_end :
  let view := text_selected indented_arrow (sel0 indented_arrow) (L "-") in
  let l0 := get_details_of_test_assertion_line view 22 in
  get_details_of_line_being_tested view = Ok (Some [l0], Some (mkRegion 18 20))
  /\ assertion_colrange l0 = Some (4, 4)
  /\ scan_start view (begin (sel0 view)) [l0] = Ok (4, true, [])
  /\ scan view true (range (18 + 4) (20 + 1)) [] 0 = ([], 0)
  /\ run prefix_score text_selected indented_arrow (L "-") = Raise IndexError
  /\ run prefix_score caret_after indented_arrow (L "-") = Raise IndexError.
Proof. repeat split; vm_compute; reflexivity. Qed.

(** C5. In a file named as a syntax test whose first line declares no
    start token, the first line examined is no comment line, yet the walk
    does not stop there and return its region: the details of the line
    are (None, None, None) and the first iteration raises
    [AttributeError] at [details.line_region.begin()], and with it
    [get_details_of_line_being_tested]. *)
Theorem walk_raises_without_declaration :
  is_syntax_test_file undeclared = true
  /\ get_details_of_test_assertion_line undeclared (begin (sel0 undeclared))
     = mkDetails None None None
  /\ (forall fuel,
        walk (S fuel) undeclared (begin (sel0 undeclared)) true [] None
        = Raise AttributeError)
  /\ get_details_of_line_being_tested undeclared = Raise AttributeError.
Proof. repeat split; intros; vm_compute; reflexivity. Qed.

(** C9. The selection [^^] plus the newline behind it is not made of
    carets only, yet the pattern accepts it, and the handler builds its
    region from the selection's columns 1 and 0 instead of the colrange
    (1, 3): this region goes to [add_regions] whenever the style loop
    returns, and so with the default settings. *)
Theorem highlight_of_carets_and_newline :
  let l0 := get_details_of_test_assertion_line carets_and_newline 23 in
  substr carets_and_newline (sel0 carets_and_newline) = L "^^" ++ [newline]
  /\ is_some (Re.re_match carets_re (L "^^" ++ [newline])) = true
  /\ get_details_of_line_being_tested carets_and_newline
     = Ok (Some [l0], Some (mkRegion 18 21))
  /\ assertion_colrange l0 = Some (1, 3)
  /\ (forall attribute prefs,
        on_selection_modified_async attribute prefs carets_and_newline
        = (flags <- style_flags attribute
                      (styles_for_syntax_test_highlight prefs) 0 ;;
           Ok (AddRegions (mkRegion (18 + 1) (18 + 0))
                          (scope_for_syntax_test_highlight prefs) flags)))
  /\ on_selection_modified_async sublime_attribute default_prefs
       carets_and_newline
     = Ok (AddRegions (mkRegion (18 + 1) (18 + 0)) (L "text") 32).
Proof. repeat split; intros; vm_compute; reflexivity. Qed.

(** ** Instances *)

Lemma get_syntax_test_tokens_declaration_witness :
  get_syntax_test_tokens with_end_token = (Some (L "#"), Some (L "-->")).
Proof.
  apply (proj1 (get_syntax_test_tokens_declaration with_end_token)).
  - vm_compute. reflexivity.
  - exists (L " "), (L " "), (L "x"), (L " ").
    repeat split; try discriminate; vm_compute; reflexivity.
Defined.

Lemma assertion_colrange_of_comment_line_witness :
  assertion_colrange (get_details_of_test_assertion_line asserted 22)
  = Some (2, 4).
Proof.
  pose proof (assertion_colrange_of_comment_line asserted 22 (L "#") None
                [] (L " ^^ source")
                ltac:(vm_compute; reflexivity) ltac:(vm_compute; reflexivity)
                ltac:(vm_compute; reflexivity) ltac:(reflexivity))
    as (_ & _ & H & _).
  exact (H (L " ") (L "^^") (L " source")
           ltac:(reflexivity) ltac:(discriminate) ltac:(reflexivity)
           ltac:(reflexivity) ltac:(reflexivity)).
Defined.

Lemma walk_terminates_witness :
  exists lines r,
    get_details_of_line_being_tested in_progress = Ok (Some lines, Some r).
Proof.
  apply (proj2 (proj2 (proj2 (proj2 (walk_terminates in_progress))))).
  - vm_compute. reflexivity.
  - vm_compute. discriminate.
  - vm_compute. discriminate.
Defined.

Lemma scan_run_length_witness :
  exists length,
    scan asserted false (range 18 22) [] 0 = ([L "source.x"], length)
    /\ 1 <= length <= 4
    /\ (forall i, 0 <= i < length -> scope_name asserted (18 + i) = L "source.x")
    /\ (18 + length = 22 \/ scope_name asserted (18 + length) <> L "source.x").
Proof.
  apply (scan_run_length asserted (mkRegion 18 21) 0).
  vm_compute. discriminate.
Defined.

Lemma suggest_for_line_in_progress_witness :
  exists region end_token,
    Some (mkRegion 18 21) = Some region
    /\ scan_start in_progress 38
         [get_details_of_test_assertion_line in_progress 38;
          get_details_of_test_assertion_line in_progress 22]
       = Ok (-1, true, [get_details_of_test_assertion_line in_progress 22])
    /\ scan in_progress true (range (begin region + -1) (end_ region + 1)) [] 0
       = ([scope_name in_progress (begin region - 1)], 1)
    /\ merge in_progress true
         [get_details_of_test_assertion_line in_progress 22] region
         [scope_name in_progress (begin region - 1)]
       = Ok [scope_name in_progress (begin region - 1)]
    /\ suggest prefix_score in_progress (L "^")
       = (shared_scopes <-
            shared prefix_score [scope_name in_progress (begin region - 1)] ;;
          scope <- scope_text in_progress shared_scopes ;;
          Ok (suggestion_edits in_progress (L "^") 1 scope end_token)).
Proof.
  apply (suggest_for_line_in_progress prefix_score in_progress (L "^")
           (get_details_of_test_assertion_line in_progress 38)
           [get_details_of_test_assertion_line in_progress 22]
           (Some (mkRegion 18 21))).
  - vm_compute. reflexivity.
  - vm_compute. discriminate.
  - vm_compute. reflexivity.
Defined.

End OnSamples.

(* ================================================================== *)
(** * What the parsed details say about the line *)
(* ================================================================== *)

Module ParseFacts.
Import Re ReFacts.

Lemma comment_token_sound (token line : str) (f : state) :
  In f (exec (comment_token_re token) (mkState 0 line [])) ->
  exists lead,
    all_in is_space lead /\ line = lead ++ token ++ rest f
    /\ pos f = (length lead + length token)%nat
    /\ groups f = [(1, (length lead, length lead + length token))]%nat.
Proof.
  unfold comment_token_re. intros H.
  apply in_cat in H as (s0 & H0 & H). apply in_bol in H0 as [-> _].
  apply in_cat in H as (s1 & H1 & H).
  apply in_star in H1 as (lead & Hl & (R1 & P1 & G1)).
  apply in_grp in H as (s2 & H2 & ->).
  apply in_lit in H2 as (R2 & P2 & G2).
  cbn [rest pos groups close] in *.
  exists lead. split; [assumption|]. split; [now rewrite R1, R2|].
  split; [lia|]. rewrite G2, G1, P2, P1. reflexivity.
Qed.

Lemma assertion_sound (after : str) (f : state) :
  In f (exec assertion_re (mkState 0 after [])) ->
  exists ws,
    all_in is_space ws
    /\ ((after = ws ++ L "<-" ++ rest f
         /\ groups f = [(1, (length ws, length ws + 2))]%nat)
        \/ (exists carets,
              carets <> [] /\ all_in (is_char caret) carets
              /\ after = ws ++ carets ++ rest f
              /\ groups f
                 = [(2, (length ws, length ws + length carets))]%nat)).
Proof.
  unfold assertion_re. intros H.
  apply in_cat in H as (s1 & H1 & H).
  apply in_star in H1 as (ws & Hw & (R1 & P1 & G1)).
  cbn [rest pos groups] in *. exists ws. split; [assumption|].
  cbn [exec] in H. apply in_app_or in H as [H|H];
    apply in_map_iff in H as (s2 & <- & H).
  - left. apply in_lit in H as (R2 & P2 & G2). cbn [rest groups close].
    split; [now rewrite R1, R2|]. rewrite G2, G1, P2, P1. reflexivity.
  - right. apply (proj1 (in_plus _ _ _)) in H
      as (carets & Hn & Hc & (R2 & P2 & G2)).
    exists carets. cbn [rest groups close].
    split; [assumption|]. split; [assumption|].
    split; [now rewrite R1, R2|]. rewrite G2, G1, P2, P1. reflexivity.
Qed.

Lemma re_match_in (r : regex) (s : str) (m : Match) :
  re_match r s = Some m ->
  subject m = s /\ In (final m) (exec r (mkState 0 s [])).
Proof.
  unfold re_match. destruct (exec r (mkState 0 s [])) as [|f fs];
    [discriminate|].
  intros H. injection H as <-. split; [reflexivity | now left].
Qed.

End ParseFacts.

Lemma details_cases (view : View) (pos : Z) :
  get_details_of_test_assertion_line view pos = mkDetails None None None
  \/ exists token,
       is_syntax_test_file view = true
       /\ fst (get_syntax_test_tokens view) = Some token
       /\ line_region (get_details_of_test_assertion_line view pos)
          = Some (line view pos)
       /\ (comment_marker_match (get_details_of_test_assertion_line view pos)
           = None ->
           assertion_colrange (get_details_of_test_assertion_line view pos)
           = None)
       /\ forall colrange,
            assertion_colrange (get_details_of_test_assertion_line view pos)
            = Some colrange ->
            colrange_origin (substr view (line view pos)) token colrange.
Proof.
  unfold get_details_of_test_assertion_line.
  destruct (is_syntax_test_file view); cbn [negb]; [|now left].
  destruct (fst (get_syntax_test_tokens view)) as [token|]; [|now left].
  right. exists token. split; [reflexivity|]. split; [reflexivity|].
  cbn [line_region comment_marker_match assertion_colrange].
  split; [reflexivity|].
  set (line_text := substr view (line view pos)).
  destruct (Re.re_match (comment_token_re token) line_text) as [m|] eqn:Em;
    [|split; [reflexivity | discriminate]].
  split; [discriminate|].
  apply ParseFacts.re_match_in in Em as [Hsub Hin].
  apply ParseFacts.comment_token_sound in Hin
    as (lead & Hlead & Hline & Hpos & Hg).
  unfold Re.end_, Re.start. rewrite Hpos, Hg, Nat2Z.id.
  cbn [Re.lookup Nat.eqb].
  assert (Hskip : skipn (length lead + length token) line_text
                  = Re.rest (Re.final m)).
  { rewrite Hline, app_assoc, <- length_app, skipn_app, Nat.sub_diag,
      skipn_all. reflexivity. }
  rewrite Hskip.
  destruct (Re.re_match assertion_re (Re.rest (Re.final m))) as [a|] eqn:Ea;
    [|discriminate].
  apply ParseFacts.re_match_in in Ea as [Hsuba Hina].
  apply ParseFacts.assertion_sound in Hina as (ws & Hws & Hcase).
  intros colrange Hc.
  exists lead, (Re.rest (Re.final m)), ws.
  split; [assumption|]. split; [assumption|]. split; [assumption|].
  unfold Re.group, Re.start, Re.end_of in Hc.
  destruct Hcase as [(Ha & Hga) | (carets & Hn & Hcar & Ha & Hga)];
    rewrite Hga in Hc; cbn [Re.lookup Nat.eqb] in Hc.
  - left. exists (Re.rest (Re.final a)). split; [assumption|].
    rewrite Hsuba, Ha in Hc.
    rewrite skipn_app, Nat.sub_diag, skipn_all in Hc. cbn [skipn app] in Hc.
    replace (length ws + 2 - length ws)%nat with 2%nat in Hc by lia.
    cbn in Hc. injection Hc as <-. reflexivity.
  - right. exists carets, (Re.rest (Re.final a)).
    split; [assumption|]. split; [assumption|]. split; [assumption|].
    rewrite Hsuba, Ha in Hc.
    rewrite skipn_app, Nat.sub_diag, skipn_all in Hc. cbn [skipn app] in Hc.
    replace (length ws + length carets - length ws)%nat
      with (length carets) in Hc by lia.
    rewrite firstn_app, Nat.sub_diag, firstn_all, firstn_O, app_nil_r in Hc.
    destruct carets as [|c cs]; [contradiction|]. cbn [truthy] in Hc.
    injection Hc as <-. unfold len. cbn [length]. apply f_equal2; lia.
Qed.

Lemma marker_present_iff (view : View) (pos : Z) (token : str) :
  is_syntax_test_file view = true ->
  fst (get_syntax_test_tokens view) = Some token ->
  (comment_marker_match (get_details_of_test_assertion_line view pos) <> None
   <-> exists lead after,
         substr view (line view pos) = lead ++ token ++ after
         /\ all_in is_space lead).
Proof.
  intros Hfile Htok. split.
  - unfold get_details_of_test_assertion_line. rewrite Hfile, Htok.
    cbn [negb comment_marker_match].
    destruct (Re.re_match (comment_token_re token)
                (substr view (line view pos))) as [m|] eqn:Em;
      [|contradiction].
    intros _. apply ParseFacts.re_match_in in Em as [_ Hin].
    apply ParseFacts.comment_token_sound in Hin as (lead & Hl & Hline & _).
    now exists lead, (Re.rest (Re.final m)).
  - intros (lead & after & Hline & Hl).
    destruct (get_syntax_test_tokens view) as [t e] eqn:E.
    cbn [fst] in Htok. subst t.
    rewrite (details_of_comment_line view pos token e lead after
               Hfile E Hline Hl).
    discriminate.
Qed.

(** X1. A line has a comment marker exactly when its text starts, after
    whitespace, with the document's start token. *)
Theorem comment_marker_iff_token_prefix (view : View) (pos : Z) (token : str) :
  is_syntax_test_file view = true ->
  fst (get_syntax_test_tokens view) = Some token ->
  (is_syntax_test_line view pos false = true
   <-> exists lead after,
         substr view (line view pos) = lead ++ token ++ after
         /\ all_in is_space lead).
Proof.
  intros Hfile Htok.
  rewrite <- (marker_present_iff view pos token Hfile Htok).
  unfold is_syntax_test_line.
  destruct (comment_marker_match _); cbn; split; congruence.
Qed.

Lemma colrange_origin_of (view : View) (pos : Z) (colrange : Z * Z) :
  assertion_colrange (get_details_of_test_assertion_line view pos)
  = Some colrange ->
  comment_marker_match (get_details_of_test_assertion_line view pos) <> None
  /\ exists token,
       fst (get_syntax_test_tokens view) = Some token
       /\ colrange_origin (substr view (line view pos)) token colrange.
Proof.
  intros Hc.
  destruct (details_cases view pos) as [E | (token & _ & Htok & _ & Hm & Ho)].
  - rewrite E in Hc. discriminate.
  - split.
    + intros Hnone. apply Hm in Hnone. congruence.
    + exists token. split; [assumption|]. now apply Ho.
Qed.

(** X2. Every colrange comes from an assertion: when the details of a
    line carry one, the line has a comment marker, its text starts after
    whitespace with the start token, and behind the token comes, after
    whitespace, either the arrow, with the pair at the token's start
    column, or a run of carets, with the pair covering the run. *)
Theorem colrange_has_origin (view : View) (pos : Z) (colrange : Z * Z) :
  assertion_colrange (get_details_of_test_assertion_line view pos)
  = Some colrange ->
  comment_marker_match (get_details_of_test_assertion_line view pos) <> None
  /\ exists token,
       fst (get_syntax_test_tokens view) = Some token
       /\ colrange_origin (substr view (line view pos)) token colrange.
Proof. exact (colrange_origin_of view pos colrange). Qed.

Lemma substr_in_bounds (view : View) (x y : nat) :
  (x <= y <= length (text view))%nat ->
  substr view (mkRegion (Z.of_nat x) (Z.of_nat y))
  = firstn (y - x) (skipn x (text view)).
Proof.
  intros H. unfold substr, begin, end_. cbn [reg_a reg_b].
  rewrite Z.min_l, Z.max_r by lia.
  now rewrite !SublimeFacts.clamp_of_nat by lia.
Qed.

Lemma line_text_slice (view : View) (pos : Z) :
  let B := Z.to_nat (begin (line view pos)) in
  let E := Z.to_nat (end_ (line view pos)) in
  (B <= E <= length (text view))%nat
  /\ substr view (line view pos) = firstn (E - B) (skipn B (text view)).
Proof.
  intros B E.
  pose proof (SublimeFacts.line_begin_nonneg view pos) as Hb0.
  pose proof (SublimeFacts.line_begin_le_end view pos) as Hble.
  pose proof (SublimeFacts.fwd_le view pos) as Hend.
  pose proof (SublimeFacts.line_end view pos) as Hle.
  cbv zeta in Hend, Hle.
  assert (HBE : (B <= E <= length (text view))%nat) by (subst B E; lia).
  split; [assumption|].
  assert (Hline : line view pos = mkRegion (Z.of_nat B) (Z.of_nat E)).
  { subst B E. rewrite !Z2Nat.id by lia.
    rewrite SublimeFacts.line_begin, SublimeFacts.line_end. reflexivity. }
  rewrite Hline. now apply substr_in_bounds.
Qed.

(** Columns of a line, as a slice of the line's text. *)
Lemma substr_of_columns (view : View) (pos a b : Z) :
  0 <= a <= b -> b <= len (substr view (line view pos)) ->
  substr view (mkRegion (begin (line view pos) + a) (begin (line view pos) + b))
  = firstn (Z.to_nat (b - a)) (skipn (Z.to_nat a) (substr view (line view pos))).
Proof.
  intros Hab Hb.
  pose proof (SublimeFacts.line_begin_nonneg view pos) as Hb0.
  destruct (line_text_slice view pos) as [HBE Hslice].
  set (B := Z.to_nat (begin (line view pos))) in *.
  set (E := Z.to_nat (end_ (line view pos))) in *.
  rewrite Hslice in *. unfold len in Hb.
  rewrite length_firstn, length_skipn in Hb.
  replace (mkRegion (begin (line view pos) + a) (begin (line view pos) + b))
    with (mkRegion (Z.of_nat (B + Z.to_nat a)) (Z.of_nat (B + Z.to_nat b)))
    by (subst B; f_equal; lia).
  rewrite substr_in_bounds by lia.
  rewrite skipn_firstn_comm, firstn_firstn, skipn_skipn.
  replace (Z.to_nat a + B)%nat with (B + Z.to_nat a)%nat by lia.
  f_equal. lia.
Qed.

(** X3. A colrange lies within its line, start before end; a pair of
    positive width covers carets of the buffer and nothing else, and a
    zero-width pair sits where the start token begins. *)
Theorem colrange_within_line (view : View) (pos a b : Z) :
  assertion_colrange (get_details_of_test_assertion_line view pos)
  = Some (a, b) ->
  let region := line view pos in
  0 <= a <= b /\ b <= size region
  /\ (a < b ->
      all_in (is_char caret)
        (substr view (mkRegion (begin region + a) (begin region + b))))
  /\ (a = b ->
      exists token,
        fst (get_syntax_test_tokens view) = Some token
        /\ substr view (mkRegion (begin region + a)
                                 (begin region + (a + len token)))
           = token).
Proof.
  intros Hc region. subst region.
  destruct (colrange_origin_of view pos (a, b) Hc)
    as (_ & token & Htok & lead & after & ws & Hline & Hlead & Hws & Hcase).
  rewrite SublimeFacts.line_size.
  destruct Hcase as [(tail & Hafter & Hab)
                    | (carets & tail & Hafter & Hn & Hcar & Hab)];
    injection Hab as -> ->.
  - assert (Hlen : len lead + len token <= len (substr view (line view pos))).
    { rewrite Hline. unfold len. rewrite !length_app. lia. }
    unfold len in *. repeat split; try lia.
    exists token. split; [assumption|].
    rewrite substr_of_columns by (unfold len; lia).
    rewrite Hline, Nat2Z.id.
    rewrite skipn_app, Nat.sub_diag, skipn_all. cbn [skipn app].
    replace (Z.to_nat (Z.of_nat (length lead) + Z.of_nat (length token)
                       - Z.of_nat (length lead))) with (length token) by lia.
    now rewrite firstn_app, Nat.sub_diag, firstn_all, firstn_O, app_nil_r.
  - assert (Hlen : len lead + len token + len ws + len carets
                   <= len (substr view (line view pos))).
    { rewrite Hline, Hafter. unfold len. rewrite !length_app. lia. }
    assert (Hpos : 0 < len carets).
    { destruct carets; [contradiction|]. unfold len. cbn [length]. lia. }
    unfold len in *. repeat split; try lia.
    intros _. rewrite substr_of_columns by (unfold len; lia).
    rewrite Hline, Hafter.
    replace (lead ++ token ++ ws ++ carets ++ tail)
      with ((lead ++ token ++ ws) ++ carets ++ tail)
      by (now rewrite <- !app_assoc).
    replace (Z.to_nat (Z.of_nat (length lead) + Z.of_nat (length token)
                       + Z.of_nat (length ws)))
      with (length (lead ++ token ++ ws))
      by (rewrite !length_app; lia).
    rewrite skipn_app, Nat.sub_diag, skipn_all. cbn [skipn app].
    match goal with
    | |- context [firstn ?n _] =>
        replace n with (length carets) by lia
    end.
    now rewrite firstn_app, Nat.sub_diag, firstn_all, firstn_O, app_nil_r.
Qed.

(** X4. [is_syntax_test_line] asks for a colrange when an assertion is
    required and for a comment marker when it is not; a line that passes
    with the assertion required passes without. *)
Theorem is_syntax_test_line_modes (view : View) (pos : Z) :
  is_syntax_test_line view pos true
  = is_some (assertion_colrange (get_details_of_test_assertion_line view pos))
  /\ is_syntax_test_line view pos false
     = is_some (comment_marker_match
                  (get_details_of_test_assertion_line view pos))
  /\ (is_syntax_test_line view pos true = true ->
      is_syntax_test_line view pos false = true).
Proof.
  unfold is_syntax_test_line.
  destruct (details_cases view pos) as [E | (token & _ & _ & _ & Hm & _)].
  - rewrite E. cbn. repeat split; congruence.
  - destruct (comment_marker_match _) as [m|] eqn:Em; cbn [is_some negb orb].
    + now repeat split.
    + rewrite (Hm eq_refl). now repeat split.
Qed.

(* ================================================================== *)
(** * Which documents are syntax-test files *)
(* ================================================================== *)

Lemma tokens_of_shape (view : View) (token : str) (end_token : option str) :
  len (substr view (line view 0)) < 1000 ->
  declaration_shape (substr view (line view 0)) token end_token ->
  get_syntax_test_tokens view = (Some token, end_token).
Proof.
  intros Hlen Hs. unfold get_syntax_test_tokens.
  rewrite SublimeFacts.line_size. apply Z.ltb_lt in Hlen. rewrite Hlen.
  destruct (DeclFacts.declaration_match_shape
              (substr view (line view 0)) token end_token)
    as (m & -> & G1 & G2);
    [apply SublimeFacts.line_text_no_newline | assumption |].
  now rewrite G1, G2.
Qed.

Lemma tokens_short (view : View) (token : str) (end_token : option str) :
  get_syntax_test_tokens view = (Some token, end_token) ->
  len (substr view (line view 0)) < 1000.
Proof.
  unfold get_syntax_test_tokens. rewrite SublimeFacts.line_size.
  destruct (Z.ltb_spec (len (substr view (line view 0))) 1000);
    [trivial | discriminate].
Qed.

Lemma tokens_none (view : View) (end_token : option str) :
  get_syntax_test_tokens view = (None, end_token) -> end_token = None.
Proof.
  unfold get_syntax_test_tokens.
  destruct (size (line view 0) <? 1000); [|congruence].
  destruct (Re.re_match declaration_re (substr view (line view 0)))
    as [m|] eqn:E; [|congruence].
  apply DeclFacts.declaration_match_some in E as (tok & e & _ & G1 & _);
    [| apply SublimeFacts.line_text_no_newline].
  rewrite G1. discriminate.
Qed.

(** X5. An unnamed buffer is a syntax-test file exactly when its first
    line is shorter than 1000 characters and has the shape of a
    declaration. *)
Theorem unnamed_buffer_is_test_file_iff (view : View) :
  file_name view = None ->
  (is_syntax_test_file view = true
   <-> len (substr view (line view 0)) < 1000
       /\ exists token end_token,
            declaration_shape (substr view (line view 0)) token end_token).
Proof.
  intros Hname. unfold is_syntax_test_file. rewrite Hname. split.
  - destruct (get_syntax_test_tokens view) as [[token|] e] eqn:E;
      cbn [fst]; [|discriminate].
    intros _. split; [now apply (tokens_short view token e)|].
    exists token, e. now apply tokens_shape.
  - intros (Hlen & token & e & Hs).
    now rewrite (tokens_of_shape view token e Hlen Hs).
Qed.

Lemma basename_from_no_slash (cur base : str) :
  ~ In "/"%char base -> basename_from cur base = rev cur ++ base.
Proof.
  revert cur; induction base as [|c base IH]; intros cur Hno; cbn [basename_from].
  - now rewrite app_nil_r.
  - destruct (is_char "/"%char c) eqn:E.
    + apply is_char_eq in E. subst c. exfalso. apply Hno. now left.
    + rewrite IH by (intros H; apply Hno; now right).
      cbn [rev]. now rewrite <- app_assoc.
Qed.

Lemma basename_from_dir (cur dir base : str) :
  ~ In "/"%char base ->
  basename_from cur (dir ++ "/"%char :: base) = base.
Proof.
  revert cur; induction dir as [|c dir IH]; intros cur Hno.
  - cbn [app basename_from].
    replace (is_char "/"%char "/"%char) with true by reflexivity.
    now rewrite basename_from_no_slash.
  - cbn [app basename_from]. now destruct (is_char "/"%char c); rewrite IH.
Qed.

Lemma startswith_iff (p s : str) :
  startswith p s = true <-> exists t, s = p ++ t.
Proof.
  revert s; induction p as [|x p IH]; intros s.
  - cbn. split; [intros _; now exists s | reflexivity].
  - destruct s as [|y s]; cbn [startswith].
    + split; [discriminate | intros (t & H); discriminate].
    + rewrite andb_true_iff, Ascii.eqb_eq, IH. split.
      * intros (-> & t & ->). now exists t.
      * intros (t & H). injection H as -> ->. split; [reflexivity|].
        now exists t.
Qed.

(** X6. A named file is classified by its base name alone, whatever the
    buffer holds: it is a syntax-test file exactly when the part of the
    name behind the last slash begins with [syntax_test_]. *)
Theorem named_file_is_test_file_iff (view : View) (dir base : str) :
  ~ In "/"%char base ->
  file_name view = Some base
  \/ file_name view = Some (dir ++ "/"%char :: base) ->
  (is_syntax_test_file view = true
   <-> exists rest, base = L "syntax_test_" ++ rest).
Proof.
  intros Hno Hname. unfold is_syntax_test_file.
  destruct Hname as [-> | ->]; unfold basename.
  - rewrite basename_from_no_slash by assumption. apply startswith_iff.
  - rewrite basename_from_dir by assumption. apply startswith_iff.
Qed.

(** X7. The tokens returned are well formed: without a start token there
    is no end token; a start token is not empty, holds no whitespace and
    begins the first line; an end token is not empty, holds no whitespace
    and ends the first line. *)
Theorem tokens_well_formed (view : View) (start_token end_token : option str) :
  get_syntax_test_tokens view = (start_token, end_token) ->
  (start_token = None -> end_token = None)
  /\ (forall token,
        start_token = Some token ->
        token <> [] /\ all_in non_space token
        /\ exists rest, substr view (line view 0) = token ++ rest)
  /\ (forall token,
        end_token = Some token ->
        token <> [] /\ all_in non_space token
        /\ exists before, substr view (line view 0) = before ++ token).
Proof.
  intros H. split; [|split].
  - intros ->. now apply tokens_none in H.
  - intros token ->. apply tokens_shape in H
      as (ws1 & ws2 & desc & ws3 & Hline & Hn & Ha & _).
    repeat split; try assumption. eexists. exact Hline.
  - intros token ->. destruct start_token as [tok|];
      [|apply tokens_none in H; discriminate].
    apply tokens_shape in H
      as (ws1 & ws2 & desc & ws3 & Hline & _ & _ & _ & _ & _ & _ & _ & _ & _
          & Hn & Ha).
    repeat split; try assumption.
    exists (tok ++ ws1 ++ L "SYNTAX TEST" ++ ws2 ++ [dquote] ++ desc
            ++ [dquote] ++ ws3).
    rewrite Hline. cbn [end_text]. now rewrite <- !app_assoc.
Qed.

(** X8. In a syntax-test file with a declared start token the first line
    is a comment line without assertion: it passes
    [is_syntax_test_line] only when no assertion is required. *)
Theorem declaration_line_is_comment_line (view : View) (token : str) :
  is_syntax_test_file view = true ->
  fst (get_syntax_test_tokens view) = Some token ->
  is_syntax_test_line view 0 false = true
  /\ is_syntax_test_line view 0 true = false
  /\ assertion_colrange (get_details_of_test_assertion_line view 0) = None.
Proof.
  intros Hfile Htok.
  destruct (get_syntax_test_tokens view) as [t e] eqn:E.
  cbn [fst] in Htok. subst t.
  pose proof (tokens_shape view token e E)
    as (ws1 & ws2 & desc & ws3 & Hline & _ & _ & Hn1 & Ha1 & _).
  pose proof (details_of_comment_line view 0 token e []
                (ws1 ++ L "SYNTAX TEST" ++ ws2 ++ [dquote] ++ desc
                 ++ [dquote] ++ ws3 ++ end_text e)
                Hfile E Hline eq_refl) as Hd.
  rewrite LineFacts.assertion_match_none in Hd.
  - unfold is_syntax_test_line. rewrite Hd. now cbn.
  - intros ws tail Hws. split; intros Heq.
    + apply prefix_unique with (p := is_space) in Heq as [_ Heq];
        try assumption; try reflexivity. discriminate Heq.
    + apply prefix_unique with (p := is_space) in Heq as [_ Heq];
        try assumption; try reflexivity. discriminate Heq.
Qed.

(* ================================================================== *)
(** * The run the walk returns *)
(* ================================================================== *)

Lemma marker_of_colrange (view : View) (pos : Z) :
  is_some (assertion_colrange (get_details_of_test_assertion_line view pos))
  = true ->
  comment_marker_match (get_details_of_test_assertion_line view pos) <> None.
Proof.
  destruct (details_cases view pos) as [E | (token & _ & _ & _ & Hm & _)].
  - rewrite E. discriminate.
  - intros Hc Hnone. rewrite (Hm Hnone) in Hc. discriminate.
Qed.

Lemma walk_extends (view : View) (fuel : nat) :
  forall pos first_line lines details ls r,
    walk fuel view pos first_line lines details = Ok (ls, r) ->
    exists more, ls = lines ++ more.
Proof.
  induction fuel as [|fuel IH]; intros pos first_line lines details ls r;
    cbn [walk]; destruct (pos <? 0).
  - destruct details; [|discriminate]. intros H. injection H as <- _.
    exists []. now rewrite app_nil_r.
  - discriminate.
  - destruct details; [|discriminate]. intros H. injection H as <- _.
    exists []. now rewrite app_nil_r.
  - set (d := get_details_of_test_assertion_line view pos).
    destruct (line_region d) as [lr|]; [|discriminate].
    assert (Hstep : forall p b o,
               walk fuel view p b (lines ++ [d]) o = Ok (ls, r) ->
               exists more, ls = lines ++ more).
    { intros p b o H. apply IH in H as (more & ->).
      exists (d :: more). now rewrite <- app_assoc. }
    destruct (is_some (assertion_colrange d)); [apply Hstep|].
    destruct (negb first_line || negb (is_some (comment_marker_match d))).
    + intros H. injection H as <- _. exists []. now rewrite app_nil_r.
    + destruct (is_some (comment_marker_match d)); [apply Hstep | apply IH].
Qed.

(** A member of a run: the details of some line, with comment marker and
    region. *)
Lemma walk_members (view : View) (fuel : nat) :
  forall pos first_line lines details ls r,
    walk fuel view pos first_line lines details = Ok (ls, r) ->
    Forall (run_member view) lines -> Forall (run_member view) ls.
Proof.
  induction fuel as [|fuel IH]; intros pos first_line lines details ls r;
    cbn [walk]; destruct (Z.ltb_spec pos 0) as [Hneg|Hpos].
  - destruct details; [|discriminate]. intros H Ht. now injection H as <- _.
  - discriminate.
  - destruct details; [|discriminate]. intros H Ht. now injection H as <- _.
  - destruct (line_region (get_details_of_test_assertion_line view pos))
      as [lr|] eqn:Hlr; [|discriminate].
    assert (Hd : comment_marker_match
                   (get_details_of_test_assertion_line view pos) <> None ->
                 Forall (run_member view) lines ->
                 Forall (run_member view)
                   (lines ++ [get_details_of_test_assertion_line view pos])).
    { intros Hm Hl. apply Forall_app. split; [assumption|].
      constructor; [|constructor]. exists pos.
      repeat split; try assumption. now rewrite Hlr. }
    destruct (is_some (assertion_colrange _)) eqn:Hc.
    + intros H Hl. apply IH in H; [assumption|].
      apply Hd; [|assumption]. now apply marker_of_colrange.
    + destruct (comment_marker_match _) as [m|] eqn:Hm;
        cbn [is_some negb]; rewrite ?orb_true_r, ?orb_false_r.
      * destruct first_line; cbn [negb].
        -- intros H Hl. apply IH in H; [assumption|]. apply Hd;
             [discriminate | assumption].
        -- intros H Hl. now injection H as <- _.
      * intros H Hl. now injection H as <- _.
Qed.

Lemma run_shape (view : View)
    (lines : list AssertionLineDetails) (r : option Region) :
  get_details_of_line_being_tested view = Ok (Some lines, r) ->
  let cursor_line :=
    get_details_of_test_assertion_line view (begin (sel0 view)) in
  Forall (run_member view) lines
  /\ (lines = [] <-> comment_marker_match cursor_line = None)
  /\ (lines = [] -> r = Some (line view (begin (sel0 view))))
  /\ (forall d others, lines = d :: others -> d = cursor_line).
Proof.
  unfold get_details_of_line_being_tested.
  destruct (negb (is_syntax_test_file view)); [discriminate|].
  set (pos := begin (sel0 view)).
  destruct (walk (S (Z.to_nat pos)) view pos true [] None)
    as [[ls r']|e] eqn:E; cbn [bind]; [|discriminate].
  intros H. injection H as <- <-. cbv zeta.
  set (cursor_line := get_details_of_test_assertion_line view pos).
  split.
  { apply walk_members in E; [assumption | constructor]. }
  cbn [walk] in E. destruct (pos <? 0); [discriminate|].
  fold cursor_line in E.
  destruct (line_region cursor_line) as [lr|] eqn:Hlr; [|discriminate].
  pose proof (details_region view pos lr Hlr) as ->.
  assert (Hcont : forall p o,
             walk (Z.to_nat pos) view p false ([] ++ [cursor_line]) o
             = Ok (ls, r') ->
             comment_marker_match cursor_line <> None ->
             (ls = [] <-> comment_marker_match cursor_line = None)
             /\ (ls = [] -> r' = Some (line view pos))
             /\ (forall d others, ls = d :: others -> d = cursor_line)).
  { intros p o H Hm. apply walk_extends in H as (more & ->).
    cbn [app]. split; [split; [discriminate | contradiction]|].
    split; [discriminate|]. intros d others Heq. now injection Heq as <- _. }
  destruct (is_some (assertion_colrange cursor_line)) eqn:Hc.
  - apply (Hcont _ _ E). now apply marker_of_colrange.
  - cbn [negb orb] in E.
    destruct (comment_marker_match cursor_line) as [m|] eqn:Hm;
      cbn [is_some negb] in E.
    + apply (Hcont _ _ E). discriminate.
    + injection E as <- <-. repeat split; try reflexivity; discriminate.
Qed.

(** X9. In a returned run every line is the details of a line of the
    buffer with comment marker and region; the run is empty exactly when
    the cursor's line has no comment marker, and then the tested line is
    the cursor's line; otherwise the run starts with the details of the
    cursor's line. *)
Theorem run_starts_at_cursor_line (view : View)
    (lines : list AssertionLineDetails) (r : option Region) :
  get_details_of_line_being_tested view = Ok (Some lines, r) ->
  let cursor_line :=
    get_details_of_test_assertion_line view (begin (sel0 view)) in
  Forall (run_member view) lines
  /\ (lines = [] <-> comment_marker_match cursor_line = None)
  /\ (lines = [] -> r = Some (line view (begin (sel0 view))))
  /\ (forall d others, lines = d :: others -> d = cursor_line).
Proof. exact (run_shape view lines r). Qed.

Section CursorOffComment.

Variable score_selector : str -> str -> Z.

(** X10. In a syntax-test file with a declared start token, with the
    cursor on a line that is no comment line (the key-binding context
    [current_line_is_a_syntax_test] is false), the run is empty, the
    suggestion command raises [IndexError] at [lines[0]], the alignment
    command does nothing and the highlight is cleared, whatever the
    settings hold. *)
Theorem commands_off_comment_line (view : View) (character : str) :
  is_syntax_test_file view = true ->
  fst (get_syntax_test_tokens view) <> None ->
  0 <= begin (sel0 view) ->
  is_syntax_test_line view (begin (sel0 view)) false = false ->
  get_details_of_line_being_tested view
  = Ok (Some [], Some (line view (begin (sel0 view))))
  /\ suggest score_selector view character = Raise IndexError
  /\ align view = Ok []
  /\ (forall attribute prefs,
        on_selection_modified_async attribute prefs view = Ok EraseRegions).
Proof.
  intros Hfile Htok Hsel Hline.
  assert (Hm : comment_marker_match
                 (get_details_of_test_assertion_line view (begin (sel0 view)))
               = None).
  { unfold is_syntax_test_line in Hline.
    destruct (comment_marker_match _); [discriminate | reflexivity]. }
  assert (Hrun : get_details_of_line_being_tested view
                 = Ok (Some [], Some (line view (begin (sel0 view))))).
  { destruct (walk_returns view (S (Z.to_nat (begin (sel0 view)))) Hfile Htok
                (begin (sel0 view)) true [] None) as (ls & r & Hw);
      [lia | now left |].
    assert (Hg : get_details_of_line_being_tested view = Ok (Some ls, Some r)).
    { unfold get_details_of_line_being_tested. rewrite Hfile. cbn [negb].
      now rewrite Hw. }
    destruct (run_shape view ls (Some r) Hg) as (_ & Hiff & Hr & _).
    assert (ls = []) as -> by now apply Hiff.
    now rewrite (Hr eq_refl) in Hg. }
  split; [assumption|]. split; [|split].
  - now apply suggest_empty_run with (line := Some (line view (begin (sel0 view)))).
  - unfold align. now rewrite Hm.
  - intros attribute prefs.
    now apply highlight_cleared with (lines := Some [])
                                     (line := Some (line view (begin (sel0 view)))).
Qed.

(** X11. In a file named as a syntax test whose first line declares no
    start token, no line has details; the walk raises [AttributeError]
    at [details.line_region.begin()], and with it the suggestion command
    and the highlight handler, at every cursor position. *)
Theorem commands_without_declaration (view : View) (character : str) :
  is_syntax_test_file view = true ->
  fst (get_syntax_test_tokens view) = None ->
  0 <= begin (sel0 view) ->
  (forall pos,
     get_details_of_test_assertion_line view pos = mkDetails None None None)
  /\ get_details_of_line_being_tested view = Raise AttributeError
  /\ suggest score_selector view character = Raise AttributeError
  /\ (forall attribute prefs,
        on_selection_modified_async attribute prefs view
        = Raise AttributeError)
  /\ align view = Ok [].
Proof.
  intros Hfile Htok Hsel.
  assert (Hd : forall pos,
             get_details_of_test_assertion_line view pos
             = mkDetails None None None).
  { intros pos. unfold get_details_of_test_assertion_line.
    now rewrite Hfile, Htok. }
  assert (Hrun : get_details_of_line_being_tested view = Raise AttributeError).
  { unfold get_details_of_line_being_tested. rewrite Hfile. cbn [negb walk].
    apply Z.ltb_ge in Hsel. now rewrite Hsel, Hd. }
  split; [assumption|]. split; [assumption|]. split; [|split].
  - unfold suggest. now rewrite Hfile, Hrun.
  - intros attribute prefs. unfold on_selection_modified_async.
    now destruct (empty (sel0 view)); rewrite Hrun.
  - unfold align. now rewrite Hd.
Qed.

End CursorOffComment.

(* ================================================================== *)
(** * The merge and the suggestion on a uniform scope *)
(* ================================================================== *)

Lemma str_in_iff (x : str) (xs : list str) : str_in x xs = true <-> In x xs.
Proof.
  unfold str_in. rewrite existsb_exists. split.
  - intros (y & Hy & E). apply str_eqb_eq in E. now subst.
  - intros H. exists x. split; [assumption | apply str_eqb_refl].
Qed.

Lemma in_range (a b p : Z) : In p (range a b) <-> a <= p < b.
Proof.
  unfold range. rewrite in_map_iff. split.
  - intros (i & <- & Hi). apply in_seq in Hi. lia.
  - intros H. exists (Z.to_nat (p - a)). split; [lia|]. apply in_seq. lia.
Qed.

Lemma merge_fold (view : View) (ps : list Z) :
  forall scopes,
    let merged :=
      fold_left
        (fun scopes pos =>
           let scope := scope_name view pos in
           if negb (str_in scope scopes) then scopes ++ [scope] else scopes)
        ps scopes in
    (exists added, merged = scopes ++ added)
    /\ (NoDup scopes -> NoDup merged)
    /\ (forall s, In s merged <->
                  In s scopes \/ exists p, In p ps /\ scope_name view p = s).
Proof.
  induction ps as [|p ps IH]; intros scopes; cbn [fold_left].
  - split; [exists []; now rewrite app_nil_r|]. split; [trivial|].
    intros s. split; [now left | intros [H | (p & [] & _)]; assumption].
  - cbv zeta in IH.
    destruct (str_in (scope_name view p) scopes) eqn:E; cbn [negb].
    + apply str_in_iff in E.
      destruct (IH scopes) as (Hpre & Hnd & Hin).
      split; [assumption|]. split; [assumption|].
      intros s. rewrite Hin. split.
      * intros [H | (q & Hq & Hs)]; [now left|].
        right. exists q. split; [now right | assumption].
      * intros [H | (q & [-> | Hq] & Hs)]; [now left | | ].
        -- left. now subst.
        -- right. now exists q.
    + assert (Hnot : ~ In (scope_name view p) scopes).
      { intros H. apply str_in_iff in H. congruence. }
      destruct (IH (scopes ++ [scope_name view p])) as (Hpre & Hnd & Hin).
      split; [|split].
      * destruct Hpre as (added & ->). exists (scope_name view p :: added).
        now rewrite <- app_assoc.
      * intros H. apply Hnd. apply NoDup_app; [assumption | | ].
        -- constructor; [intros [] | constructor].
        -- intros x Hx [<- | []]. contradiction.
      * intros s. rewrite Hin, in_app_iff. cbn [In]. split.
        -- intros [[H | [<- | []]] | (q & Hq & Hs)].
           ++ now left.
           ++ right. exists p. split; [now left | reflexivity].
           ++ right. exists q. split; [now right | assumption].
        -- intros [H | (q & [-> | Hq] & Hs)].
           ++ now left; left.
           ++ left. right. now left.
           ++ right. now exists q.
Qed.

(** X12. The merge keeps the scopes it is given, in their order and in
    front, so the reference scope stays first; it adds the scope of every
    position under the nearest line's colrange, and no scope twice.  In
    the zero-width form and without a line it changes nothing. *)
Theorem merge_adds_distinct_scopes (view : View) (l0 : AssertionLineDetails)
    (others : list AssertionLineDetails) (region : Region)
    (scopes : list str) (col_start col_end : Z) :
  assertion_colrange l0 = Some (col_start, col_end) ->
  merge view true (l0 :: others) region scopes = Ok scopes
  /\ merge view false [] region scopes = Ok scopes
  /\ exists merged,
       merge view false (l0 :: others) region scopes = Ok merged
       /\ (exists added, merged = scopes ++ added)
       /\ (NoDup scopes -> NoDup merged)
       /\ (forall s,
             In s merged <->
             In s scopes
             \/ exists p,
                  begin region + col_start <= p < begin region + col_end
                  /\ scope_name view p = s).
Proof.
  intros Hc. split; [reflexivity|]. split; [reflexivity|].
  unfold merge. cbn [negb]. rewrite Hc.
  eexists. split; [reflexivity|].
  destruct (merge_fold view
              (range (begin region + col_start) (begin region + col_end))
              scopes) as (Hpre & Hnd & Hin).
  split; [assumption|]. split; [assumption|].
  intros s. rewrite Hin. split.
  - intros [H | (p & Hp & Hs)]; [now left|]. right. exists p.
    split; [now apply in_range | assumption].
  - intros [H | (p & Hp & Hs)]; [now left|]. right. exists p.
    split; [now apply in_range | assumption].
Qed.

Lemma merge_same_scope (view : View) (ps : list Z) (reference : str) :
  (forall p, In p ps -> scope_name view p = reference) ->
  fold_left
    (fun scopes pos =>
       let scope := scope_name view pos in
       if negb (str_in scope scopes) then scopes ++ [scope] else scopes)
    ps [reference] = [reference].
Proof.
  induction ps as [|p ps IH]; intros H; cbn [fold_left]; [reflexivity|].
  cbv zeta. rewrite (H p (or_introl eq_refl)).
  replace (str_in reference [reference]) with true
    by (symmetry; apply str_in_iff; now left).
  cbn [negb]. apply IH. intros q Hq. apply H. now right.
Qed.

Lemma scan_caret_form (view : View) (start e : Z) :
  start <= e ->
  exists length,
    scan view false (range start (e + 1)) [] 0
    = ([scope_name view start], length)
    /\ 1 <= length <= e + 1 - start
    /\ (forall i, 0 <= i < length ->
                  scope_name view (start + i) = scope_name view start)
    /\ (start + length = e + 1
        \/ scope_name view (start + length) <> scope_name view start).
Proof.
  intros H. rewrite range_cons by lia. cbn [scan app].
  destruct (scan_reference view (scope_name view start)
              (Z.to_nat (e - start)) (start + 1) (0 + 1))
    as (k & Hk & Hs & Hin & Hout).
  replace (start + 1 + Z.of_nat (Z.to_nat (e - start))) with (e + 1) in Hs
    by lia.
  rewrite Hs. exists (0 + 1 + k). split; [reflexivity|].
  split; [lia|]. split.
  - intros i Hi. destruct (Z.eq_dec i 0) as [-> | Hne].
    + now rewrite Z.add_0_r.
    + replace (start + i) with (start + 1 + (i - 1)) by lia.
      apply Hin. lia.
  - destruct Hout as [-> | Hout]; [left; lia|].
    right. now replace (start + (0 + 1 + k)) with (start + 1 + k) by lia.
Qed.

Lemma filter_all {A} (f : A -> bool) (xs : list A) :
  (forall x, In x xs -> f x = true) -> filter f xs = xs.
Proof.
  induction xs as [|x xs IH]; intros H; cbn [filter]; [reflexivity|].
  rewrite (H x (or_introl eq_refl)). f_equal. apply IH.
  intros y Hy. apply H. now right.
Qed.

Section UniformScope.

Variable score_selector : str -> str -> Z.

(** X13. The caret form on a uniform scope: when the inserted character's
    column lies within the tested line, the positions under the nearest
    line's carets carry the scope found at that column, every component
    of that scope scores against it, and neither it nor the scope at
    position 0 is blank, the command completes.  [length] is the number
    of positions from that column on, up to the end of the tested line,
    that carry the same scope (at least one).  The command erases the
    selection unless it is empty, inserts at the selection's start the
    character [length] times, a space, the components of the scope
    without the first one when that is the first component of the scope
    at position 0, and a space and the end token when the file declares
    one and the selection ends where the nearest line ends, and then
    selects what follows the characters inserted. *)
Theorem suggest_on_uniform_scope (view : View) (character : str)
    (l0 : AssertionLineDetails) (others : list AssertionLineDetails)
    (region : Region) (col_start col_end : Z) :
  get_details_of_line_being_tested view
  = Ok (Some (l0 :: others), Some region) ->
  assertion_colrange l0 = Some (col_start, col_end) ->
  col_start <> col_end ->
  let start := begin region + snd (rowcol view (begin (sel0 view))) in
  let reference := scope_name view start in
  start <= end_ region ->
  (forall p, begin region + col_start <= p < begin region + col_end ->
             scope_name view p = reference) ->
  (forall c, In c (split reference) -> 0 < score_selector reference c) ->
  split reference <> [] ->
  split (scope_name view 0) <> [] ->
  exists length lr0,
    line_region l0 = Some lr0
    /\ scan view false (range start (end_ region + 1)) [] 0
       = ([reference], length)
    /\ 1 <= length <= end_ region + 1 - start
    /\ (forall i, 0 <= i < length -> scope_name view (start + i) = reference)
    /\ (start + length = end_ region + 1
        \/ scope_name view (start + length) <> reference)
    /\ let scope :=
         join (L " ")
           (skipn (if str_eqb (hd [] (split reference))
                              (hd [] (split (scope_name view 0)))
                   then 1 else 0)
              (split reference)) in
       let end_token :=
         match snd (get_syntax_test_tokens view) with
         | Some token =>
             if end_ (sel0 view) =? end_ lr0 then L " " ++ token else []
         | None => []
         end in
       let insert_at := begin (sel0 view) in
       suggest score_selector view character
       = Ok ((if empty (sel0 view) then [] else [Erase (sel0 view)])
             ++ [Insert insert_at
                   (repeat_str character (Z.to_nat length)
                    ++ L " " ++ scope ++ end_token);
                 SelClear;
                 SelAdd (mkRegion
                           (insert_at + length)
                           (insert_at + length
                            + len (L " " ++ scope ++ end_token)))]).
Proof.
  intros Hrun Hcol Hne start reference Hstart Hsame Hscore Href Hbase.
  destruct (tested_line_run view _ _ Hrun) as (Hfile & Hloc & _).
  inversion Hloc as [|? ? Hl0 _]; subst.
  destruct (line_region l0) as [lr0|] eqn:Hlr0; [|now contradiction Hl0].
  destruct (scan_caret_form view start (end_ region) Hstart)
    as (length & Hscan & Hlen & Hin & Hout).
  fold reference in Hscan, Hin, Hout.
  exists length, lr0.
  split; [reflexivity|]. split; [assumption|]. split; [assumption|].
  split; [assumption|]. split; [assumption|].
  assert (Hss : scan_start view (begin (sel0 view)) (l0 :: others)
                = Ok (snd (rowcol view (begin (sel0 view))), false,
                      l0 :: others)).
  { unfold scan_start. cbn [first bind]. rewrite Hcol. cbn [fst snd].
    apply Z.eqb_neq in Hne. now rewrite Hne. }
  assert (Hmerge : merge view false (l0 :: others) region [reference]
                   = Ok [reference]).
  { unfold merge. cbn [negb]. rewrite Hcol. f_equal.
    apply merge_same_scope. intros p Hp. apply Hsame. now apply in_range. }
  assert (Hshared : shared score_selector [reference]
                    = Ok (split reference)).
  { unfold shared. cbn [first bind]. f_equal. apply filter_all.
    intros c Hc. cbn [forallb]. rewrite andb_true_r.
    apply Z.ltb_lt. now apply Hscore. }
  assert (Htext : scope_text view (split reference)
                  = Ok (join (L " ")
                          (skipn (if str_eqb (hd [] (split reference))
                                             (hd [] (split (scope_name view 0)))
                                  then 1 else 0)
                             (split reference)))).
  { unfold scope_text.
    destruct (split reference) as [|c cs]; [contradiction|].
    destruct (split (scope_name view 0)) as [|b bs]; [contradiction|].
    cbn [first bind hd]. now destruct (str_eqb c b). }
  cbv zeta.
  unfold suggest. rewrite Hfile, Hrun. cbn [negb bind].
  destruct (snd (get_syntax_test_tokens view)) as [end_token|];
    cbn [first bind]; rewrite ?Hlr0;
    [destruct (end_ (sel0 view) =? end_ lr0)|];
    cbn [bind]; rewrite Hss; cbn [bind]; fold start; rewrite Hscan, Hmerge;
    cbn [bind]; rewrite Hshared; cbn [bind]; rewrite Htext;
    unfold suggestion_edits; now destruct (empty (sel0 view)).
Qed.

End UniformScope.

(* ================================================================== *)
(** * The alignment command and the key-binding contexts *)
(* ================================================================== *)

Lemma region_of_marker (view : View) (pos : Z) :
  comment_marker_match (get_details_of_test_assertion_line view pos) <> None ->
  line_region (get_details_of_test_assertion_line view pos)
  = Some (line view pos).
Proof.
  destruct (details_cases view pos) as [E | (token & _ & _ & Hr & _)].
  - rewrite E. contradiction.
  - intros _. exact Hr.
Qed.

Lemma line_above_value (view : View) :
  line_above_is_a_syntax_test view
  = Ok (is_syntax_test_line view (begin (sel0 view)) false
        && is_syntax_test_line view
             (begin (line view (begin (sel0 view))) - 1) true).
Proof.
  unfold line_above_is_a_syntax_test.
  assert (Hcur : is_syntax_test_line view (begin (sel0 view)) false
                 = is_some (comment_marker_match
                              (get_details_of_test_assertion_line view
                                 (begin (sel0 view))))).
  { unfold is_syntax_test_line. now destruct (comment_marker_match _). }
  rewrite Hcur.
  destruct (comment_marker_match
              (get_details_of_test_assertion_line view (begin (sel0 view))))
    as [m|] eqn:Em; [|reflexivity].
  rewrite region_of_marker by (rewrite Em; discriminate).
  reflexivity.
Qed.

Lemma len_repeat_space (n : nat) : len (repeat_str (L " ") n) = Z.of_nat n.
Proof.
  unfold len. induction n as [|n IH]; [reflexivity|].
  cbn [repeat_str]. rewrite length_app.
  change (length (L " ")) with 1%nat. lia.
Qed.

(** X14. Under the key-binding context [line_above_is_a_syntax_test] the
    alignment command completes: the line above has a colrange, and the
    command inserts at the end of the selection as many spaces as the
    cursor's column is short of that colrange's end, none when it is at or
    past it, and then runs the suggestion command. *)
Theorem align_under_its_context (view : View) :
  line_above_is_a_syntax_test view = Ok true ->
  let above := begin (line view (begin (sel0 view))) - 1 in
  let col := snd (rowcol view (begin (sel0 view))) in
  exists col_start col_end spaces,
    assertion_colrange (get_details_of_test_assertion_line view above)
    = Some (col_start, col_end)
    /\ align view
       = Ok [InsertText (end_ (sel0 view)) spaces;
             RunCommand (L "suggest_syntax_test")]
    /\ all_in (is_char " "%char) spaces
    /\ len spaces = Z.max 0 (col_end - col).
Proof.
  rewrite line_above_value. intros H above col. injection H as H.
  apply andb_true_iff in H as [Hcur Habove]. fold above in Habove.
  unfold is_syntax_test_line in Hcur, Habove.
  destruct (comment_marker_match
              (get_details_of_test_assertion_line view (begin (sel0 view))))
    as [m|] eqn:Em; [|discriminate].
  destruct (comment_marker_match
              (get_details_of_test_assertion_line view above))
    as [m'|] eqn:Em'; [|discriminate].
  cbn [is_some negb orb] in Habove.
  destruct (assertion_colrange
              (get_details_of_test_assertion_line view above))
    as [[col_start col_end]|] eqn:Ec; [|discriminate].
  exists col_start, col_end,
    (repeat_str (L " ") (Z.to_nat (col_end - col))).
  split; [reflexivity|]. split; [|split].
  - unfold align. rewrite Em. cbn [is_some negb].
    rewrite region_of_marker by (rewrite Em; discriminate).
    cbn [bind]. fold above.
    rewrite region_of_marker by (rewrite Em'; discriminate).
    rewrite Ec. reflexivity.
  - unfold all_in. induction (Z.to_nat (col_end - col)) as [|n IH];
      [reflexivity|]. cbn [repeat_str]. rewrite forallb_app, IH. reflexivity.
  - rewrite len_repeat_space. lia.
Qed.

(** X15. Outside that context, on a comment line whose line above has
    no colrange, the alignment command raises [TypeError] at
    [details.assertion_colrange[1]] before it inserts anything. *)
Theorem align_outside_its_context (view : View) :
  is_syntax_test_line view (begin (sel0 view)) false = true ->
  line_above_is_a_syntax_test view = Ok false ->
  align view = Raise TypeError.
Proof.
  rewrite line_above_value. intros Hcur H. injection H as H.
  rewrite Hcur in H. cbn [andb] in H.
  unfold is_syntax_test_line in Hcur, H.
  destruct (comment_marker_match
              (get_details_of_test_assertion_line view (begin (sel0 view))))
    as [m|] eqn:Em; [|discriminate].
  unfold align. rewrite Em. cbn [is_some negb].
  rewrite region_of_marker by (rewrite Em; discriminate).
  cbn [bind].
  set (above := begin (line view (begin (sel0 view))) - 1) in *.
  destruct (details_cases view above) as [E | (token & _ & _ & Hr & Hm & _)].
  - exfalso. destruct (details_cases view (begin (sel0 view)))
      as [E0 | (token & Hfile & Htok & _)].
    + rewrite E0 in Em. discriminate.
    + unfold get_details_of_test_assertion_line in E.
      rewrite Hfile, Htok in E. discriminate.
  - rewrite Hr.
    destruct (comment_marker_match
                (get_details_of_test_assertion_line view above)) as [m'|].
    + cbn [is_some negb orb] in H.
      destruct (assertion_colrange
                  (get_details_of_test_assertion_line view above));
        [cbn in H; discriminate H | reflexivity].
    + now rewrite (Hm eq_refl).
Qed.

(** X16. [on_query_context] never raises.  It answers [None] for an
    operator other than the two equalities and for a key it does not
    know; for the three keys it knows it answers whether the context's
    value equals the operand, and with [OP_NOT_EQUAL] the opposite. *)
Theorem on_query_context_answers (view : View) (key : str) (operand : bool) :
  let value :=
    if str_eqb key (L "line_above_is_a_syntax_test")
    then Some (is_syntax_test_line view (begin (sel0 view)) false
               && is_syntax_test_line view
                    (begin (line view (begin (sel0 view))) - 1) true)
    else if str_eqb key (L "current_line_is_a_syntax_test")
    then Some (is_syntax_test_line view (begin (sel0 view)) false)
    else if str_eqb key (L "file_contains_syntax_tests")
    then Some (is_syntax_test_file view)
    else None in
  on_query_context view key OP_OTHER operand = Ok None
  /\ on_query_context view key OP_EQUAL operand
     = Ok (option_map (fun v => Bool.eqb v operand) value)
  /\ on_query_context view key OP_NOT_EQUAL operand
     = Ok (option_map (fun v => negb (Bool.eqb v operand)) value).
Proof.
  unfold on_query_context. rewrite line_above_value.
  split; [reflexivity|].
  split;
    (destruct (str_eqb key (L "line_above_is_a_syntax_test")); [reflexivity|];
     destruct (str_eqb key (L "current_line_is_a_syntax_test"));
       [reflexivity|];
     destruct (str_eqb key (L "file_contains_syntax_tests")); reflexivity).
Qed.

(* ================================================================== *)
(** * The highlight: its extent and its style flags *)
(* ================================================================== *)

Lemma colrange_ordered (view : View) (pos a b : Z) :
  assertion_colrange (get_details_of_test_assertion_line view pos)
  = Some (a, b) ->
  0 <= a <= b.
Proof.
  intros Hc.
  destruct (colrange_origin_of view pos (a, b) Hc)
    as (_ & token & _ & lead & after & ws & _ & _ & _ & Hcase).
  destruct Hcase as [(tail & _ & Hab) | (carets & tail & _ & _ & _ & Hab)];
    injection Hab as -> ->; unfold len; lia.
Qed.

(** X17. With an empty selection the handler, when it returns, either
    clears the highlight, the cursor's line having no colrange, or draws
    on the line being tested, as the walk returns it, the colrange of the
    cursor's line with the scope of the settings and the flags of the
    style loop; a zero-width colrange is widened by one column, so the
    region drawn is never empty. *)
Theorem highlight_for_caret_is_not_empty
    (attribute : str -> option py_value) (prefs : Settings) (view : View)
    (h : highlight) :
  empty (sel0 view) = true ->
  on_selection_modified_async attribute prefs view = Ok h ->
  let cursor_line :=
    get_details_of_test_assertion_line view (begin (sel0 view)) in
  (h = EraseRegions /\ assertion_colrange cursor_line = None)
  \/ exists others tested a b flags,
       get_details_of_line_being_tested view
       = Ok (Some (cursor_line :: others), Some tested)
       /\ assertion_colrange cursor_line = Some (a, b)
       /\ 0 <= a <= b
       /\ style_flags attribute (styles_for_syntax_test_highlight prefs) 0
          = Ok flags
       /\ h = AddRegions
                (mkRegion (begin tested + a)
                          (begin tested + (if b =? a then a + 1 else b)))
                (scope_for_syntax_test_highlight prefs) flags
       /\ size (mkRegion (begin tested + a)
                         (begin tested + (if b =? a then a + 1 else b)))
          = (if b =? a then 1 else b - a)
       /\ 0 < (if b =? a then 1 else b - a).
Proof.
  intros Hempty Hh cursor_line.
  unfold on_selection_modified_async in Hh. rewrite Hempty in Hh.
  destruct (get_details_of_line_being_tested view) as [[lines r]|e] eqn:Hrun;
    cbn [bind] in Hh; [|discriminate].
  destruct lines as [lines|].
  - pose proof (run_shape view lines r Hrun) as (_ & Hiff & _ & Hhead).
    fold cursor_line in Hiff, Hhead.
    destruct lines as [|l0 others].
    + injection Hh as <-. left. split; [reflexivity|].
      pose proof (proj1 Hiff eq_refl) as Hm.
      destruct (assertion_colrange cursor_line) as [c|] eqn:Hc;
        [|reflexivity].
      exfalso. apply (marker_of_colrange view (begin (sel0 view))); [|exact Hm].
      fold cursor_line. rewrite Hc. reflexivity.
    + pose proof (Hhead l0 others eq_refl) as ->.
      destruct (assertion_colrange cursor_line) as [[a b]|] eqn:Hc;
        [|injection Hh as <-; now left].
      pose proof (colrange_ordered view _ a b Hc) as Hab.
      right.
      destruct r as [tested|]; [|destruct (b =? a); discriminate].
      destruct (style_flags attribute
                  (styles_for_syntax_test_highlight prefs) 0)
        as [flags|e] eqn:Hs;
        [|destruct (b =? a); discriminate].
      exists others, tested, a, b, flags.
      split; [reflexivity|]. split; [reflexivity|]. split; [assumption|].
      split; [reflexivity|].
      destruct (Z.eqb_spec b a) as [-> | Hne]; cbn [bind] in Hh;
        injection Hh as <-;
        (split; [reflexivity|]); unfold size; cbn [reg_a reg_b]; lia.
  - injection Hh as <-. left. split; [reflexivity|].
    unfold get_details_of_line_being_tested in Hrun.
    destruct (is_syntax_test_file view) eqn:Hfile; cbn [negb] in Hrun.
    + destruct (walk _ view _ true [] None) as [[ls r']|e];
        cbn [bind] in Hrun; discriminate.
    + subst cursor_line. unfold get_details_of_test_assertion_line.
      now rewrite Hfile.
Qed.

Lemma firstn_plus {A} (x k : nat) (l : list A) :
  firstn (x + k) l = firstn x l ++ firstn k (skipn x l).
Proof.
  revert l; induction x as [|x IH]; intros l; [reflexivity|].
  destruct l as [|a l]; cbn [Nat.add firstn skipn app].
  - now rewrite firstn_nil.
  - now rewrite IH.
Qed.

Lemma same_line_begin (view : View) (x y : nat) :
  (x <= y <= length (text view))%nat ->
  all_in not_newline (firstn (y - x) (skipn x (text view))) ->
  begin (line view (Z.of_nat y)) = begin (line view (Z.of_nat x)).
Proof.
  intros Hxy Hmid.
  rewrite !SublimeFacts.line_begin.
  rewrite !SublimeFacts.clamp_of_nat by lia.
  set (mid := firstn (y - x) (skipn x (text view))) in *.
  assert (Hy : firstn y (text view) = firstn x (text view) ++ mid).
  { subst mid. replace y with (x + (y - x))%nat at 1 by lia.
    apply firstn_plus. }
  assert (Hlen : length mid = (y - x)%nat).
  { subst mid. rewrite length_firstn, length_skipn. lia. }
  rewrite Hy, rev_app_distr, span_app.
  - rewrite length_rev, Hlen. lia.
  - unfold all_in in Hmid. rewrite forallb_forall in *.
    intros c Hc. apply Hmid. now apply in_rev.
Qed.

(** X18. A selection made of carets only is highlighted as it stands:
    when the style loop returns its flags, the region drawn starts at the
    selection's column on the line being tested, is as wide as the
    selection, and carries the scope of the settings and those flags;
    when the style loop raises, the handler raises the same error. *)
Theorem highlight_of_selected_carets (attribute : str -> option py_value)
    (prefs : Settings) (view : View)
    (l0 : AssertionLineDetails) (others : list AssertionLineDetails)
    (region : Region) (colrange : Z * Z) (x y : nat) :
  get_details_of_line_being_tested view
  = Ok (Some (l0 :: others), Some region) ->
  assertion_colrange l0 = Some colrange ->
  (x < y <= length (text view))%nat ->
  sel0 view = mkRegion (Z.of_nat x) (Z.of_nat y)
  \/ sel0 view = mkRegion (Z.of_nat y) (Z.of_nat x) ->
  all_in (is_char caret) (substr view (sel0 view)) ->
  let col := snd (rowcol view (Z.of_nat x)) in
  (forall flags,
     style_flags attribute (styles_for_syntax_test_highlight prefs) 0
     = Ok flags ->
     on_selection_modified_async attribute prefs view
     = Ok (AddRegions (mkRegion (begin region + col)
                                (begin region + (col + Z.of_nat (y - x))))
                      (scope_for_syntax_test_highlight prefs) flags))
  /\ (forall e,
        style_flags attribute (styles_for_syntax_test_highlight prefs) 0
        = Raise e ->
        on_selection_modified_async attribute prefs view = Raise e).
Proof.
  intros Hrun Hc Hxy Hsel Hcarets col.
  assert (Hb : begin (sel0 view) = Z.of_nat x /\ end_ (sel0 view) = Z.of_nat y).
  { destruct Hsel as [-> | ->]; unfold begin, end_; cbn [reg_a reg_b]; lia. }
  destruct Hb as [Hb He].
  assert (Hsub : substr view (sel0 view)
                 = firstn (y - x) (skipn x (text view))).
  { unfold substr. rewrite Hb, He.
    now rewrite !SublimeFacts.clamp_of_nat by lia. }
  assert (Hne : substr view (sel0 view) <> []).
  { rewrite Hsub. intros Hnil. apply (f_equal (@length ascii)) in Hnil.
    rewrite length_firstn, length_skipn in Hnil. cbn [length] in Hnil. lia. }
  assert (Hmatch : is_some (Re.re_match carets_re (substr view (sel0 view)))
                   = true).
  { apply carets_match. exists (substr view (sel0 view)).
    split; [assumption|]. split; [assumption | now left]. }
  assert (Hnonempty : empty (sel0 view) = false).
  { unfold empty. apply Z.eqb_neq.
    destruct Hsel as [-> | ->]; cbn [reg_a reg_b]; lia. }
  destruct colrange as [col_start col_end].
  destruct (highlight_of_run attribute prefs view l0 others (Some region)
              col_start col_end Hrun Hc) as (region' & Hr & ->).
  injection Hr as <-.
  rewrite Hnonempty, Hmatch, Hb, He. cbn [negb andb].
  assert (Hcol : snd (rowcol view (Z.of_nat y)) = col + Z.of_nat (y - x)).
  { subst col. unfold rowcol. cbn [snd].
    rewrite !SublimeFacts.clamp_of_nat by lia.
    rewrite (same_line_begin view x y); [lia | lia |].
    rewrite <- Hsub. unfold all_in in *. rewrite forallb_forall in *.
    intros c Hin. apply Hcarets in Hin. apply is_char_eq in Hin.
    now subst c. }
  rewrite Hcol. fold col.
  split.
  - intros flags ->. reflexivity.
  - intros e ->. reflexivity.
Qed.

Lemma style_re_match (style : str) :
  is_some (Re.re_match style_re style) = true <-> looks_like_constant style.
Proof.
  unfold Re.re_match, looks_like_constant. split.
  - destruct (Re.exec style_re (Re.mkState 0 style [])) as [|f fs] eqn:E;
      [discriminate|].
    intros _.
    assert (Hf : In f (Re.exec style_re (Re.mkState 0 style []))).
    { rewrite E. now left. }
    unfold style_re in Hf.
    apply ReFacts.in_cat in Hf as (s1 & H1 & H2).
    apply ReFacts.in_plus in H1 as (p1 & Hn1 & Ha1 & (R1 & _ & _)).
    apply (proj1 (ReFacts.in_plus _ _ _)) in H2
      as (p2 & Hn2 & Ha2 & (R2 & _ & _)).
    cbn [Re.rest] in R1. rewrite R2 in R1.
    destruct p1 as [|c1 p1]; [contradiction|].
    apply all_in_cons in Ha1 as [Hc1 Ha1].
    destruct p1 as [|c2 p1].
    + destruct p2 as [|c2 p2]; [contradiction|].
      apply all_in_cons in Ha2 as [Hc2 _].
      exists c1, c2, (p2 ++ Re.rest f). now rewrite R1.
    + apply all_in_cons in Ha1 as [Hc2 _].
      exists c1, c2, (p1 ++ p2 ++ Re.rest f).
      split; [now rewrite R1|]. split; [assumption|].
      unfold is_upper_or_underscore. now rewrite Hc2.
  - intros (c1 & c2 & rest & -> & Hc1 & Hc2).
    assert (Hin : exists s',
               In s' (Re.exec style_re (Re.mkState 0 (c1 :: c2 :: rest) []))).
    { unfold style_re. eexists. apply ReFacts.in_cat. eexists. split.
      - apply ReFacts.in_plus. exists [c1]. split; [discriminate|].
        split; [now apply all_in_cons|].
        apply (DeclFacts.consumed_intro
                 (Re.mkState 0 (c1 :: c2 :: rest) []) [c1] (c2 :: rest)).
        reflexivity.
      - apply ReFacts.in_plus. exists [c2]. split; [discriminate|].
        split; [now apply all_in_cons|].
        apply (DeclFacts.consumed_intro
                 (Re.mkState (0 + 1) (c2 :: rest) []) [c2] rest).
        reflexivity. }
    destruct Hin as (s' & Hin).
    destruct (Re.exec style_re (Re.mkState 0 (c1 :: c2 :: rest) []));
      [destruct Hin | reflexivity].
Qed.

Lemma looks_like_constant_dec (style : str) :
  {looks_like_constant style} + {~ looks_like_constant style}.
Proof.
  destruct (is_some (Re.re_match style_re style)) eqn:E.
  - left. now apply style_re_match.
  - right. intros H. apply style_re_match in H. congruence.
Qed.

(** X19. A style name that looks like a constant but is no attribute of
    the [sublime] module makes the flag computation raise
    [AttributeError]; without such a name it returns flags, and a bit is
    set in them exactly when it is set in the initial flags or in the
    integer value of a listed name that looks like a constant.  Names
    that do not look like constants and values that are no integers
    contribute nothing. *)
Theorem style_flags_result (attribute : str -> option py_value)
    (styles : list str) (flags : Z) :
  ((exists style,
      In style styles /\ looks_like_constant style
      /\ attribute style = None) ->
   style_flags attribute styles flags = Raise AttributeError)
  /\ ((forall style,
         In style styles -> looks_like_constant style ->
         attribute style <> None) ->
      exists value,
        style_flags attribute styles flags = Ok value
        /\ forall i,
             Z.testbit value i = true <->
             Z.testbit flags i = true
             \/ exists style v,
                  In style styles /\ looks_like_constant style
                  /\ attribute style = Some (PyInt v)
                  /\ Z.testbit v i = true).
Proof.
  revert flags; induction styles as [|style styles IH]; intros flags.
  - split; [intros (s & [] & _)|]. intros _. exists flags.
    split; [reflexivity|]. intros i. split; [now left|].
    intros [H | (s & v & [] & _)]. assumption.
  - cbn [style_flags].
    destruct (is_some (Re.re_match style_re style)) eqn:E.
    + apply style_re_match in E.
      destruct (attribute style) as [[v|]|] eqn:Ea.
      * destruct (IH (Z.lor flags v)) as [IHbad IHok]. split.
        -- intros (s & [<- | Hin] & Hl & Hn); [congruence|].
           apply IHbad. now exists s.
        -- intros Hall.
           destruct IHok as (value & -> & Hbits).
           { intros s Hin. apply Hall. now right. }
           exists value. split; [reflexivity|].
           intros i. rewrite Hbits, Z.lor_spec, orb_true_iff. split.
           ++ intros [[H | H] | (s & w & Hin & Hl & Hs & Hw)].
              ** now left.
              ** right. exists style, v. repeat split; auto. now left.
              ** right. exists s, w. repeat split; auto. now right.
           ++ intros [H | (s & w & [<- | Hin] & Hl & Hs & Hw)].
              ** now left; left.
              ** left. right. congruence.
              ** right. exists s, w. now repeat split.
      * destruct (IH flags) as [IHbad IHok]. split.
        -- intros (s & [<- | Hin] & Hl & Hn); [congruence|].
           apply IHbad. now exists s.
        -- intros Hall.
           destruct IHok as (value & -> & Hbits).
           { intros s Hin. apply Hall. now right. }
           exists value. split; [reflexivity|].
           intros i. rewrite Hbits. split.
           ++ intros [H | (s & w & Hin & Hl & Hs & Hw)]; [now left|].
              right. exists s, w. repeat split; auto. now right.
           ++ intros [H | (s & w & [<- | Hin] & Hl & Hs & Hw)].
              ** now left.
              ** congruence.
              ** right. exists s, w. now repeat split.
      * split; [reflexivity|]. intros Hall. exfalso.
        apply (Hall style); [now left | assumption | assumption].
    + assert (Hno : ~ looks_like_constant style).
      { intros H. apply style_re_match in H. congruence. }
      destruct (IH flags) as [IHbad IHok]. split.
      * intros (s & [<- | Hin] & Hl & Hn); [contradiction|].
        apply IHbad. now exists s.
      * intros Hall.
        destruct IHok as (value & -> & Hbits).
        { intros s Hin. apply Hall. now right. }
        exists value. split; [reflexivity|].
        intros i. rewrite Hbits. split.
        -- intros [H | (s & w & Hin & Hl & Hs & Hw)]; [now left|].
           right. exists s, w. repeat split; auto. now right.
        -- intros [H | (s & w & [<- | Hin] & Hl & Hs & Hw)].
           ++ now left.
           ++ contradiction.
           ++ right. exists s, w. now repeat split.
Qed.

(* ================================================================== *)
(** * The run is a block of lines *)
(* ================================================================== *)

Lemma span_stop (p : ascii -> bool) (l : str) :
  (span p l < length l)%nat ->
  exists c post, l = firstn (span p l) l ++ c :: post /\ p c = false.
Proof.
  induction l as [|a l IH]; cbn [span length]; [lia|].
  destruct (p a) eqn:E.
  - intros H. destruct IH as (c & post & Hl & Hc); [lia|].
    exists c, post. cbn [firstn app]. now rewrite <- Hl.
  - intros _. exists a, l. now split.
Qed.

(** The position before a line's start belongs to the line above, and is
    that line's end. *)
Lemma previous_line_end (view : View) (pos : Z) :
  0 < begin (line view pos) ->
  end_ (line view (begin (line view pos) - 1)) = begin (line view pos) - 1.
Proof.
  intros Hpos. rewrite SublimeFacts.line_end.
  rewrite SublimeFacts.line_begin in *.
  set (i := clamp view pos) in *.
  set (back := span not_newline (rev (firstn i (text view)))) in *.
  pose proof (SublimeFacts.clamp_le view pos) as Hi. fold i in Hi.
  assert (Hlen : length (rev (firstn i (text view))) = i).
  { rewrite length_rev, length_firstn. lia. }
  destruct (span_stop not_newline (rev (firstn i (text view))))
    as (c & post & Hl & Hc); [fold back; lia|].
  fold back in Hl.
  set (pre := firstn back (rev (firstn i (text view)))) in *.
  assert (Hpre : length pre = back).
  { subst pre. rewrite length_firstn. lia. }
  assert (Hfirst : firstn i (text view) = rev post ++ c :: rev pre).
  { rewrite <- (rev_involutive (firstn i (text view))), Hl, rev_app_distr.
    cbn [rev]. now rewrite <- app_assoc. }
  assert (Hpost : length (rev post) = (i - back - 1)%nat).
  { apply (f_equal (@length ascii)) in Hl.
    rewrite Hlen, length_app in Hl. cbn [length] in Hl.
    rewrite length_rev. lia. }
  assert (Htext : text view
                  = rev post ++ c :: (rev pre ++ skipn i (text view))).
  { rewrite <- (firstn_skipn i (text view)) at 1. rewrite Hfirst.
    now rewrite <- app_assoc. }
  replace (Z.of_nat (i - back) - 1) with (Z.of_nat (i - back - 1)) by lia.
  rewrite SublimeFacts.clamp_of_nat by lia.
  replace (skipn (i - back - 1) (text view))
    with (c :: (rev pre ++ skipn i (text view))).
  - cbn [span]. rewrite Hc. lia.
  - rewrite Htext at 2. rewrite <- Hpost.
    now rewrite skipn_app, Nat.sub_diag, skipn_all.
Qed.

Lemma last_line_snoc (lines : list AssertionLineDetails)
    (d : AssertionLineDetails) :
  last_line (lines ++ [d]) = Some d.
Proof.
  unfold last_line. rewrite length_app. cbn [length].
  replace (length lines + 1 - 1)%nat with (length lines) by lia.
  rewrite nth_error_app2 by lia. now rewrite Nat.sub_diag.
Qed.

Lemma contiguous_snoc (lines : list AssertionLineDetails)
    (d : AssertionLineDetails) :
  contiguous lines ->
  (forall dl r rl,
     last_line lines = Some dl -> line_region dl = Some rl ->
     line_region d = Some r -> directly_above r rl) ->
  contiguous (lines ++ [d]).
Proof.
  intros Hc Hlast i d1 d2 r1 r2 H1 H2 Hr1 Hr2.
  destruct (Nat.lt_ge_cases (S i) (length lines)) as [Hlt | Hge].
  - rewrite nth_error_app1 in H1, H2 by lia.
    exact (Hc i d1 d2 r1 r2 H1 H2 Hr1 Hr2).
  - assert (Hi : S i = length lines).
    { apply Nat.le_antisymm; [|assumption].
      assert (Hsome : nth_error (lines ++ [d]) (S i) <> None) by congruence.
      apply nth_error_Some in Hsome. rewrite length_app in Hsome.
      cbn [length] in Hsome. lia. }
    rewrite nth_error_app1 in H1 by lia.
    rewrite nth_error_app2 in H2 by lia.
    replace (S i - length lines)%nat with 0%nat in H2 by lia.
    cbn [nth_error] in H2. injection H2 as <-.
    apply (Hlast d1 r2 r1); try assumption.
    unfold last_line. now replace (length lines - 1)%nat with i by lia.
Qed.

Lemma walk_contiguous (view : View) (fuel : nat) :
  forall pos first_line lines details ls r,
    walk fuel view pos first_line lines details = Ok (ls, r) ->
    contiguous lines ->
    (forall d, last_line lines = Some d -> details = Some d) ->
    (forall d lr, details = Some d -> line_region d = Some lr ->
                  pos = begin lr - 1 /\ exists q, lr = line view q) ->
    contiguous ls
    /\ forall d lr,
         last_line ls = Some d -> line_region d = Some lr ->
         (r = Some lr /\ begin lr = 0)
         \/ exists tested, r = Some tested /\ directly_above tested lr.
Proof.
  induction fuel as [|fuel IH]; intros pos first_line lines details ls r;
    cbn [walk]; destruct (Z.ltb_spec pos 0) as [Hneg|Hpos];
    try discriminate;
    try (destruct details as [d0|]; [|discriminate];
         intros H Hc Hlast Hdet; injection H as <- <-;
         split; [assumption|];
         intros d lr Hl Hr; left;
         apply Hlast in Hl; injection Hl as ->;
         split; [assumption|];
         destruct (Hdet d lr eq_refl Hr) as (Hp & q & ->);
         pose proof (SublimeFacts.line_begin_nonneg view q); lia).
  set (d := get_details_of_test_assertion_line view pos).
  destruct (line_region d) as [lr|] eqn:Hlr; [|discriminate].
  pose proof (details_region view pos lr Hlr) as Hline.
  intros H Hc Hlast Hdet.
  assert (Habove : forall dl rl,
             last_line lines = Some dl -> line_region dl = Some rl ->
             directly_above lr rl).
  { intros dl rl Hl Hrl. apply Hlast in Hl.
    destruct (Hdet dl rl Hl Hrl) as (Hp & q & ->).
    unfold directly_above. rewrite Hline, Hp.
    apply previous_line_end. lia. }
  assert (Hnext : forall p b,
             walk fuel view p b (lines ++ [d]) (Some d) = Ok (ls, r) ->
             p = begin lr - 1 ->
             contiguous ls
             /\ forall d0 lr0,
                  last_line ls = Some d0 -> line_region d0 = Some lr0 ->
                  (r = Some lr0 /\ begin lr0 = 0)
                  \/ exists tested,
                       r = Some tested /\ directly_above tested lr0).
  { intros p b Hw ->. apply IH in Hw; [assumption | | | ].
    - apply contiguous_snoc; [assumption|].
      intros dl r0 rl Hl Hrl Hr0. rewrite Hlr in Hr0. injection Hr0 as <-.
      now apply (Habove dl rl).
    - intros d0 Hl. rewrite last_line_snoc in Hl. now injection Hl as <-.
    - intros d0 lr0 Hd0 Hr0. injection Hd0 as <-.
      rewrite Hlr in Hr0. injection Hr0 as <-.
      split; [reflexivity|]. now exists pos. }
  assert (Hstop : Ok (lines, Some lr) = Ok (ls, r) ->
             contiguous ls
             /\ forall d0 lr0,
                  last_line ls = Some d0 -> line_region d0 = Some lr0 ->
                  (r = Some lr0 /\ begin lr0 = 0)
                  \/ exists tested,
                       r = Some tested /\ directly_above tested lr0).
  { intros Heq. injection Heq as <- <-. split; [assumption|].
    intros d0 lr0 Hl Hr0. right. exists lr. split; [reflexivity|].
    now apply (Habove d0 lr0). }
  destruct (is_some (assertion_colrange d)); [now apply (Hnext _ _ H)|].
  destruct (comment_marker_match d) as [m|]; cbn [is_some negb] in H;
    rewrite ?orb_true_r, ?orb_false_r in H.
  - destruct first_line; cbn [negb] in H.
    + now apply (Hnext _ _ H).
    + now apply Hstop.
  - now apply Hstop.
Qed.

(** X20. A returned run is a block of lines: each of its lines lies
    directly above the one before it, and the tested line lies directly
    above the topmost line of the run, unless the run reaches the first
    line of the buffer, when the region returned as the tested line is
    that topmost line's own. *)
Theorem run_is_contiguous (view : View) (lines : list AssertionLineDetails)
    (r : option Region) :
  get_details_of_line_being_tested view = Ok (Some lines, r) ->
  contiguous lines
  /\ forall d lr,
       last_line lines = Some d -> line_region d = Some lr ->
       (r = Some lr /\ begin lr = 0)
       \/ exists tested, r = Some tested /\ directly_above tested lr.
Proof.
  unfold get_details_of_line_being_tested.
  destruct (negb (is_syntax_test_file view)); [discriminate|].
  destruct (walk _ view _ true [] None) as [[ls r']|e] eqn:E; cbn [bind];
    [|discriminate].
  intros H. injection H as <- <-.
  apply walk_contiguous in E; [assumption | | | ].
  - intros i d d' r0 r1 H. destruct i; discriminate H.
  - intros d H. unfold last_line in H. discriminate H.
  - intros d lr H. discriminate H.
Qed.

(** Where the walk ends: off the top of the buffer, on the region of the
    line appended last, or on the line right above the topmost line of
    the run, which carries no colrange. *)
Lemma walk_stop (view : View) (fuel : nat) :
  forall pos first_line lines details ls r,
    walk fuel view pos first_line lines details = Ok (ls, r) ->
    (forall d, last_line lines = Some d -> details = Some d) ->
    (forall d lr, details = Some d -> line_region d = Some lr ->
                  pos = begin lr - 1 /\ exists q, lr = line view q) ->
    forall d lr,
      last_line ls = Some d -> line_region d = Some lr ->
      (r = Some lr /\ begin lr = 0)
      \/ (0 < begin lr
          /\ r = Some (line view (begin lr - 1))
          /\ assertion_colrange
               (get_details_of_test_assertion_line view (begin lr - 1))
             = None).
Proof.
  induction fuel as [|fuel IH]; intros pos first_line lines details ls r;
    cbn [walk]; destruct (Z.ltb_spec pos 0) as [Hneg|Hpos];
    try discriminate;
    try (destruct details as [d0|]; [|discriminate];
         intros H Hlast Hdet; injection H as <- <-;
         intros d lr Hl Hr; left;
         apply Hlast in Hl; injection Hl as ->;
         split; [assumption|];
         destruct (Hdet d lr eq_refl Hr) as (Hp & q & ->);
         pose proof (SublimeFacts.line_begin_nonneg view q); lia).
  set (d := get_details_of_test_assertion_line view pos).
  destruct (line_region d) as [lr|] eqn:Hlr; [|discriminate].
  pose proof (details_region view pos lr Hlr) as Hline.
  intros H Hlast Hdet.
  assert (Hnext : forall p b,
             walk fuel view p b (lines ++ [d]) (Some d) = Ok (ls, r) ->
             p = begin lr - 1 ->
             forall d0 lr0,
               last_line ls = Some d0 -> line_region d0 = Some lr0 ->
               (r = Some lr0 /\ begin lr0 = 0)
               \/ (0 < begin lr0
                   /\ r = Some (line view (begin lr0 - 1))
                   /\ assertion_colrange
                        (get_details_of_test_assertion_line view
                           (begin lr0 - 1))
                      = None)).
  { intros p b Hw ->. refine (IH _ _ _ _ _ _ Hw _ _).
    - intros d0 Hl. rewrite last_line_snoc in Hl. now injection Hl as <-.
    - intros d0 lr0 Hd0 Hr0. injection Hd0 as <-.
      rewrite Hlr in Hr0. injection Hr0 as <-.
      split; [reflexivity|]. now exists pos. }
  destruct (assertion_colrange d) as [c|] eqn:Hc; cbn [is_some] in H;
    [now apply (Hnext _ _ H)|].
  assert (Hstop : Ok (lines, Some lr) = Ok (ls, r) ->
             forall d0 lr0,
               last_line ls = Some d0 -> line_region d0 = Some lr0 ->
               (r = Some lr0 /\ begin lr0 = 0)
               \/ (0 < begin lr0
                   /\ r = Some (line view (begin lr0 - 1))
                   /\ assertion_colrange
                        (get_details_of_test_assertion_line view
                           (begin lr0 - 1))
                      = None)).
  { intros Heq. injection Heq as <- <-.
    intros d0 lr0 Hl Hr0. right.
    apply Hlast in Hl.
    destruct (Hdet d0 lr0 Hl Hr0) as (Hp & _).
    rewrite <- Hp. fold d. rewrite Hline.
    split; [lia|]. split; [reflexivity | assumption]. }
  destruct (comment_marker_match d) as [m|]; cbn [is_some negb] in H;
    rewrite ?orb_true_r, ?orb_false_r in H.
  - destruct first_line; cbn [negb] in H.
    + now apply (Hnext _ _ H).
    + now apply Hstop.
  - now apply Hstop.
Qed.

(** X21. In a syntax-test file with a declared start token the walk from
    the cursor returns a run and the region of the line being tested.
    Only the first line of the run may lack a colrange.  The run is empty
    exactly when the cursor's line is no comment line, and that line is
    then the one returned.  Otherwise the run starts with the cursor's
    line, and the walk has either passed the top of the buffer, returning
    the region of the topmost line of the run, or stopped on the line
    directly above the topmost line of the run, which carries no
    colrange and whose region is returned. *)
Theorem walk_of_declared_file (view : View) :
  is_syntax_test_file view = true ->
  fst (get_syntax_test_tokens view) <> None ->
  0 <= begin (sel0 view) ->
  let cursor_line :=
    get_details_of_test_assertion_line view (begin (sel0 view)) in
  exists lines tested,
    get_details_of_line_being_tested view = Ok (Some lines, Some tested)
    /\ (forall i d, nth_error lines (S i) = Some d ->
                    assertion_colrange d <> None)
    /\ ((lines = []
         /\ comment_marker_match cursor_line = None
         /\ assertion_colrange cursor_line = None
         /\ tested = line view (begin (sel0 view)))
        \/ exists others top lr,
             lines = cursor_line :: others
             /\ comment_marker_match cursor_line <> None
             /\ last_line lines = Some top
             /\ line_region top = Some lr
             /\ ((tested = lr /\ begin lr = 0)
                 \/ (0 < begin lr
                     /\ tested = line view (begin lr - 1)
                     /\ directly_above tested lr
                     /\ assertion_colrange
                          (get_details_of_test_assertion_line view
                             (begin lr - 1))
                        = None))).
Proof.
  intros Hfile Htok Hsel cursor_line.
  destruct (walk_returns view (S (Z.to_nat (begin (sel0 view)))) Hfile Htok
              (begin (sel0 view)) true [] None) as (ls & r & Hw);
    [lia | now left |].
  assert (Hg : get_details_of_line_being_tested view = Ok (Some ls, Some r)).
  { unfold get_details_of_line_being_tested. rewrite Hfile. cbn [negb].
    now rewrite Hw. }
  exists ls, r. split; [assumption|]. split.
  { intros i d Hn.
    pose proof (walk_tail_asserting view _ _ _ _ _ _ _ Hw
                  (fun _ => eq_refl) (Forall_nil _)) as Htl.
    rewrite Forall_forall in Htl. apply Htl.
    destruct ls as [|l0 ls]; [discriminate Hn|].
    cbn [tl nth_error] in *. now apply nth_error_In with (n := i). }
  destruct (run_shape view ls (Some r) Hg) as (Hmem & Hiff & Hr & Hhead).
  fold cursor_line in Hiff, Hhead.
  destruct ls as [|l0 others].
  - left. split; [reflexivity|].
    pose proof (proj1 Hiff eq_refl) as Hm. split; [assumption|].
    split.
    + destruct (assertion_colrange cursor_line) as [c|] eqn:Hc;
        [|reflexivity].
      exfalso.
      apply (marker_of_colrange view (begin (sel0 view))); [|exact Hm].
      fold cursor_line. now rewrite Hc.
    + specialize (Hr eq_refl). now injection Hr as ->.
  - right.
    pose proof (Hhead l0 others eq_refl) as ->.
    assert (Hlast : exists top, last_line (cursor_line :: others) = Some top).
    { unfold last_line.
      destruct (nth_error (cursor_line :: others)
                  (length (cursor_line :: others) - 1)) as [top|] eqn:E;
        [now exists top|].
      apply nth_error_None in E. cbn [length] in E. lia. }
    destruct Hlast as (top & Htop).
    assert (Hin : In top (cursor_line :: others)).
    { unfold last_line in Htop. now apply nth_error_In in Htop. }
    rewrite Forall_forall in Hmem.
    destruct (Hmem top Hin) as (q & Hq & -> & _ & _).
    pose proof (details_region_some view q Hfile Htok) as Hlr.
    exists others, (get_details_of_test_assertion_line view q), (line view q).
    split; [reflexivity|]. split.
    { intros Hm. assert (Hnil := proj2 Hiff Hm). discriminate Hnil. }
    split; [assumption|]. split; [assumption|].
    assert (Hc : forall d lr,
               last_line (cursor_line :: others) = Some d ->
               line_region d = Some lr ->
               (Some r = Some lr /\ begin lr = 0)
               \/ exists tested,
                    Some r = Some tested /\ directly_above tested lr).
    { apply (walk_contiguous view _ _ _ _ _ _ _ Hw).
      - intros i d d' r0 r1 H. destruct i; discriminate H.
      - intros d H. unfold last_line in H. discriminate H.
      - intros d lr H. discriminate H. }
    assert (Hs : forall d lr,
               last_line (cursor_line :: others) = Some d ->
               line_region d = Some lr ->
               (Some r = Some lr /\ begin lr = 0)
               \/ (0 < begin lr
                   /\ Some r = Some (line view (begin lr - 1))
                   /\ assertion_colrange
                        (get_details_of_test_assertion_line view
                           (begin lr - 1))
                      = None)).
    { apply (walk_stop view _ _ _ _ _ _ _ Hw).
      - intros d H. unfold last_line in H. discriminate H.
      - intros d lr H. discriminate H. }
    destruct (Hs _ _ Htop Hlr) as [(Hr1 & Hb) | (Hb & Hr1 & Hnone)].
    + left. injection Hr1 as ->. now split.
    + right. injection Hr1 as Hr1. split; [assumption|].
      split; [assumption|]. split; [|assumption].
      destruct (Hc _ _ Htop Hlr) as [(_ & Hb0) | (tested & Ht & Ha)];
        [lia|].
      now injection Ht as ->.
Qed.

(* ================================================================== *)
(** * Instances on the sample documents *)
(* ================================================================== *)

Section MoreInstances.
Import Samples MoreSamples.

Lemma comment_marker_iff_token_prefix_witness :
  is_syntax_test_line asserted 22 false = true.
Proof.
  apply (proj2 (comment_marker_iff_token_prefix asserted 22 (L "#")
                  ltac:(vm_compute; reflexivity)
                  ltac:(vm_compute; reflexivity))).
  exists [], (L " ^^ source"). split; [vm_compute; reflexivity | reflexivity].
Defined.

Lemma colrange_has_origin_witness :
  comment_marker_match (get_details_of_test_assertion_line asserted 22) <> None
  /\ exists token,
       fst (get_syntax_test_tokens asserted) = Some token
       /\ colrange_origin (substr asserted (line asserted 22)) token (2, 4).
Proof.
  apply (colrange_has_origin asserted 22 (2, 4)). vm_compute. reflexivity.
Defined.

Lemma colrange_within_line_witness :
  0 <= 2 <= 4 /\ 4 <= size (line asserted 22)
  /\ (2 < 4 ->
      all_in (is_char caret)
        (substr asserted (mkRegion (begin (line asserted 22) + 2)
                                   (begin (line asserted 22) + 4))))
  /\ (2 = 4 ->
      exists token,
        fst (get_syntax_test_tokens asserted) = Some token
        /\ substr asserted (mkRegion (begin (line asserted 22) + 2)
                                     (begin (line asserted 22) + (2 + len token)))
           = token).
Proof.
  apply (colrange_within_line asserted 22 2 4). vm_compute. reflexivity.
Defined.

Lemma is_syntax_test_line_modes_witness :
  is_syntax_test_line asserted 22 false = true.
Proof.
  apply (proj2 (proj2 (is_syntax_test_line_modes asserted 22))).
  vm_compute. reflexivity.
Defined.

Lemma unnamed_buffer_is_test_file_iff_witness :
  len (substr with_end_token (line with_end_token 0)) < 1000
  /\ exists token end_token,
       declaration_shape (substr with_end_token (line with_end_token 0))
         token end_token.
Proof.
  apply (proj1 (unnamed_buffer_is_test_file_iff with_end_token eq_refl)).
  vm_compute. reflexivity.
Defined.

Lemma named_file_is_test_file_iff_witness :
  is_syntax_test_file undeclared = true.
Proof.
  apply (proj2 (named_file_is_test_file_iff undeclared (L "/tests")
                  (L "syntax_test_a")
                  ltac:(intros H; vm_compute in H; intuition discriminate)
                  (or_intror eq_refl))).
  exists (L "a"). reflexivity.
Defined.

Lemma tokens_well_formed_witness :
  (Some (L "#") = None -> Some (L "-->") = None)
  /\ (forall token,
        Some (L "#") = Some token ->
        token <> [] /\ all_in non_space token
        /\ exists rest,
             substr with_end_token (line with_end_token 0) = token ++ rest)
  /\ (forall token,
        Some (L "-->") = Some token ->
        token <> [] /\ all_in non_space token
        /\ exists before,
             substr with_end_token (line with_end_token 0) = before ++ token).
Proof.
  apply (tokens_well_formed with_end_token (Some (L "#")) (Some (L "-->"))).
  vm_compute. reflexivity.
Defined.

Lemma declaration_line_is_comment_line_witness :
  is_syntax_test_line asserted 0 false = true
  /\ is_syntax_test_line asserted 0 true = false
  /\ assertion_colrange (get_details_of_test_assertion_line asserted 0) = None.
Proof.
  apply (declaration_line_is_comment_line asserted (L "#")).
  - vm_compute. reflexivity.
  - vm_compute. reflexivity.
Defined.

Lemma run_starts_at_cursor_line_witness :
  Forall (run_member in_progress)
    [get_details_of_test_assertion_line in_progress 38;
     get_details_of_test_assertion_line in_progress 22].
Proof.
  exact (proj1 (run_starts_at_cursor_line in_progress
                  [get_details_of_test_assertion_line in_progress 38;
                   get_details_of_test_assertion_line in_progress 22]
                  (Some (mkRegion 18 21))
                  ltac:(vm_compute; reflexivity))).
Defined.

Lemma commands_off_comment_line_witness :
  get_details_of_line_being_tested on_code_line
  = Ok (Some [], Some (line on_code_line (begin (sel0 on_code_line))))
  /\ suggest prefix_score on_code_line (L "^") = Raise IndexError
  /\ align on_code_line = Ok []
  /\ (forall attribute prefs,
        on_selection_modified_async attribute prefs on_code_line
        = Ok EraseRegions).
Proof.
  apply (commands_off_comment_line prefix_score on_code_line (L "^")).
  - vm_compute. reflexivity.
  - vm_compute. discriminate.
  - vm_compute. discriminate.
  - vm_compute. reflexivity.
Defined.

Lemma commands_without_declaration_witness :
  (forall pos,
     get_details_of_test_assertion_line undeclared pos
     = mkDetails None None None)
  /\ get_details_of_line_being_tested undeclared = Raise AttributeError
  /\ suggest prefix_score undeclared (L "^") = Raise AttributeError
  /\ (forall attribute prefs,
        on_selection_modified_async attribute prefs undeclared
        = Raise AttributeError)
  /\ align undeclared = Ok [].
Proof.
  apply (commands_without_declaration prefix_score undeclared (L "^")).
  - vm_compute. reflexivity.
  - vm_compute. reflexivity.
  - vm_compute. discriminate.
Defined.

Lemma merge_adds_distinct_scopes_witness :
  merge asserted true [get_details_of_test_assertion_line asserted 22]
    (mkRegion 18 21) [L "source.x"] = Ok [L "source.x"].
Proof.
  apply (merge_adds_distinct_scopes asserted
           (get_details_of_test_assertion_line asserted 22) []
           (mkRegion 18 21) [L "source.x"] 2 4).
  vm_compute. reflexivity.
Defined.

Lemma suggest_on_uniform_scope_witness :
  exists length lr0,
    line_region (get_details_of_test_assertion_line typed_caret 24) = Some lr0
    /\ scan typed_caret false (range 20 22) [] 0 = ([L "source.x"], length)
    /\ 1 <= length <= 2
    /\ (forall i, 0 <= i < length ->
                  scope_name typed_caret (20 + i) = L "source.x")
    /\ (20 + length = 22
        \/ scope_name typed_caret (20 + length) <> L "source.x")
    /\ suggest prefix_score typed_caret (L "^")
       = Ok ([Erase (mkRegion 24 25)]
             ++ [Insert 24 (repeat_str (L "^") (Z.to_nat length)
                            ++ L " " ++ [] ++ []);
                 SelClear;
                 SelAdd (mkRegion (24 + length)
                                  (24 + length + len (L " " ++ [] ++ [])))]).
Proof.
  apply (suggest_on_uniform_scope prefix_score typed_caret (L "^")
           (get_details_of_test_assertion_line typed_caret 24) []
           (mkRegion 18 21) 2 3).
  - vm_compute. reflexivity.
  - vm_compute. reflexivity.
  - discriminate.
  - vm_compute. discriminate.
  - intros p _. reflexivity.
  - intros c [<- | []]. vm_compute. reflexivity.
  - vm_compute. discriminate.
  - vm_compute. discriminate.
Defined.

Lemma align_under_its_context_witness :
  exists col_start col_end spaces,
    assertion_colrange (get_details_of_test_assertion_line below_assertion 33)
    = Some (col_start, col_end)
    /\ align below_assertion
       = Ok [InsertText 36 spaces; RunCommand (L "suggest_syntax_test")]
    /\ all_in (is_char " "%char) spaces
    /\ len spaces = Z.max 0 (col_end - 2).
Proof.
  apply (align_under_its_context below_assertion).
  vm_compute. reflexivity.
Defined.

Lemma align_outside_its_context_witness :
  align below_tested_line = Raise TypeError.
Proof.
  apply (align_outside_its_context below_tested_line).
  - vm_compute. reflexivity.
  - vm_compute. reflexivity.
Defined.

Lemma highlight_for_caret_is_not_empty_witness :
  let cursor_line := get_details_of_test_assertion_line asserted 22 in
  (AddRegions (mkRegion 20 22) (L "text") 32 = EraseRegions
   /\ assertion_colrange cursor_line = None)
  \/ exists others tested a b flags,
       get_details_of_line_being_tested asserted
       = Ok (Some (cursor_line :: others), Some tested)
       /\ assertion_colrange cursor_line = Some (a, b)
       /\ 0 <= a <= b
       /\ style_flags sublime_attribute
            (styles_for_syntax_test_highlight default_prefs) 0
          = Ok flags
       /\ AddRegions (mkRegion 20 22) (L "text") 32
          = AddRegions
              (mkRegion (begin tested + a)
                        (begin tested + (if b =? a then a + 1 else b)))
              (scope_for_syntax_test_highlight default_prefs) flags
       /\ size (mkRegion (begin tested + a)
                         (begin tested + (if b =? a then a + 1 else b)))
          = (if b =? a then 1 else b - a)
       /\ 0 < (if b =? a then 1 else b - a).
Proof.
  apply (highlight_for_caret_is_not_empty sublime_attribute default_prefs
           asserted).
  - vm_compute. reflexivity.
  - vm_compute. reflexivity.
Defined.

Lemma highlight_of_selected_carets_witness :
  on_selection_modified_async sublime_attribute default_prefs selected_carets
  = Ok (AddRegions (mkRegion (18 + 1) (18 + (1 + 2))) (L "text") 32).
Proof.
  apply (proj1 (highlight_of_selected_carets sublime_attribute default_prefs
                  selected_carets
                  (get_details_of_test_assertion_line selected_carets 23) []
                  (mkRegion 18 21) (1, 3) 23 25
                  ltac:(vm_compute; reflexivity)
                  ltac:(vm_compute; reflexivity)
                  ltac:(vm_compute; lia)
                  (or_introl eq_refl)
                  ltac:(vm_compute; reflexivity))).
  vm_compute. reflexivity.
Defined.

Lemma style_flags_result_witness :
  style_flags sublime_attribute [L "DRAW_NO_FILL"; L "DRAW_NO_FIL"] 0
  = Raise AttributeError.
Proof.
  apply (proj1 (style_flags_result sublime_attribute
                  [L "DRAW_NO_FILL"; L "DRAW_NO_FIL"] 0)).
  exists (L "DRAW_NO_FIL"). split; [right; now left|].
  split; [|reflexivity].
  exists "D"%char, "R"%char, (L "AW_NO_FIL"). now repeat split.
Defined.

Lemma run_is_contiguous_witness :
  contiguous [get_details_of_test_assertion_line in_progress 38;
              get_details_of_test_assertion_line in_progress 22].
Proof.
  apply (run_is_contiguous in_progress
           [get_details_of_test_assertion_line in_progress 38;
            get_details_of_test_assertion_line in_progress 22]
           (Some (mkRegion 18 21))).
  vm_compute. reflexivity.
Defined.

Lemma walk_of_declared_file_witness :
  let cursor_line := get_details_of_test_assertion_line in_progress 38 in
  exists lines tested,
    get_details_of_line_being_tested in_progress
    = Ok (Some lines, Some tested)
    /\ (forall i d, nth_error lines (S i) = Some d ->
                    assertion_colrange d <> None)
    /\ ((lines = []
         /\ comment_marker_match cursor_line = None
         /\ assertion_colrange cursor_line = None
         /\ tested = line in_progress 38)
        \/ exists others top lr,
             lines = cursor_line :: others
             /\ comment_marker_match cursor_line <> None
             /\ last_line lines = Some top
             /\ line_region top = Some lr
             /\ ((tested = lr /\ begin lr = 0)
                 \/ (0 < begin lr
                     /\ tested = line in_progress (begin lr - 1)
                     /\ directly_above tested lr
                     /\ assertion_colrange
                          (get_details_of_test_assertion_line in_progress
                             (begin lr - 1))
                        = None))).
Proof.
  apply (walk_of_declared_file in_progress).
  - vm_compute. reflexivity.
  - vm_compute. discriminate.
  - vm_compute. discriminate.
Defined.

End MoreInstances.
